(** * Articoli_Sec_8k.py: press-release selection, fetch/retry and text
      extraction, embedded in Rocq.

    Python [str] values are modelled by [string]; a character is an 8-bit
    code point read as Latin-1 (U+0000 .. U+00FF), on which [str.lower],
    [str.isspace] and the regular expression class [\s] are modelled
    exactly.  Integers are [Z].  Code that can raise returns a [result]. *)

From Stdlib Require Import String Ascii List ZArith Lia Bool Arith.
From Stdlib Require Import Permutation.
Import ListNotations.
Open Scope string_scope.
Open Scope Z_scope.

(** ** Python string primitives *)

Module PyStr.

Definition code (c : ascii) : N := N_of_ascii c.

(** [str.isspace] / regex [\s] on one code point below 256:
    U+0009..U+000D, U+001C..U+001F, U+0020, U+0085, U+00A0. *)
Definition isspace (c : ascii) : bool :=
  let n := code c in
  ((9 <=? n) && (n <=? 13) || (28 <=? n) && (n <=? 32)
   || (n =? 133) || (n =? 160))%N.

(** [str.lower] on one code point below 256: A-Z and the Latin-1
    capitals U+00C0..U+00DE (U+00D7 excepted) move up by 32. *)
Definition lower_char (c : ascii) : ascii :=
  let n := code c in
  if ((65 <=? n) && (n <=? 90)
      || (192 <=? n) && (n <=? 222) && negb (n =? 215))%N
  then ascii_of_N (n + 32) else c.

Fixpoint lower (s : string) : string :=
  match s with
  | EmptyString => EmptyString
  | String c s' => String (lower_char c) (lower s')
  end.

(** [s.startswith(p)] *)
Fixpoint startswith (s p : string) : bool :=
  match p, s with
  | EmptyString, _ => true
  | String _ _, EmptyString => false
  | String a p', String b s' => Ascii.eqb a b && startswith s' p'
  end.

(** [p in s] *)
Fixpoint contains (p s : string) : bool :=
  startswith s p ||
  match s with
  | EmptyString => false
  | String _ s' => contains p s'
  end.

(** [s.endswith(p)] *)
Fixpoint endswith (s p : string) : bool :=
  String.eqb s p ||
  match s with
  | EmptyString => false
  | String _ s' => endswith s' p
  end.

(** [s.replace(c, "")] for a one-character [c] *)
Fixpoint remove_char (c : ascii) (s : string) : string :=
  match s with
  | EmptyString => EmptyString
  | String a s' =>
      if Ascii.eqb a c then remove_char c s' else String a (remove_char c s')
  end.

Fixpoint lstrip (s : string) : string :=
  match s with
  | EmptyString => EmptyString
  | String c s' => if isspace c then lstrip s' else s
  end.

Fixpoint rstrip (s : string) : string :=
  match s with
  | EmptyString => EmptyString
  | String c s' =>
      match rstrip s' with
      | EmptyString => if isspace c then EmptyString else String c EmptyString
      | r => String c r
      end
  end.

(** [s.strip()] *)
Definition strip (s : string) : string := rstrip (lstrip s).

(** [re.sub(r"\s+", " ", s)]: [in_ws] records that the previous
    character belonged to the current whitespace run. *)
Fixpoint collapse_from (in_ws : bool) (s : string) : string :=
  match s with
  | EmptyString => EmptyString
  | String c s' =>
      if isspace c
      then (if in_ws then collapse_from true s'
            else String " " (collapse_from true s'))
      else String c (collapse_from false s')
  end.

Definition collapse_ws (s : string) : string := collapse_from false s.

(** [sep.join(parts)] *)
Fixpoint join (sep : string) (parts : list string) : string :=
  match parts with
  | [] => EmptyString
  | [p] => p
  | p :: rest => p ++ sep ++ join sep rest
  end.

(** [len(s)] *)
Definition len (s : string) : Z := Z.of_nat (String.length s).

End PyStr.


(** ** Exceptions and the error monad *)

Inductive exn : Type :=
| AttributeError
| TypeError
| ValueError
| ConnectionError
| HTTPError (status : Z)
| JSONDecodeError
| ParserRejectedMarkup.

Inductive result (A : Type) : Type :=
| Ok (a : A)
| Raise (e : exn).
Arguments Ok {A} a.
Arguments Raise {A} e.

Class Monad (M : Type -> Type) : Type := {
  ret : forall {A}, A -> M A;
  bind : forall {A B}, M A -> (A -> M B) -> M B
}.

Declare Scope monad_scope.
Delimit Scope monad_scope with monad.
Notation "x <- c1 ;; c2" := (bind c1 (fun x => c2))
  (at level 61, c1 at next level, right associativity) : monad_scope.
Notation "c1 ;; c2" := (bind c1 (fun _ => c2))
  (at level 61, right associativity) : monad_scope.
Open Scope monad_scope.

#[global] Instance Monad_result : Monad result := {
  ret := fun A a => Ok a;
  bind := fun A B m k => match m with Ok a => k a | Raise e => Raise e end
}.

(** ** JSON values as Python objects

    [json.loads] yields None, bool, int, str, list and dict (numbers are
    modelled by integers).  A dict keeps its items as an association
    list; [dict.get] finds the binding of the key. *)

#[warnings="-register-all"] Inductive json : Type :=
| JNull
| JBool (b : bool)
| JNum (n : Z)
| JStr (s : string)
| JArr (l : list json)
| JObj (kv : list (string * json)).

(** Python truth value *)
Definition truthy (v : json) : bool :=
  match v with
  | JNull => false
  | JBool b => b
  | JNum n => negb (n =? 0)
  | JStr s => negb (String.eqb s "")
  | JArr l => match l with [] => false | _ => true end
  | JObj kv => match kv with [] => false | _ => true end
  end.

Fixpoint assoc (k : string) (kv : list (string * json)) : option json :=
  match kv with
  | [] => None
  | (k', v) :: rest => if String.eqb k' k then Some v else assoc k rest
  end.

(** [d.get(key, default)]; only dicts have [get]. *)
Definition dict_get (d : json) (key : string) (default : json) : result json :=
  match d with
  | JObj kv => Ok (match assoc key kv with Some v => v | None => default end)
  | _ => Raise AttributeError
  end.

(** [(v or "")] followed by a [str] method call: a falsy value becomes
    the empty string, a truthy non-string has no such method. *)
Definition or_empty (v : json) : result string :=
  if truthy v then
    match v with
    | JStr s => Ok s
    | _ => Raise AttributeError
    end
  else Ok "".

(** Iteration [for it in v]. *)
Fixpoint chars (s : string) : list json :=
  match s with
  | EmptyString => []
  | String c s' => JStr (String c EmptyString) :: chars s'
  end.

Definition py_iter (v : json) : result (list json) :=
  match v with
  | JArr l => Ok l
  | JObj kv => Ok (map (fun p => JStr (fst p)) kv)
  | JStr s => Ok (chars s)
  | _ => Raise TypeError
  end.

(** ** Attachment Selector (lines 27-30, 73-113, 135-143) *)

Definition PRESS_KEYWORDS : list string :=
  [ "press release"; "earnings release"; "news release";
    "conference call"; "prepared remarks"; "investor presentation" ].

Definition is_text_file (name : json) : result bool :=
  s <- or_empty name ;;
  let n := PyStr.lower s in
  ret (PyStr.endswith n ".htm" || PyStr.endswith n ".html"
       || PyStr.endswith n ".txt").

Definition normalize (s : json) : result string :=
  s' <- or_empty s ;;
  ret (PyStr.strip (PyStr.collapse_ws (PyStr.lower s'))).

Definition score_item (item : json) : result Z :=
  raw_name <- dict_get item "name" (JStr "") ;;
  name <- normalize raw_name ;;
  raw_type <- dict_get item "type" (JStr "") ;;
  typ <- normalize raw_type ;;
  let score := 0 in
  let score :=
    if PyStr.contains "99.1" typ || PyStr.contains "99.01" typ
       || PyStr.contains "ex-99" typ
    then score + 100 else score in
  let score :=
    if PyStr.contains "ex-99.1" typ || PyStr.contains "ex-99.01" typ
    then score + 120 else score in
  let score :=
    if PyStr.contains "ex99" name || PyStr.contains "ex-99" name
    then score + 50 else score in
  let score :=
    if PyStr.contains "99_1" name || PyStr.contains "99-1" name
       || PyStr.contains "99.1" name || PyStr.contains "9901" name
    then score + 30 else score in
  let score :=
    fold_left (fun sc kw => if PyStr.contains kw name then sc + 20 else sc)
              PRESS_KEYWORDS score in
  raw_name' <- dict_get item "name" (JStr "") ;;
  txt <- is_text_file raw_name' ;;
  ret (if (txt : bool) then score + 10 else score - 100).

(** [[it for it in items if is_text_file(it.get("name", ""))]] *)
Fixpoint text_candidates (items : list json) : result (list json) :=
  match items with
  | [] => ret []
  | it :: rest =>
      n <- dict_get it "name" (JStr "") ;;
      keep <- is_text_file n ;;
      tl <- text_candidates rest ;;
      ret (if (keep : bool) then it :: tl else tl)
  end.

(** [max(candidates, key=...)]: the running maximum is replaced only by
    a strictly greater key. *)
Fixpoint max_loop (key : json -> result Z) (rest : list json)
         (maxitem : json) (maxval : Z) : result json :=
  match rest with
  | [] => ret maxitem
  | it :: rest' =>
      v <- key it ;;
      if v >? maxval then max_loop key rest' it v
      else max_loop key rest' maxitem maxval
  end.

Definition py_max (key : json -> result Z) (first : json) (rest : list json)
  : result json :=
  v <- key first ;;
  max_loop key rest first v.

(** Lines 135-143 of [download_best_press_release]: the pre-filter, the
    choice of the best candidate and the acceptance threshold. *)
Definition select_best (items : list json) : result (option json) :=
  candidates <- text_candidates items ;;
  match candidates with
  | [] => ret None
  | c :: cs =>
      best <- py_max score_item c cs ;;
      s <- score_item best ;;
      if s <? 20 then ret None else ret (Some best)
  end.

Definition descriptor (name typ : string) : json :=
  JObj [("name", JStr name); ("type", JStr typ)].

(** ** Markup Text Extractor (lines 55-71)

    [BeautifulSoup(content, "html.parser")] builds a tree of page
    elements; the passes of [clean_html_to_text] act on that tree.
    [NavigableString] is a text node that [get_text] yields, [Comment]
    stands for the string kinds it skips (comments, declarations), and a
    [Tag] carries its name, its attribute dict and its contents. *)

#[warnings="-register-all"] Inductive node : Type :=
| NavigableString (s : string)
| Comment (s : string)
| Tag (name : string) (attrs : list (string * string)) (contents : list node).

Definition soup : Type := list node.

Fixpoint attr (k : string) (attrs : list (string * string)) : option string :=
  match attrs with
  | [] => None
  | (k', v) :: rest => if String.eqb k' k then Some v else attr k rest
  end.

(** [for t in soup.find_all(p): t.decompose()]: every matching tag
    leaves the tree together with its descendants. *)
Fixpoint decompose_all (p : string -> list (string * string) -> bool)
         (n : node) : list node :=
  match n with
  | Tag name attrs contents =>
      if p name attrs then []
      else [Tag name attrs (flat_map (decompose_all p) contents)]
  | _ => [n]
  end.

(** [soup(["script", "style"])] *)
Definition script_or_style (name : string) (_ : list (string * string)) : bool :=
  String.eqb name "script" || String.eqb name "style".

(** [lambda t: t.name and str(t.name).lower().startswith("ix:")] *)
Definition inline_xbrl (name : string) (_ : list (string * string)) : bool :=
  negb (String.eqb name "")
  && PyStr.startswith (PyStr.lower name) "ix:".

(** [lambda v: v and "display:none" in v.replace(" ", "").lower()] *)
Definition hidden_style (v : option string) : bool :=
  match v with
  | None => false
  | Some v =>
      negb (String.eqb v "")
      && PyStr.contains "display:none" (PyStr.lower (PyStr.remove_char " " v))
  end.

Definition hidden (_ : string) (attrs : list (string * string)) : bool :=
  hidden_style (attr "style" attrs).

(** The tree left by the three removal loops. *)
Definition visible (s : soup) : soup :=
  flat_map (decompose_all hidden)
    (flat_map (decompose_all inline_xbrl)
       (flat_map (decompose_all script_or_style) s)).

Fixpoint all_strings (n : node) : list string :=
  match n with
  | NavigableString s => [s]
  | Comment _ => []
  | Tag _ _ contents => flat_map all_strings contents
  end.

(** [soup.get_text(separator=" ", strip=True)] *)
Definition get_text (s : soup) : string :=
  PyStr.join " "
    (filter (fun t => negb (String.eqb t ""))
       (map PyStr.strip (flat_map all_strings s))).

(** Lines 58-71, on the parsed tree. *)
Definition extract_text (s : soup) : string :=
  PyStr.strip (PyStr.collapse_ws (get_text (visible s))).

(** *** The tree builder on plain markup

    [html_parser] models what [BeautifulSoup(_, "html.parser")] builds for
    documents made of character data, the references [&lt;] [&gt;]
    [&amp;], and properly nested start and end tags, without attributes,
    of the ordinary elements [plain_tags]; it answers [None] on any other
    document. *)

Definition plain_tags : list string :=
  [ "b"; "i"; "em"; "p"; "div"; "span" ].

Definition entity (name : string) : option ascii :=
  if String.eqb name "lt" then Some "<"%char
  else if String.eqb name "gt" then Some ">"%char
  else if String.eqb name "amp" then Some "&"%char
  else None.

Definition is_lower_letter (c : ascii) : bool :=
  let n := PyStr.code c in ((97 <=? n) && (n <=? 122))%N.

(** ASCII_SPACES of Beautiful Soup: space, LF, TAB, FF, CR. *)
Definition ascii_space (c : ascii) : bool :=
  let n := PyStr.code c in
  ((n =? 32) || (n =? 10) || (n =? 9) || (n =? 12) || (n =? 13))%N.

Fixpoint all_chars (p : ascii -> bool) (s : string) : bool :=
  match s with
  | EmptyString => true
  | String c s' => p c && all_chars p s'
  end.

Fixpoint has_char (c : ascii) (s : string) : bool :=
  match s with
  | EmptyString => false
  | String a s' => Ascii.eqb a c || has_char c s'
  end.

Fixpoint rev_string (acc s : string) : string :=
  match s with
  | EmptyString => acc
  | String c s' => rev_string (String c acc) s'
  end.

(** [endData]: the pending character data becomes one string; data made
    of ASCII spaces only shrinks to a newline or a space.  [buf] holds
    the data in reverse, [cur] the siblings built so far in reverse. *)
Definition end_data (buf : string) (cur : list node) : list node :=
  match buf with
  | EmptyString => cur
  | _ =>
      let data := rev_string "" buf in
      let data :=
        if all_chars ascii_space data
        then (if has_char "010"%char data then String "010"%char "" else " ")
        else data in
      NavigableString data :: cur
  end.

Inductive mode : Type :=
| Data
| Reference (name : string)
| TagOpen
| StartTag (name : string)
| EndTag (name : string).

(** The open elements, innermost first, each with the siblings that
    precede it. *)
Definition frames : Type := list (string * list node).

Fixpoint feed (doc : string) (m : mode) (buf : string) (cur : list node)
         (stack : frames) : option soup :=
  match doc with
  | EmptyString =>
      match m, stack with
      | Data, [] => Some (rev (end_data buf cur))
      | _, _ => None
      end
  | String c doc' =>
      match m with
      | Data =>
          if Ascii.eqb c "<" then feed doc' TagOpen buf cur stack
          else if Ascii.eqb c "&" then feed doc' (Reference "") buf cur stack
          else feed doc' Data (String c buf) cur stack
      | Reference name =>
          if Ascii.eqb c ";" then
            match entity (rev_string "" name) with
            | Some ch => feed doc' Data (String ch buf) cur stack
            | None => None
            end
          else if is_lower_letter c
          then feed doc' (Reference (String c name)) buf cur stack
          else None
      | TagOpen =>
          if Ascii.eqb c "/" then feed doc' (EndTag "") buf cur stack
          else if is_lower_letter c
          then feed doc' (StartTag (String c "")) buf cur stack
          else None
      | StartTag name =>
          if Ascii.eqb c ">" then
            let name := rev_string "" name in
            if existsb (String.eqb name) plain_tags
            then feed doc' Data "" [] ((name, end_data buf cur) :: stack)
            else None
          else if is_lower_letter c
          then feed doc' (StartTag (String c name)) buf cur stack
          else None
      | EndTag name =>
          if Ascii.eqb c ">" then
            match stack with
            | (open, siblings) :: stack' =>
                if String.eqb open (rev_string "" name)
                then feed doc' Data ""
                       (Tag open [] (rev (end_data buf cur)) :: siblings) stack'
                else None
            | [] => None
            end
          else if is_lower_letter c
          then feed doc' (EndTag (String c name)) buf cur stack
          else None
      end
  end.

Definition html_parser (doc : string) : option soup :=
  feed doc Data "" [] [].

(** ** Rate-Limited Fetch Client (lines 17-53)

    The remote service is a script of outcomes, one per call of
    [session.get], in call order: a response, or [None] when the transport
    raises; a call past the end of the script raises as well.  The trace
    records the requests and the sleeps, in milliseconds. *)

Record response : Type := {
  status_code : Z;
  content : string;
  json_body : option json   (* what [r.json()] decodes; None: it raises *)
}.

Inductive event : Type :=
| Slept (ms : Z)
| Requested (url : string).

Record world : Type := {
  incoming : list (option response);
  trace : list event
}.

Definition io (A : Type) : Type := world -> result A * world.

#[global] Instance Monad_io : Monad io := {
  ret := fun A a w => (Ok a, w);
  bind := fun A B m k w =>
    match m w with
    | (Ok a, w') => k a w'
    | (Raise e, w') => (Raise e, w')
    end
}.

Definition raise {A : Type} (e : exn) : io A := fun w => (Raise e, w).

Definition lift {A : Type} (r : result A) : io A := fun w => (r, w).

(** [try: body except Exception: handler] *)
Definition try_except {A : Type} (body : io A) (handler : io A) : io A :=
  fun w =>
    match body w with
    | (Ok a, w') => (Ok a, w')
    | (Raise _, w') => handler w'
    end.

Definition log (e : event) : io unit :=
  fun w => (Ok tt, {| incoming := incoming w; trace := trace w ++ [e] |}).

(** [time.sleep(seconds)], in milliseconds *)
Definition time_sleep (ms : Z) : io unit := log (Slept ms).

Definition SLEEP_SEC : Z := 250.

Definition sleep : io unit := time_sleep SLEEP_SEC.

(** [session.get(url, timeout=timeout)] *)
Definition session_get (url : string) : io response :=
  fun w =>
    let w' := {| incoming := tl (incoming w);
                 trace := trace w ++ [Requested url] |} in
    match incoming w with
    | Some r :: _ => (Ok r, w')
    | _ => (Raise ConnectionError, w')
    end.

(** [1.0 + i * 1.5] seconds *)
Definition backoff (i : Z) : Z := 1000 + i * 1500.

(** The loop [for i in range(tries)] of [get_with_retry], with
    [remaining] iterations to go. *)
Fixpoint retry_loop (url : string) (remaining : nat) (i : Z)
         (last : option response) : io (option response) :=
  match remaining with
  | O => ret last
  | S k =>
      sleep ;;
      r <- session_get url ;;
      if status_code r =? 429 then
        time_sleep (backoff i) ;; retry_loop url k (i + 1) (Some r)
      else if status_code r >=? 500 then
        time_sleep (backoff i) ;; retry_loop url k (i + 1) (Some r)
      else ret (Some r)
  end.

Definition get_with_retry (url : string) (tries : nat) : io (option response) :=
  retry_loop url tries 0 None.

Definition default_tries : nat := 4.

(** [r.raise_for_status()] *)
Definition raise_for_status (r : response) : io unit :=
  if (400 <=? status_code r) && (status_code r <? 600)
  then raise (HTTPError (status_code r)) else ret tt.

(** Attribute access [r.status_code], [r.content] on what
    [get_with_retry] returned. *)
Definition the_response (r : option response) : io response :=
  match r with
  | Some r => ret r
  | None => raise AttributeError
  end.

Definition get_json (url : string) : io json :=
  r <- get_with_retry url default_tries ;;
  r <- the_response r ;;
  raise_for_status r ;;
  match json_body r with
  | Some v => ret v
  | None => raise JSONDecodeError
  end.

(** ** Filing Processor (lines 115-162) *)

Record press_release : Type := {
  ExhibitFile : json;
  ExhibitType : json;
  URL : string;
  Text : string
}.

Section Processor.

(** [str(int(cik))]; [None] when [int] raises ValueError. *)
Variable str_int : string -> option string.

(** [BeautifulSoup(content, "html.parser")]; [None] when the builder
    rejects the markup. *)
Variable BeautifulSoup : string -> option soup.

(** Formatting, in an f-string, of a value that is not a [str]. *)
Variable format_other : json -> string.

Definition format (v : json) : string :=
  match v with
  | JStr s => s
  | _ => format_other v
  end.

Definition clean_html_to_text (content : string) : result string :=
  match BeautifulSoup content with
  | Some s => Ok (extract_text s)
  | None => Raise ParserRejectedMarkup
  end.

Definition archives : string := "https://www.sec.gov/Archives/edgar/data/".

Definition list_accession_files (cik accession : string)
  : io (json * string * string) :=
  cik_short <- lift (match str_int cik with
                     | Some s => Ok s
                     | None => Raise ValueError
                     end) ;;
  let accession_clean := PyStr.remove_char "-" accession in
  let idx_url :=
    archives ++ cik_short ++ "/" ++ accession_clean ++ "/index.json" in
  try_except
    (data <- get_json idx_url ;;
     directory <- lift (dict_get data "directory" (JObj [])) ;;
     items <- lift (dict_get directory "item" (JArr [])) ;;
     ret (items, cik_short, accession_clean))
    (ret (JArr [], cik_short, accession_clean)).

Definition download_best_press_release (cik accession : string)
  : io (option press_release) :=
  listing <- list_accession_files cik accession ;;
  let '(items, cik_short, accession_clean) := listing in
  if negb (truthy items) then ret None else
  entries <- lift (py_iter items) ;;
  best <- lift (select_best entries) ;;
  match best with
  | None => ret None
  | Some best =>
      filename <- lift (dict_get best "name" JNull) ;;
      filetype <- lift (dict_get best "type" (JStr "")) ;;
      let file_url :=
        archives ++ cik_short ++ "/" ++ accession_clean ++ "/"
        ++ format filename in
      r <- get_with_retry file_url default_tries ;;
      r <- the_response r ;;
      if negb (status_code r =? 200) then ret None else
      text <- lift (clean_html_to_text (content r)) ;;
      if PyStr.len text <? 1000 then ret None else
      ret (Some {| ExhibitFile := filename; ExhibitType := filetype;
                   URL := file_url; Text := text |})
  end.

End Processor.

(** ** The specification's vocabulary

    Definitions that follow the words of the specification, to be
    compared with the code above. *)

Module Spec.

(** "lower-cased, whitespace-normalized copy" of a string *)
Definition normalized_copy (s : string) : string :=
  PyStr.strip (PyStr.collapse_ws (PyStr.lower s)).

Definition contains_any (patterns : list string) (s : string) : bool :=
  existsb (fun p => PyStr.contains p s) patterns.

(** One row of the signal table of section 4.3: a condition on the
    name and the type, and its points. *)
Record signal : Type := {
  fires : string -> string -> bool;
  points : Z
}.

Definition keyword_signal (kw : string) : signal :=
  {| fires := fun name _ => PyStr.contains kw name; points := 20 |}.

Definition signal_table : list signal :=
  [ {| fires := fun _ typ => contains_any ["99.1"; "99.01"; "ex-99"] typ;
       points := 100 |};
    {| fires := fun _ typ => contains_any ["ex-99.1"; "ex-99.01"] typ;
       points := 120 |};
    {| fires := fun name _ => contains_any ["ex99"; "ex-99"] name;
       points := 50 |};
    {| fires := fun name _ =>
                  contains_any ["99_1"; "99-1"; "99.1"; "9901"] name;
       points := 30 |} ]
  ++ map keyword_signal PRESS_KEYWORDS.

(** All applicable bonuses accumulate. *)
Definition table_points (name typ : string) : Z :=
  fold_right
    (fun sg acc => (if fires sg name typ then points sg else 0) + acc)
    0 signal_table.

(** "filename extension is .htm/.html/.txt", case-insensitive *)
Definition textual_extension (filename : string) : bool :=
  existsb (PyStr.endswith (PyStr.lower filename)) [".htm"; ".html"; ".txt"].

Definition extension_points (filename : string) : Z :=
  if textual_extension filename then 10 else -100.

(** The score as section 4.3 words it: every row, the extension row
    included, read on the normalized copies. *)
Definition stated_score (name typ : string) : Z :=
  let n := normalized_copy name in
  let t := normalized_copy typ in
  table_points n t + extension_points n.

(** The score with the extension row read on the filename itself. *)
Definition table_score (name typ : string) : Z :=
  table_points (normalized_copy name) (normalized_copy typ)
  + extension_points name.

Definition acceptance_threshold : Z := 20.

Definition minimum_text_length : Z := 1000.

(** HTTP status classes *)
Definition valid_status (s : Z) : Prop := 100 <= s <= 599.

Definition retryable (s : Z) : bool :=
  (s =? 429) || ((500 <=? s) && (s <=? 599)).

Fixpoint spaces (n : nat) : string :=
  match n with
  | O => EmptyString
  | S k => String " " (spaces k)
  end.

(** A style string holding a "display:none" declaration, whatever the
    case of its letters and the number of spaces around the colon. *)
Definition display_none_declaration (style : string) : Prop :=
  exists before display n m none after,
    style = before ++ display ++ spaces n ++ ":" ++ spaces m ++ none ++ after
    /\ PyStr.lower display = "display"
    /\ PyStr.lower none = "none".

(** The same with any whitespace around the colon. *)
Definition display_none_any_whitespace (style : string) : Prop :=
  exists before display ws1 ws2 none after,
    style = before ++ display ++ ws1 ++ ":" ++ ws2 ++ none ++ after
    /\ PyStr.lower display = "display"
    /\ PyStr.lower none = "none"
    /\ Forall (fun c => PyStr.isspace c = true) (list_ascii_of_string ws1)
    /\ Forall (fun c => PyStr.isspace c = true) (list_ascii_of_string ws2).

(** Text free of the characters that start markup *)
Definition no_markup (s : string) : bool :=
  negb (has_char "<" s) && negb (has_char "&" s).

End Spec.

(** Every tag of a tree, at any depth, with its attributes. *)
Fixpoint tags_of (n : node) : list (string * list (string * string)) :=
  match n with
  | Tag name attrs contents => (name, attrs) :: flat_map tags_of contents
  | _ => []
  end.

(** A manifest entry whose [name] or [type] is absent or null *)
Definition absent_or_null (item : json) (key : string) : Prop :=
  exists kv, item = JObj kv /\ (assoc key kv = None \/ assoc key kv = Some JNull).

(** The text the Selector reads from a field of a manifest entry:
    [(item.get(key, "") or "")]. *)
Definition field_text (item : json) (key : string) : result string :=
  v <- dict_get item key (JStr "") ;;
  or_empty v.

(** A candidate that passes the pre-filter of line 135. *)
Definition eligible (item : json) : Prop :=
  exists name, dict_get item "name" (JStr "") = Ok name
               /\ is_text_file name = Ok true.

(** The filename has one of the textual extensions, whatever its case. *)
Definition has_textual_extension (filename : string) : Prop :=
  exists stem ext,
    In ext [".htm"; ".html"; ".txt"] /\ PyStr.lower filename = stem ++ ext.

(** The events left in the trace by [k] retried attempts, the first of
    them being attempt number [i]: the pacing delay, the request, and the
    backoff delay of that attempt. *)
Fixpoint retried (url : string) (i : Z) (k : nat) : list event :=
  match k with
  | O => []
  | S k' =>
      [Slept SLEEP_SEC; Requested url; Slept (backoff i)] ++ retried url (i + 1) k'
  end.

(** The events of an attempt that is not retried. *)
Definition attempted (url : string) : list event :=
  [Slept SLEEP_SEC; Requested url].

(** The service answers the successive requests with [rs], then goes on
    with [rest]. *)
Definition serving (rs : list response) (rest : list (option response))
           (tr : list event) : world :=
  {| incoming := map Some rs ++ rest; trace := tr |}.

Definition with_status (s : Z) : response :=
  {| status_code := s; content := ""; json_body := None |}.

(** [extractText] of the specification on the documents [html_parser]
    covers: [clean_html_to_text] with that tree builder. *)
Definition extractText (doc : string) : option string :=
  option_map extract_text (html_parser doc).

(** Whitespace occurs in [s] only as single spaces; [prev_space] tells
    that a space stands just before [s]. *)
Fixpoint tidy (prev_space : bool) (s : string) : bool :=
  match s with
  | EmptyString => true
  | String c s' =>
      if PyStr.isspace c
      then Ascii.eqb c " " && negb prev_space && tidy true s'
      else tidy false s'
  end.

(** The two URLs built by the Filing Processor. *)
Definition index_url (cik_short accession : string) : string :=
  archives ++ cik_short ++ "/" ++ PyStr.remove_char "-" accession
  ++ "/index.json".

Definition file_url (cik_short accession filename : string) : string :=
  archives ++ cik_short ++ "/" ++ PyStr.remove_char "-" accession ++ "/"
  ++ filename.

(** [n] copies of a character *)
Fixpoint replicate (n : nat) (c : ascii) : string :=
  match n with
  | O => EmptyString
  | S k => String c (replicate k c)
  end.

(** Instances of the parameters of the Filing Processor for the worked
    scenarios.  [str_int_decimal] is [str(int(s))] on strings of decimal
    digits (leading zeros go) and refuses every other string;
    [BeautifulSoup_plain] is the tree builder on plain markup; the
    scenarios never format a value that is not a string. *)
Fixpoint drop_zeros (s : string) : string :=
  match s with
  | String c s' => if Ascii.eqb c "0" then drop_zeros s' else s
  | EmptyString => EmptyString
  end.

Definition is_digit (c : ascii) : bool :=
  let n := PyStr.code c in ((48 <=? n) && (n <=? 57))%N.

Definition str_int_decimal (s : string) : option string :=
  match s with
  | EmptyString => None
  | _ =>
      if all_chars is_digit s
      then Some (match drop_zeros s with EmptyString => "0" | d => d end)
      else None
  end.

Definition BeautifulSoup_plain (doc : string) : option soup := html_parser doc.

Definition no_format (_ : json) : string := "".

(** A manifest entry of the shape the data model gives it: a dict whose
    [name] and [type] are read as text (a string, or absent, or null). *)
Definition descriptor_shaped (d : json) : Prop :=
  exists name typ,
    field_text d "name" = Ok name /\ field_text d "type" = Ok typ.

(** The filing of the end-to-end scenario of the specification, with a
    body of [n] characters, and the states of the world it goes through. *)
Definition scenario_release : json :=
  JObj [("name", JStr "ex991pressrelease.htm");
        ("type", JStr "EX-99.1"); ("size", JNum 5000)].

Definition scenario_cover : json :=
  JObj [("name", JStr "coverpage.htm");
        ("type", JStr "EX-99"); ("size", JNum 200)].

Definition scenario_manifest : json :=
  JObj [("directory",
         JObj [("item", JArr [scenario_release; scenario_cover])])].

Definition scenario_index : response :=
  {| status_code := 200; content := ""; json_body := Some scenario_manifest |}.

Definition scenario_body (n : nat) : response :=
  {| status_code := 200;
     content := "<p>" ++ replicate n "a" ++ "</p>";
     json_body := None |}.

Definition scenario_index_url : string :=
  "https://www.sec.gov/Archives/edgar/data/789019/000095017024008814/index.json".

Definition scenario_file_url : string :=
  "https://www.sec.gov/Archives/edgar/data/789019/000095017024008814/ex991pressrelease.htm".

Definition scenario (n : nat) : world :=
  {| incoming := [Some scenario_index; Some (scenario_body n)];
     trace := [] |}.

Definition scenario_listed (n : nat) : world :=
  {| incoming := [Some (scenario_body n)];
     trace := [Slept 250; Requested scenario_index_url] |}.

Definition scenario_fetched : world :=
  {| incoming := [];
     trace := [Slept 250; Requested scenario_index_url;
               Slept 250; Requested scenario_file_url] |}.

(** Worlds for the fault scenarios: a manifest that is not found, a
    manifest whose body is not JSON, and a service that drops the
    connection once the manifest has been served. *)
Definition not_found : response :=
  {| status_code := 404; content := "Not Found"; json_body := None |}.

Definition not_json : response :=
  {| status_code := 200; content := "<html></html>"; json_body := None |}.

Definition manifest_missing : world :=
  {| incoming := [Some not_found]; trace := [] |}.

Definition manifest_garbled : world :=
  {| incoming := [Some not_json]; trace := [] |}.

Definition connection_dropped : world :=
  {| incoming := [Some scenario_index; None]; trace := [] |}.

(** ** Vocabulary of the further properties *)

(** The status test of lines 41 and 44: the response is retried. *)
Definition retried_status (s : Z) : bool := (s =? 429) || (s >=? 500).

(** Number of requests in a trace, and time slept, in milliseconds. *)
Fixpoint requests (tr : list event) : nat :=
  match tr with
  | [] => O
  | Requested _ :: rest => S (requests rest)
  | Slept _ :: rest => requests rest
  end.

Fixpoint slept (tr : list event) : Z :=
  match tr with
  | [] => 0
  | Slept ms :: rest => ms + slept rest
  | Requested _ :: rest => slept rest
  end.

(** Every request of the trace comes right after a sleep of [SLEEP_SEC];
    [just_paced] tells that such a sleep stands just before the trace. *)
Fixpoint paced_from (just_paced : bool) (tr : list event) : bool :=
  match tr with
  | [] => true
  | Slept ms :: rest => paced_from (ms =? SLEEP_SEC) rest
  | Requested _ :: rest => just_paced && paced_from false rest
  end.

Definition paced (tr : list event) : bool := paced_from false tr.

(** The time slept by [n] attempts that are all retried, the first of
    them being attempt number [i]. *)
Fixpoint worst_delay (i : Z) (n : nat) : Z :=
  match n with
  | O => 0
  | S k => SLEEP_SEC + backoff i + worst_delay (i + 1) k
  end.

(** The last character of a string *)
Fixpoint last_char (s : string) : option ascii :=
  match s with
  | EmptyString => None
  | String c EmptyString => Some c
  | String _ s' => last_char s'
  end.

(** The points of a list of signals, all firing *)
Definition total_points (l : list Spec.signal) : Z :=
  fold_right (fun sg acc => Spec.points sg + acc) 0 l.

(** The tests of the three removal loops of [clean_html_to_text]. *)
Definition removed (name : string) (attrs : list (string * string)) : bool :=
  script_or_style name attrs || inline_xbrl name attrs || hidden name attrs.

(** The strings [get_text] joins: stripped, the empty ones dropped. *)
Definition texts (s : soup) : list string :=
  filter (fun t => negb (String.eqb t ""))
    (map PyStr.strip (flat_map all_strings s)).

(** The items [list_accession_files] returns for what [get_json]
    answered: the list under "directory"/"item", or the empty list when
    anything in the try block of lines 119-124 raised. *)
Definition manifest_items (fetched : result json) : json :=
  match fetched with
  | Ok data =>
      match dict_get data "directory" (JObj []) with
      | Ok directory =>
          match dict_get directory "item" (JArr []) with
          | Ok items => items
          | Raise _ => JArr []
          end
      | Raise _ => JArr []
      end
  | Raise _ => JArr []
  end.

(** * Properties *)

(** ** Strings *)

Module PyStrFacts.
Import PyStr.

Lemma startswith_iff (p s : string) :
  startswith s p = true <-> exists r, s = p ++ r.
Proof.
  revert s; induction p as [|a p IH]; intros s; simpl.
  - split; [intros _; now exists s | intros _; destruct s; reflexivity].
  - destruct s as [|b s]; simpl.
    + split; [discriminate | intros [r H]; discriminate].
    + rewrite andb_true_iff, Ascii.eqb_eq, IH.
      split.
      * intros [-> [r ->]]. now exists r.
      * intros [r H]. injection H as -> ->. split; [reflexivity | now exists r].
Qed.

Lemma contains_nil (p : string) : contains p "" = startswith "" p.
Proof. simpl. apply orb_false_r. Qed.

Lemma contains_cons (p : string) (c : ascii) (s : string) :
  contains p (String c s) = startswith (String c s) p || contains p s.
Proof. reflexivity. Qed.

Lemma contains_iff (p s : string) :
  contains p s = true <-> exists a b, s = a ++ p ++ b.
Proof.
  induction s as [|c s IH].
  - rewrite contains_nil, startswith_iff. split.
    + intros [r H]. now exists "", r.
    + intros [a [b H]]. destruct a; [now exists b | discriminate].
  - rewrite contains_cons, orb_true_iff, IH, startswith_iff. split.
    + intros [[r H] | [a [b ->]]].
      * now exists "", r.
      * now exists (String c a), b.
    + intros [a [b H]]. destruct a as [|c' a].
      * left. now exists b.
      * right. simpl in H. injection H as -> ->. now exists a, b.
Qed.

Lemma endswith_nil (p : string) : endswith "" p = String.eqb "" p.
Proof. unfold endswith. apply orb_false_r. Qed.

Lemma endswith_cons (c : ascii) (s p : string) :
  endswith (String c s) p = String.eqb (String c s) p || endswith s p.
Proof. reflexivity. Qed.

Lemma endswith_iff (s p : string) :
  endswith s p = true <-> exists a, s = a ++ p.
Proof.
  induction s as [|c s IH].
  - rewrite endswith_nil, String.eqb_eq. split.
    + intros <-. now exists "".
    + intros [a H]. destruct a; [exact H | discriminate].
  - rewrite endswith_cons, orb_true_iff, String.eqb_eq, IH. split.
    + intros [<- | [a ->]]; [now exists "" | now exists (String c a)].
    + intros [a H]. destruct a as [|c' a].
      * now left.
      * right. simpl in H. injection H as -> ->. now exists a.
Qed.

Lemma lower_app (a b : string) : lower (a ++ b) = lower a ++ lower b.
Proof. induction a as [|c a IH]; simpl; [reflexivity | now rewrite IH]. Qed.

Lemma remove_char_app (c : ascii) (a b : string) :
  remove_char c (a ++ b) = remove_char c a ++ remove_char c b.
Proof.
  induction a as [|x a IH]; simpl; [reflexivity |].
  destruct (Ascii.eqb x c); simpl; now rewrite IH.
Qed.

Lemma lower_char_space (c : ascii) :
  Ascii.eqb (lower_char c) " " = Ascii.eqb c " ".
Proof.
  destruct c as [[] [] [] [] [] [] [] []]; reflexivity.
Qed.

Lemma lower_remove_space (s : string) :
  lower (remove_char " " s) = remove_char " " (lower s).
Proof.
  induction s as [|c s IH]; simpl; [reflexivity |].
  rewrite lower_char_space.
  destruct (Ascii.eqb c " "); simpl; now rewrite IH.
Qed.

Lemma remove_spaces (n : nat) : remove_char " " (Spec.spaces n) = "".
Proof. induction n; simpl; auto. Qed.

Lemma lower_spaces (n : nat) : lower (Spec.spaces n) = Spec.spaces n.
Proof. induction n; simpl; [reflexivity | now rewrite IHn]. Qed.

Lemma app_empty_r (s : string) : s ++ "" = s.
Proof. induction s; simpl; [reflexivity | now f_equal]. Qed.

Lemma app_assoc (a b c : string) : (a ++ b) ++ c = a ++ b ++ c.
Proof. induction a; simpl; [reflexivity | now f_equal]. Qed.

End PyStrFacts.

(** *** Whitespace normalization *)

Module NormalFacts.
Import PyStr.

Lemma collapse_from_tidy (s : string) :
  forall b, tidy b (collapse_from b s) = true.
Proof.
  induction s as [|c s IH]; intros b; simpl; [reflexivity |].
  destruct (isspace c) eqn:Hc.
  - destruct b; [apply IH |]. simpl. apply IH.
  - simpl. rewrite Hc. apply IH.
Qed.

Lemma tidy_fixed (s : string) :
  forall b, tidy b s = true -> collapse_from b s = s.
Proof.
  induction s as [|c s IH]; intros b H; simpl in *; [reflexivity |].
  destruct (isspace c) eqn:Hc.
  - apply andb_true_iff in H. destruct H as [H Ht].
    apply andb_true_iff in H. destruct H as [Hsp Hb].
    apply Ascii.eqb_eq in Hsp. subst c.
    destruct b; [discriminate |]. now rewrite (IH true Ht).
  - now rewrite (IH false H).
Qed.

Lemma tidy_weaken (s : string) : tidy true s = true -> tidy false s = true.
Proof.
  destruct s as [|c s]; simpl; [reflexivity |].
  destruct (isspace c); [| exact (fun H => H)].
  rewrite andb_false_r. discriminate.
Qed.

Lemma tidy_any (s : string) (b : bool) : tidy b s = true -> tidy false s = true.
Proof. destruct b; [apply tidy_weaken | exact (fun H => H)]. Qed.

Lemma tidy_lstrip (s : string) :
  forall b, tidy b s = true -> tidy false (lstrip s) = true.
Proof.
  induction s as [|c s IH]; intros b H; simpl in *; [reflexivity |].
  destruct (isspace c) eqn:Hc.
  - apply andb_true_iff in H. destruct H as [_ Ht]. exact (IH true Ht).
  - simpl. now rewrite Hc.
Qed.

Lemma tidy_rstrip (s : string) :
  forall b, tidy b s = true -> tidy b (rstrip s) = true.
Proof.
  induction s as [|c s IH]; intros b H; simpl in *; [reflexivity |].
  destruct (isspace c) eqn:Hc.
  - apply andb_true_iff in H. destruct H as [H Ht].
    specialize (IH true Ht).
    destruct (rstrip s) as [|c' r]; [reflexivity |].
    simpl in *. now rewrite Hc, H.
  - specialize (IH false H).
    destruct (rstrip s) as [|c' r]; simpl in *; now rewrite Hc.
Qed.

Lemma lstrip_head (s : string) :
  lstrip s = "" \/ exists c r, lstrip s = String c r /\ isspace c = false.
Proof.
  induction s as [|c s IH]; simpl; [now left |].
  destruct (isspace c) eqn:Hc; [exact IH |].
  right. now exists c, s.
Qed.

Lemma rstrip_cons (c : ascii) (r : string) :
  isspace c = false -> rstrip (String c r) = String c (rstrip r).
Proof. intros H. simpl. rewrite H. now destruct (rstrip r). Qed.

Lemma rstrip_idem (s : string) : rstrip (rstrip s) = rstrip s.
Proof.
  induction s as [|c s IH]; simpl; [reflexivity |].
  destruct (rstrip s) as [|c' r] eqn:Hr.
  - destruct (isspace c) eqn:Hc; simpl; [reflexivity | now rewrite Hc].
  - change (rstrip (String c (String c' r))
            = String c (String c' r)).
    simpl. simpl in IH. now rewrite IH.
Qed.

Lemma strip_head (s : string) :
  strip s = "" \/ exists c r, strip s = String c r /\ isspace c = false.
Proof.
  unfold strip. destruct (lstrip_head s) as [-> | [c [r [-> Hc]]]].
  - now left.
  - right. exists c, (rstrip r). split; [now apply rstrip_cons | exact Hc].
Qed.

Lemma strip_idem (s : string) : strip (strip s) = strip s.
Proof.
  destruct (strip_head s) as [-> | [c [r [H Hc]]]]; [reflexivity |].
  unfold strip at 1. rewrite H. simpl. rewrite Hc.
  unfold strip in H. rewrite <- H. apply rstrip_idem.
Qed.

Lemma tidy_strip (s : string) (b : bool) :
  tidy b s = true -> tidy false (strip s) = true.
Proof. intros H. apply tidy_rstrip. exact (tidy_lstrip s b H). Qed.

(** The result of the final normalization is a fixed point of both of
    its steps. *)
Lemma normal_form (x : string) :
  let out := strip (collapse_ws x) in
  strip out = out /\ collapse_ws out = out.
Proof.
  simpl. split; [apply strip_idem |].
  apply tidy_fixed. apply (tidy_strip _ false). apply collapse_from_tidy.
Qed.

Lemma rev_string_acc (s : string) :
  forall acc, rev_string acc s = rev_string "" s ++ acc.
Proof.
  induction s as [|c s IH]; intros acc; simpl; [reflexivity |].
  rewrite (IH (String c acc)), (IH (String c "")).
  now rewrite PyStrFacts.app_assoc.
Qed.

Lemma rev_string_involutive (s : string) :
  rev_string "" (rev_string "" s) = s.
Proof.
  assert (H : forall x acc, rev_string acc (rev_string "" x) = x ++ acc).
  { induction x as [|c x IH]; intros acc; simpl; [reflexivity |].
    rewrite (rev_string_acc x (String c "")).
    assert (Happ : forall a b acc', rev_string acc' (a ++ b)
                                    = rev_string (rev_string acc' a) b).
    { induction a as [|c0 a IHa]; intros b0 acc'; simpl; [reflexivity |].
      apply IHa. }
    rewrite Happ, IH. reflexivity. }
  rewrite H. apply PyStrFacts.app_empty_r.
Qed.

Lemma ascii_space_isspace (c : ascii) : ascii_space c = true -> isspace c = true.
Proof. destruct c as [[] [] [] [] [] [] [] []]; simpl; intros H; try reflexivity; discriminate. Qed.

End NormalFacts.
(** ** Attachment Selector *)

Section SelectorFacts.

Lemma add_if (b : bool) (x k : Z) :
  (if b then x + k else x) = x + (if b then k else 0).
Proof. destruct b; lia. Qed.

Lemma textual_extension_iff (filename : string) :
  Spec.textual_extension filename = true <-> has_textual_extension filename.
Proof.
  unfold Spec.textual_extension, has_textual_extension.
  rewrite existsb_exists. split.
  - intros [ext [Hin H]]. apply PyStrFacts.endswith_iff in H.
    destruct H as [stem H]. now exists stem, ext.
  - intros [stem [ext [Hin H]]]. exists ext. split; [exact Hin |].
    apply PyStrFacts.endswith_iff. now exists stem.
Qed.

Lemma is_text_file_extension (v : json) (s : string) :
  or_empty v = Ok s -> is_text_file v = Ok (Spec.textual_extension s).
Proof.
  intros H. unfold is_text_file. rewrite H. simpl.
  unfold Spec.textual_extension. simpl. now rewrite orb_false_r, orb_assoc.
Qed.

Lemma field_text_inv (item : json) (key : string) (s : string) :
  field_text item key = Ok s ->
  exists v, dict_get item key (JStr "") = Ok v /\ or_empty v = Ok s.
Proof.
  unfold field_text. simpl.
  destruct (dict_get item key (JStr "")) as [v|e]; [| discriminate].
  intros H. now exists v.
Qed.

(** The sequential accumulation of [score_item] is the sum of the
    table, with the extension row read on the filename as given. *)
Lemma score_item_table (item : json) (name typ : string) :
  field_text item "name" = Ok name ->
  field_text item "type" = Ok typ ->
  score_item item = Ok (Spec.table_score name typ).
Proof.
  intros Hn Ht.
  apply field_text_inv in Hn. destruct Hn as [vn [Hgn Hn]].
  apply field_text_inv in Ht. destruct Ht as [vt [Hgt Ht]].
  unfold score_item. rewrite Hgn. simpl.
  unfold normalize. rewrite Hn. simpl. rewrite Hgt. simpl. rewrite Ht. simpl.
  rewrite (is_text_file_extension _ _ Hn). simpl.
  f_equal.
  unfold Spec.table_score, Spec.table_points, Spec.extension_points,
    Spec.normalized_copy.
  simpl. rewrite !orb_false_r, !add_if, !orb_assoc.
  destruct (Spec.textual_extension name); lia.
Qed.

End SelectorFacts.

Section SelectionFacts.

Lemma text_candidates_eligible (cs : list json) :
  Forall eligible cs -> text_candidates cs = Ok cs.
Proof.
  induction 1 as [|c cs [name [Hget Htxt]] _ IH]; simpl; [reflexivity |].
  now rewrite Hget, Htxt, IH.
Qed.

Lemma text_candidates_sound (items cs : list json) :
  text_candidates items = Ok cs ->
  forall c, In c cs -> In c items /\ eligible c.
Proof.
  revert cs. induction items as [|it items IH]; simpl; intros cs H c Hin.
  - injection H as <-. destruct Hin.
  - destruct (dict_get it "name" (JStr "")) as [n|] eqn:Hget; [| discriminate].
    destruct (is_text_file n) as [keep|] eqn:Htxt; [| discriminate].
    destruct (text_candidates items) as [tl|]; [| discriminate].
    injection H as <-.
    destruct keep.
    + destruct Hin as [<- | Hin].
      * split; [now left | now exists n].
      * destruct (IH tl eq_refl c Hin). split; [now right | assumption].
    + destruct (IH tl eq_refl c Hin). split; [now right | assumption].
Qed.

(** An entry that fails the extension test leaves the candidate list
    as if it were not in the manifest. *)
Lemma text_candidates_skip (before after : list json) (d name : json) :
  dict_get d "name" (JStr "") = Ok name ->
  is_text_file name = Ok false ->
  text_candidates (before ++ d :: after) = text_candidates (before ++ after).
Proof.
  intros Hget Htxt. induction before as [|b before IH]; simpl.
  - rewrite Hget, Htxt. now destruct (text_candidates after).
  - now rewrite IH.
Qed.

Lemma text_candidates_none (items : list json) :
  Forall (fun d => exists name, dict_get d "name" (JStr "") = Ok name
                                /\ is_text_file name = Ok false) items ->
  text_candidates items = Ok [].
Proof.
  induction 1 as [|d items [name [Hget Htxt]] _ IH]; simpl; [reflexivity |].
  now rewrite Hget, Htxt, IH.
Qed.

Variable key : json -> result Z.

(** [max_loop] ends on the first maximum of the running maximum
    followed by the rest. *)
Lemma max_loop_first_max (rest : list json) (vals : list Z) :
  Forall2 (fun c v => key c = Ok v) rest vals ->
  forall (m : json) (mv : Z),
  exists (i : nat) (best : json) (top : Z),
    max_loop key rest m mv = Ok best
    /\ nth_error (m :: rest) i = Some best
    /\ nth_error (mv :: vals) i = Some top
    /\ (forall j v, nth_error (mv :: vals) j = Some v -> v <= top)
    /\ (forall j v, (j < i)%nat -> nth_error (mv :: vals) j = Some v -> v < top).
Proof.
  induction 1 as [|c v rest vals Hc _ IH]; intros m mv.
  - exists 0%nat, m, mv. simpl. repeat split; try reflexivity.
    + intros [|[|j]] v; simpl; intros H; try discriminate.
      injection H as <-. lia.
    + intros j v Hj. lia.
  - simpl. rewrite Hc. simpl.
    destruct (v >? mv) eqn:Hgt.
    + apply Z.gtb_lt in Hgt.
      destruct (IH c v) as (i & best & top & Hrun & Hb & Ht & Hall & Hbefore).
      exists (S i), best, top. repeat split; try assumption.
      * intros [|j] x; simpl; intros Hx.
        -- injection Hx as <-.
           specialize (Hall 0%nat v eq_refl). lia.
        -- exact (Hall j x Hx).
      * intros [|j] x Hj; simpl; intros Hx.
        -- injection Hx as <-.
           specialize (Hall 0%nat v eq_refl). lia.
        -- apply (Hbefore j x); [lia | exact Hx].
    + assert (Hle : v <= mv) by (destruct (Z.gtb_spec v mv); [discriminate | lia]).
      destruct (IH m mv) as (i & best & top & Hrun & Hb & Ht & Hall & Hbefore).
      assert (Hmv : mv <= top) by exact (Hall 0%nat mv eq_refl).
      destruct i as [|i].
      * exists 0%nat, best, top. repeat split; try assumption.
        -- intros [|[|j]] x; simpl; intros Hx.
           ++ injection Hx as <-. lia.
           ++ injection Hx as <-. lia.
           ++ exact (Hall (S j) x Hx).
        -- intros j x Hj. lia.
      * exists (S (S i)), best, top. repeat split; try assumption.
        -- intros [|[|j]] x; simpl; intros Hx.
           ++ injection Hx as <-. lia.
           ++ injection Hx as <-. lia.
           ++ exact (Hall (S j) x Hx).
        -- assert (Hlt : mv < top)
             by (apply (Hbefore 0%nat mv); [lia | reflexivity]).
           intros [|[|j]] x Hj; simpl; intros Hx.
           ++ injection Hx as <-. lia.
           ++ injection Hx as <-. lia.
           ++ apply (Hbefore (S j) x); [lia | exact Hx].
Qed.

Lemma py_max_first_max (c : json) (cs : list json) (v : Z) (vals : list Z) :
  key c = Ok v ->
  Forall2 (fun c v => key c = Ok v) cs vals ->
  exists (i : nat) (best : json) (top : Z),
    py_max key c cs = Ok best
    /\ nth_error (c :: cs) i = Some best
    /\ nth_error (v :: vals) i = Some top
    /\ key best = Ok top
    /\ (forall j x, nth_error (v :: vals) j = Some x -> x <= top)
    /\ (forall j x, (j < i)%nat -> nth_error (v :: vals) j = Some x -> x < top).
Proof.
  intros Hc Hcs. unfold py_max. rewrite Hc. simpl.
  destruct (max_loop_first_max cs vals Hcs c v)
    as (i & best & top & Hrun & Hb & Ht & Hall & Hbefore).
  exists i, best, top. repeat split; try assumption.
  assert (HF : Forall2 (fun c v => key c = Ok v) (c :: cs) (v :: vals))
    by (constructor; assumption).
  clear - HF Hb Ht. revert i Hb Ht.
  induction HF as [|a b l l' Hab _ IH]; intros [|i]; simpl; intros Hb Ht;
    try discriminate.
  - injection Hb as <-. injection Ht as <-. exact Hab.
  - exact (IH i Hb Ht).
Qed.

(** When [max_loop] returns, every key was computed and the answer is
    the running maximum or an element of the rest. *)
Lemma max_loop_inv (rest : list json) (m best : json) (mv : Z) :
  max_loop key rest m mv = Ok best ->
  In best (m :: rest)
  /\ exists vals, Forall2 (fun c v => key c = Ok v) rest vals.
Proof.
  revert m mv. induction rest as [|c rest IH]; simpl; intros m mv H.
  - injection H as <-. split; [now left | now exists []].
  - destruct (key c) as [v|] eqn:Hc; [| discriminate]. simpl in H.
    destruct (v >? mv).
    + destruct (IH _ _ H) as [Hin [vals Hv]]. split.
      * destruct Hin as [<- | Hin]; [right; now left | right; now right].
      * exists (v :: vals). now constructor.
    + destruct (IH _ _ H) as [Hin [vals Hv]]. split.
      * destruct Hin as [<- | Hin]; [now left | right; now right].
      * exists (v :: vals). now constructor.
Qed.

End SelectionFacts.

(** What [select_best] answers, in terms of its candidates. *)
Lemma select_best_inv (items : list json) (d : json) :
  select_best items = Ok (Some d) ->
  In d items /\ eligible d /\ exists s, score_item d = Ok s /\ 20 <= s.
Proof.
  unfold select_best. simpl.
  destruct (text_candidates items) as [cs|] eqn:Hcs; [| discriminate].
  destruct cs as [|c cs]; [discriminate |].
  destruct (py_max score_item c cs) as [best|] eqn:Hmax; [| discriminate].
  destruct (score_item best) as [s|] eqn:Hs; [| discriminate].
  destruct (s <? 20) eqn:Hlt; intros H; [discriminate |].
  injection H as <-.
  unfold py_max in Hmax. simpl in Hmax.
  destruct (score_item c) as [v|]; [| discriminate].
  apply max_loop_inv in Hmax. destruct Hmax as [Hin _].
  destruct (text_candidates_sound _ _ Hcs best Hin) as [Hitems Hel].
  repeat split; try assumption.
  exists s. split; [exact Hs |]. apply Z.ltb_ge in Hlt. exact Hlt.
Qed.

Lemma score_item_fields (item : json) (s : Z) :
  score_item item = Ok s ->
  exists name typ,
    field_text item "name" = Ok name /\ field_text item "type" = Ok typ.
Proof.
  unfold score_item, normalize, field_text. simpl.
  destruct (dict_get item "name" (JStr "")) as [vn|]; [| discriminate].
  destruct (or_empty vn) as [name|]; [| discriminate]. simpl.
  destruct (dict_get item "type" (JStr "")) as [vt|]; [| discriminate].
  destruct (or_empty vt) as [typ|]; [| discriminate]. simpl.
  intros _. now exists name, typ.
Qed.

Lemma absent_or_null_text (item : json) (key : string) :
  absent_or_null item key ->
  exists v, dict_get item key (JStr "") = Ok v /\ or_empty v = Ok "".
Proof.
  intros [kv [-> [H | H]]]; simpl; rewrite H.
  - now exists (JStr "").
  - now exists JNull.
Qed.

Lemma table_points_none (l : list Spec.signal) (name typ : string) :
  existsb (fun sg => Spec.fires sg name typ) l = false ->
  fold_right
    (fun sg acc => (if Spec.fires sg name typ then Spec.points sg else 0) + acc)
    0 l = 0.
Proof.
  induction l as [|sg l IH]; simpl; [reflexivity |].
  intros H. apply orb_false_iff in H. destruct H as [H1 H2].
  rewrite H1, (IH H2). reflexivity.
Qed.

Lemma extension_points_le (filename : string) :
  Spec.extension_points filename <= 10.
Proof. unfold Spec.extension_points. destruct (Spec.textual_extension filename); lia. Qed.

(** *** Claims on the Selector *)

(** C1, as stated: the score is the sum of the signal table with every
    row, the extension row included, evaluated on the lower-cased,
    whitespace-normalized copies of name and type.  This fails for a
    filename that ends in whitespace: [score_item] tests the extension on
    the filename as given, so "pr.htm " gets -100 where the normalized
    copy "pr.htm" would get +10. *)
Lemma C1_extension_on_normalized_copy_fails :
  score_item (descriptor "pr.htm " "") <> Ok (Spec.stated_score "pr.htm " "").
Proof. vm_compute. discriminate. Qed.

(** C1, amended: for every descriptor whose name and type are read as
    the strings [name] and [typ], the score is the sum of the points of
    all rows of the signal table that fire on the lower-cased,
    whitespace-normalized copies of [name] and [typ] (+100, +120, +50,
    +30, and +20 for each keyword), plus +10 if the filename as given,
    lower-cased but not whitespace-normalized, ends in .htm, .html or
    .txt, and -100 otherwise. *)
Theorem C1_score_item_sums_signal_table (item : json) (name typ : string) :
  field_text item "name" = Ok name ->
  field_text item "type" = Ok typ ->
  score_item item
  = Ok (Spec.table_points (Spec.normalized_copy name) (Spec.normalized_copy typ)
        + Spec.extension_points name).
Proof.
  intros Hn Ht.
  apply field_text_inv in Hn. destruct Hn as [vn [Hgn Hn]].
  apply field_text_inv in Ht. destruct Ht as [vt [Hgt Ht]].
  unfold score_item. rewrite Hgn. simpl.
  unfold normalize. rewrite Hn. simpl. rewrite Hgt. simpl. rewrite Ht. simpl.
  rewrite (is_text_file_extension _ _ Hn). simpl.
  f_equal.
  unfold Spec.table_points, Spec.extension_points, Spec.normalized_copy.
  simpl. rewrite !orb_false_r, !add_if, !orb_assoc.
  destruct (Spec.textual_extension name); lia.
Qed.

Lemma C1_score_item_sums_signal_table_witness :
  score_item (descriptor "EX99_1  Press   Release.HTM" " EX-99.1")
  = Ok (Spec.table_points
          (Spec.normalized_copy "EX99_1  Press   Release.HTM")
          (Spec.normalized_copy " EX-99.1")
        + Spec.extension_points "EX99_1  Press   Release.HTM").
Proof.
  apply (C1_score_item_sums_signal_table
           (descriptor "EX99_1  Press   Release.HTM" " EX-99.1")
           "EX99_1  Press   Release.HTM" " EX-99.1"); reflexivity.
Defined.

(** C2: for every non-empty sequence of eligible candidates with scores
    [vals], [select_best] picks the candidate at the first position [i]
    where the score is maximal (no score exceeds [top], every earlier
    score is strictly less), and answers none instead when that score is
    strictly below 20. *)
Theorem C2_select_best_first_maximum (cs : list json) (vals : list Z) :
  cs <> [] ->
  Forall eligible cs ->
  Forall2 (fun c v => score_item c = Ok v) cs vals ->
  exists (i : nat) (best : json) (top : Z),
    nth_error cs i = Some best
    /\ nth_error vals i = Some top
    /\ (forall j v, nth_error vals j = Some v -> v <= top)
    /\ (forall j v, (j < i)%nat -> nth_error vals j = Some v -> v < top)
    /\ select_best cs
       = Ok (if top <? Spec.acceptance_threshold then None else Some best).
Proof.
  intros Hne Hel Hvals.
  destruct Hvals as [|c v cs vals Hc Hcs]; [congruence |].
  destruct (py_max_first_max score_item c cs v vals Hc Hcs)
    as (i & best & top & Hmax & Hb & Ht & Hkey & Hall & Hbefore).
  exists i, best, top. repeat split; try assumption.
  unfold select_best. rewrite (text_candidates_eligible _ Hel). simpl.
  rewrite Hmax. simpl. rewrite Hkey. simpl.
  unfold Spec.acceptance_threshold. now destruct (top <? 20).
Qed.

Lemma C2_select_best_first_maximum_witness :
  exists (i : nat) (best : json) (top : Z),
    nth_error [descriptor "cover.htm" "EX-99"; descriptor "first.htm" "EX-99.1";
               descriptor "second.htm" "EX-99.1"] i = Some best
    /\ nth_error [110; 230; 230] i = Some top
    /\ (forall j v, nth_error [110; 230; 230] j = Some v -> v <= top)
    /\ (forall j v, (j < i)%nat -> nth_error [110; 230; 230] j = Some v -> v < top)
    /\ select_best [descriptor "cover.htm" "EX-99"; descriptor "first.htm" "EX-99.1";
                    descriptor "second.htm" "EX-99.1"]
       = Ok (if top <? Spec.acceptance_threshold then None else Some best).
Proof.
  apply (C2_select_best_first_maximum
           [descriptor "cover.htm" "EX-99"; descriptor "first.htm" "EX-99.1";
            descriptor "second.htm" "EX-99.1"] [110; 230; 230]).
  - discriminate.
  - repeat constructor; eexists; split; reflexivity.
  - repeat constructor.
Defined.

Lemma eligible_extension (d : json) :
  eligible d ->
  exists name, dict_get d "name" (JStr "") = Ok (JStr name)
               /\ has_textual_extension name.
Proof.
  intros [v [Hget Htxt]].
  unfold is_text_file in Htxt. simpl in Htxt.
  destruct (or_empty v) as [s|] eqn:Hs; [| discriminate].
  pose proof (is_text_file_extension v s Hs) as Hspec.
  unfold is_text_file in Hspec. rewrite Hs in Hspec. simpl in Hspec.
  rewrite Hspec in Htxt. injection Htxt as Hext.
  apply textual_extension_iff in Hext.
  unfold or_empty in Hs. destruct (truthy v) eqn:Htruthy.
  - destruct v; try discriminate. injection Hs as ->. now exists s.
  - injection Hs as <-. destruct Hext as [stem [ext [Hin Hlow]]].
    exfalso. simpl in Hin.
    destruct Hin as [<- | [<- | [<- | []]]]; destruct stem; discriminate.
Qed.

Lemma not_textual_is_text_file (d : json) (name : string) :
  field_text d "name" = Ok name ->
  ~ has_textual_extension name ->
  exists v, dict_get d "name" (JStr "") = Ok v /\ is_text_file v = Ok false.
Proof.
  intros Hname Hno. apply field_text_inv in Hname.
  destruct Hname as [v [Hget Hv]]. exists v. split; [exact Hget |].
  rewrite (is_text_file_extension v name Hv). f_equal.
  destruct (Spec.textual_extension name) eqn:H; [| reflexivity].
  apply textual_extension_iff in H. contradiction.
Qed.

Lemma select_best_skip (before after : list json) (d v : json) :
  dict_get d "name" (JStr "") = Ok v ->
  is_text_file v = Ok false ->
  select_best (before ++ d :: after) = select_best (before ++ after).
Proof.
  intros Hget Htxt. unfold select_best.
  now rewrite (text_candidates_skip before after d v Hget Htxt).
Qed.

(** C4: whatever the manifest, [select_best] only answers an entry of the
    manifest whose filename, lower-cased, ends in .htm, .html or .txt; an
    entry with another extension is dropped before any score is computed
    (the manifest without it gives the same answer, whatever its other
    fields hold); and when no entry has a textual extension the answer is
    none. *)
Theorem C4_select_best_only_textual (items : list json) :
  (forall d, select_best items = Ok (Some d) ->
     In d items
     /\ exists name, dict_get d "name" (JStr "") = Ok (JStr name)
                     /\ has_textual_extension name)
  /\ (forall (before : list json) (d : json) (after : list json) (name : string),
        items = (before ++ d :: after)%list ->
        field_text d "name" = Ok name ->
        ~ has_textual_extension name ->
        select_best items = select_best (before ++ after))
  /\ (Forall (fun d => exists name, field_text d "name" = Ok name
                                    /\ ~ has_textual_extension name) items ->
      select_best items = Ok None).
Proof.
  split; [| split].
  - intros d H. destruct (select_best_inv items d H) as [Hin [Hel _]].
    split; [exact Hin | exact (eligible_extension d Hel)].
  - intros before d after name -> Hname Hno.
    destruct (not_textual_is_text_file d name Hname Hno) as [v [Hget Htxt]].
    exact (select_best_skip before after d v Hget Htxt).
  - intros Hall. unfold select_best. rewrite text_candidates_none; [reflexivity |].
    eapply Forall_impl; [| exact Hall]. simpl.
    intros d [name [Hname Hno]].
    exact (not_textual_is_text_file d name Hname Hno).
Qed.

Lemma C4_select_best_only_textual_witness :
  (In (descriptor "Release.HTM" "EX-99.1")
      [descriptor "chart.pdf" "EX-99.1"; descriptor "Release.HTM" "EX-99.1"]
   /\ exists name,
        dict_get (descriptor "Release.HTM" "EX-99.1") "name" (JStr "")
        = Ok (JStr name)
        /\ has_textual_extension name)
  /\ select_best [descriptor "chart.pdf" "EX-99.1"; descriptor "Release.HTM" "EX-99.1"]
     = select_best ([] ++ [descriptor "Release.HTM" "EX-99.1"])
  /\ select_best [descriptor "chart.pdf" "EX-99.1"; descriptor "logo.jpg" "GRAPHIC"]
     = Ok None.
Proof.
  split; [| split].
  - apply (proj1 (C4_select_best_only_textual
                    [descriptor "chart.pdf" "EX-99.1";
                     descriptor "Release.HTM" "EX-99.1"])).
    reflexivity.
  - apply (proj1 (proj2 (C4_select_best_only_textual
                           [descriptor "chart.pdf" "EX-99.1";
                            descriptor "Release.HTM" "EX-99.1"]))
             [] (descriptor "chart.pdf" "EX-99.1")
             [descriptor "Release.HTM" "EX-99.1"] "chart.pdf").
    + reflexivity.
    + reflexivity.
    + intros H. apply textual_extension_iff in H. discriminate.
  - apply (proj2 (proj2 (C4_select_best_only_textual
                           [descriptor "chart.pdf" "EX-99.1";
                            descriptor "logo.jpg" "GRAPHIC"]))).
    repeat constructor.
    + exists "chart.pdf". split; [reflexivity |].
      intros H. apply textual_extension_iff in H. discriminate.
    + exists "logo.jpg". split; [reflexivity |].
      intros H. apply textual_extension_iff in H. discriminate.
Defined.

Lemma absent_or_null_field_text (item : json) (key : string) :
  absent_or_null item key -> field_text item key = Ok "".
Proof.
  intros H. destruct (absent_or_null_text item key H) as [v [Hget Hv]].
  unfold field_text. rewrite Hget. exact Hv.
Qed.

(** C9: an entry whose name is absent or null is read as having the
    empty name: the extension test answers false without raising, the
    normalized name is the empty string, the entry is dropped by the
    pre-filter (the manifest without it gives the same selection), and
    its score is the score of the empty name.  An entry whose type is
    absent or null is scored as having the empty type.  No step
    raises. *)
Theorem C9_absent_or_null_is_empty_string (item : json) :
  (absent_or_null item "name" ->
     (exists v, dict_get item "name" (JStr "") = Ok v
                /\ is_text_file v = Ok false
                /\ normalize v = Ok "")
     /\ (forall before after : list json,
           select_best (before ++ item :: after)%list
           = select_best (before ++ after)%list)
     /\ (forall typ, field_text item "type" = Ok typ ->
           score_item item = Ok (Spec.table_score "" typ)))
  /\ (absent_or_null item "type" ->
        (exists v, dict_get item "type" (JStr "") = Ok v /\ normalize v = Ok "")
        /\ (forall name, field_text item "name" = Ok name ->
              score_item item = Ok (Spec.table_score name ""))
        /\ (absent_or_null item "name" ->
              score_item item = Ok (-100))).
Proof.
  split.
  - intros H.
    destruct (absent_or_null_text item "name" H) as [v [Hget Hv]].
    assert (Htxt : is_text_file v = Ok false)
      by (now rewrite (is_text_file_extension v "" Hv)).
    split; [| split].
    + exists v. repeat split; try assumption.
      unfold normalize. now rewrite Hv.
    + intros before after. exact (select_best_skip before after item v Hget Htxt).
    + intros typ Ht. apply score_item_table; [| exact Ht].
      now apply absent_or_null_field_text.
  - intros H.
    destruct (absent_or_null_text item "type" H) as [v [Hget Hv]].
    split; [| split].
    + exists v. split; [exact Hget |]. unfold normalize. now rewrite Hv.
    + intros name Hn. apply score_item_table; [exact Hn |].
      now apply absent_or_null_field_text.
    + intros Hn.
      rewrite (score_item_table item "" "");
        [reflexivity | now apply absent_or_null_field_text
                     | now apply absent_or_null_field_text].
Qed.

Lemma C9_absent_or_null_is_empty_string_witness :
  select_best [JObj [("type", JStr "EX-99.1"); ("size", JNum 10)];
               descriptor "pr.htm" "EX-99.1"]
  = select_best ([] ++ [descriptor "pr.htm" "EX-99.1"])%list
  /\ score_item (JObj [("name", JNull); ("type", JStr "EX-99.1")])
     = Ok (Spec.table_score "" "EX-99.1")
  /\ score_item (JObj [("name", JNull)]) = Ok (-100).
Proof.
  split; [| split].
  - apply (proj1 (proj2 (proj1
      (C9_absent_or_null_is_empty_string
         (JObj [("type", JStr "EX-99.1"); ("size", JNum 10)]))
      (ex_intro _ [("type", JStr "EX-99.1"); ("size", JNum 10)]
         (conj eq_refl (or_introl eq_refl)))))
      [] [descriptor "pr.htm" "EX-99.1"]).
  - apply (proj2 (proj2 (proj1
      (C9_absent_or_null_is_empty_string
         (JObj [("name", JNull); ("type", JStr "EX-99.1")]))
      (ex_intro _ [("name", JNull); ("type", JStr "EX-99.1")]
         (conj eq_refl (or_intror eq_refl)))))).
    reflexivity.
  - apply (proj2 (proj2 (proj2
      (C9_absent_or_null_is_empty_string (JObj [("name", JNull)]))
      (ex_intro _ [("name", JNull)] (conj eq_refl (or_introl eq_refl)))))).
    exists [("name", JNull)]. split; [reflexivity | now right].
Defined.

(** C10: a candidate with a textual extension on which no row of the
    signal table fires scores exactly 10, which is below the threshold of
    20; and whatever [select_best] answers has at least one row of the
    table (an exhibit marker in the type or the name, or a keyword)
    firing on its normalized name and type. *)
Theorem C10_extension_alone_is_rejected :
  (forall item name typ,
     field_text item "name" = Ok name ->
     field_text item "type" = Ok typ ->
     Spec.textual_extension name = true ->
     existsb (fun sg => Spec.fires sg (Spec.normalized_copy name)
                                      (Spec.normalized_copy typ))
             Spec.signal_table = false ->
     score_item item = Ok 10 /\ 10 < Spec.acceptance_threshold)
  /\ (forall items d,
        select_best items = Ok (Some d) ->
        exists name typ sg,
          field_text d "name" = Ok name
          /\ field_text d "type" = Ok typ
          /\ In sg Spec.signal_table
          /\ Spec.fires sg (Spec.normalized_copy name)
                           (Spec.normalized_copy typ) = true).
Proof.
  split.
  - intros item name typ Hn Ht Hext Hnone.
    split; [| reflexivity].
    rewrite (score_item_table item name typ Hn Ht). f_equal.
    unfold Spec.table_score, Spec.table_points.
    rewrite (table_points_none _ _ _ Hnone).
    unfold Spec.extension_points. now rewrite Hext.
  - intros items d H.
    destruct (select_best_inv items d H) as [_ [_ [s [Hs Hge]]]].
    destruct (score_item_fields d s Hs) as [name [typ [Hn Ht]]].
    exists name, typ.
    destruct (existsb (fun sg => Spec.fires sg (Spec.normalized_copy name)
                                               (Spec.normalized_copy typ))
                      Spec.signal_table) eqn:Hex.
    + apply existsb_exists in Hex. destruct Hex as [sg [Hin Hf]].
      exists sg. now repeat split.
    + exfalso. rewrite (score_item_table d name typ Hn Ht) in Hs.
      injection Hs as Hs. unfold Spec.table_score, Spec.table_points in Hs.
      rewrite (table_points_none _ _ _ Hex) in Hs.
      pose proof (extension_points_le name). lia.
Qed.

Lemma C10_extension_alone_is_rejected_witness :
  (score_item (descriptor "coverpage.htm" "8-K") = Ok 10
   /\ 10 < Spec.acceptance_threshold)
  /\ exists name typ sg,
       field_text (descriptor "release.htm" "EX-99.1") "name" = Ok name
       /\ field_text (descriptor "release.htm" "EX-99.1") "type" = Ok typ
       /\ In sg Spec.signal_table
       /\ Spec.fires sg (Spec.normalized_copy name)
                        (Spec.normalized_copy typ) = true.
Proof.
  split.
  - apply (proj1 C10_extension_alone_is_rejected
             (descriptor "coverpage.htm" "8-K") "coverpage.htm" "8-K");
      reflexivity.
  - apply (proj2 C10_extension_alone_is_rejected
             [descriptor "coverpage.htm" "8-K"; descriptor "release.htm" "EX-99.1"]
             (descriptor "release.htm" "EX-99.1")).
    reflexivity.
Defined.
(** ** Rate-Limited Fetch Client *)

Section FetchFacts.

Variable url : string.

Lemma retryable_code (s : Z) :
  Spec.valid_status s ->
  Spec.retryable s = (s =? 429) || (s >=? 500).
Proof.
  unfold Spec.valid_status, Spec.retryable. intros H.
  rewrite Z.geb_leb.
  destruct (s =? 429); [reflexivity |]. simpl.
  destruct (Z.leb_spec 500 s); [| reflexivity].
  destruct (Z.leb_spec s 599); [reflexivity | lia].
Qed.

(** One attempt that is answered and not retried. *)
Lemma retry_loop_return (n : nat) (i : Z) (last : option response)
      (r : response) (rest : list (option response)) (tr : list event) :
  (status_code r =? 429) || (status_code r >=? 500) = false ->
  retry_loop url (S n) i last {| incoming := Some r :: rest; trace := tr |}
  = (Ok (Some r), {| incoming := rest; trace := tr ++ attempted url |}).
Proof.
  intros H. apply orb_false_iff in H. destruct H as [H1 H2].
  simpl. rewrite H1, H2. simpl.
  now rewrite <- List.app_assoc.
Qed.

(** One attempt that is answered and retried. *)
Lemma retry_loop_again (n : nat) (i : Z) (last : option response)
      (r : response) (rest : list (option response)) (tr : list event) :
  (status_code r =? 429) || (status_code r >=? 500) = true ->
  retry_loop url (S n) i last {| incoming := Some r :: rest; trace := tr |}
  = retry_loop url n (i + 1) (Some r)
      {| incoming := rest;
         trace := tr ++ [Slept SLEEP_SEC; Requested url; Slept (backoff i)] |}.
Proof.
  intros H. simpl.
  destruct (status_code r =? 429) eqn:H1; simpl.
  - now rewrite <- !List.app_assoc.
  - simpl in H. rewrite H. simpl. now rewrite <- !List.app_assoc.
Qed.

Lemma retry_loop_first (i : nat) :
  forall (rs : list response) (r : response) (n : nat) (c : Z)
         (last : option response) (rest : list (option response))
         (tr : list event),
    Forall (fun r => Spec.valid_status (status_code r)) rs ->
    nth_error rs i = Some r ->
    (i < n)%nat ->
    Spec.retryable (status_code r) = false ->
    (forall j rj, (j < i)%nat -> nth_error rs j = Some rj ->
                  Spec.retryable (status_code rj) = true) ->
    retry_loop url n c last (serving rs rest tr)
    = (Ok (Some r),
       {| incoming := (skipn (S i) (map Some rs) ++ rest)%list;
          trace := (tr ++ retried url c i ++ attempted url)%list |}).
Proof.
  induction i as [|i IH]; intros rs r n c last rest tr Hvalid Hnth Hlt Hr Hbefore;
    destruct rs as [|r0 rs]; try discriminate;
    destruct n as [|n]; try lia;
    inversion Hvalid as [|? ? Hv0 Hvalid']; subst.
  - injection Hnth as ->. unfold serving. cbn [map app].
    rewrite retry_loop_return; [reflexivity |].
    now rewrite <- retryable_code.
  - unfold serving. cbn [map app].
    rewrite retry_loop_again.
    + fold (serving rs rest
              (tr ++ [Slept SLEEP_SEC; Requested url; Slept (backoff c)])).
      rewrite (IH rs r n (c + 1) (Some r0) rest _ Hvalid' Hnth); try lia;
        try assumption.
      * cbn [retried skipn]. now rewrite <- !List.app_assoc.
      * intros j rj Hj Hnj. apply (Hbefore (S j) rj); [lia | exact Hnj].
    + rewrite <- retryable_code by assumption.
      apply (Hbefore 0%nat r0); [lia | reflexivity].
Qed.

Lemma retry_loop_exhausted (n : nat) :
  forall (rs : list response) (c : Z) (last : option response)
         (rest : list (option response)) (tr : list event),
    Forall (fun r => Spec.valid_status (status_code r)) rs ->
    (n <= length rs)%nat ->
    (forall j rj, (j < n)%nat -> nth_error rs j = Some rj ->
                  Spec.retryable (status_code rj) = true) ->
    retry_loop url n c last (serving rs rest tr)
    = (Ok (match n with O => last | S k => nth_error rs k end),
       {| incoming := (skipn n (map Some rs) ++ rest)%list;
          trace := (tr ++ retried url c n)%list |}).
Proof.
  induction n as [|n IH]; intros rs c last rest tr Hvalid Hlen Hall.
  - simpl. unfold serving. now rewrite List.app_nil_r.
  - destruct rs as [|r0 rs]; [simpl in Hlen; lia |].
    inversion Hvalid as [|? ? Hv0 Hvalid']; subst.
    unfold serving. cbn [map app].
    rewrite retry_loop_again.
    + fold (serving rs rest
              (tr ++ [Slept SLEEP_SEC; Requested url; Slept (backoff c)])).
      rewrite (IH rs (c + 1) (Some r0) rest _ Hvalid').
      * cbn [retried skipn]. rewrite <- !List.app_assoc.
        destruct n; reflexivity.
      * simpl in Hlen. lia.
      * intros j rj Hj Hnj. apply (Hall (S j) rj); [lia | exact Hnj].
    + rewrite <- retryable_code by assumption.
      apply (Hall 0%nat r0); [lia | reflexivity].
Qed.

Lemma backoff_increasing (i : Z) : backoff i < backoff (i + 1).
Proof. unfold backoff. lia. Qed.

End FetchFacts.

(** C3: whatever the service answers, as long as every status is an HTTP
    status code (100..599), [get_with_retry] with its 4 attempts returns
    the first response whose status is neither 429 nor 5xx, having paced,
    requested and backed off once for each earlier response; the backoff
    grows with the attempt number; and when the first four responses are
    all 429 or 5xx it returns the fourth one as a value, without
    raising. *)
Theorem C3_get_with_retry_first_final_response
        (url : string) (rs : list response)
        (rest : list (option response)) (tr : list event) :
  Forall (fun r => Spec.valid_status (status_code r)) rs ->
  (forall (i : nat) (r : response),
     (i < default_tries)%nat ->
     nth_error rs i = Some r ->
     Spec.retryable (status_code r) = false ->
     (forall j rj, (j < i)%nat -> nth_error rs j = Some rj ->
                   Spec.retryable (status_code rj) = true) ->
     get_with_retry url default_tries (serving rs rest tr)
     = (Ok (Some r),
        {| incoming := (skipn (S i) (map Some rs) ++ rest)%list;
           trace := (tr ++ retried url 0 i ++ attempted url)%list |}))
  /\ (forall (r : response),
        nth_error rs 3 = Some r ->
        (forall j rj, (j < default_tries)%nat -> nth_error rs j = Some rj ->
                      Spec.retryable (status_code rj) = true) ->
        get_with_retry url default_tries (serving rs rest tr)
        = (Ok (Some r),
           {| incoming := (skipn 4 (map Some rs) ++ rest)%list;
              trace := (tr ++ retried url 0 4)%list |}))
  /\ (forall i : Z, backoff i < backoff (i + 1)).
Proof.
  intros Hvalid. split; [| split].
  - intros i r Hi Hnth Hr Hbefore.
    exact (retry_loop_first url i rs r default_tries 0 None rest tr
             Hvalid Hnth Hi Hr Hbefore).
  - intros r Hnth Hall. unfold get_with_retry.
    rewrite (retry_loop_exhausted url default_tries rs 0 None rest tr Hvalid).
    + unfold default_tries. now rewrite Hnth.
    + assert (3 < length rs)%nat
        by (apply nth_error_Some; rewrite Hnth; discriminate).
      unfold default_tries. lia.
    + exact Hall.
  - exact backoff_increasing.
Qed.

Lemma C3_get_with_retry_first_final_response_witness :
  get_with_retry "u" default_tries
    (serving [with_status 429; with_status 429; with_status 200] [] [])
  = (Ok (Some (with_status 200)),
     {| incoming := [];
        trace := [Slept 250; Requested "u"; Slept 1000;
                  Slept 250; Requested "u"; Slept 2500;
                  Slept 250; Requested "u"] |})
  /\ get_with_retry "u" default_tries
       (serving [with_status 500; with_status 500; with_status 500;
                 with_status 503] [] [])
     = (Ok (Some (with_status 503)),
        {| incoming := [];
           trace := [Slept 250; Requested "u"; Slept 1000;
                     Slept 250; Requested "u"; Slept 2500;
                     Slept 250; Requested "u"; Slept 4000;
                     Slept 250; Requested "u"; Slept 5500] |}).
Proof.
  split.
  - apply (proj1 (C3_get_with_retry_first_final_response "u"
                    [with_status 429; with_status 429; with_status 200] [] []
                    ltac:(repeat constructor; vm_compute; discriminate))
             2%nat (with_status 200)).
    + unfold default_tries. lia.
    + reflexivity.
    + reflexivity.
    + intros [|[|j]] rj Hj H; try lia; injection H as <-; reflexivity.
  - apply (proj1 (proj2 (C3_get_with_retry_first_final_response "u"
                    [with_status 500; with_status 500; with_status 500;
                     with_status 503] [] []
                    ltac:(repeat constructor; vm_compute; discriminate)))
             (with_status 503)).
    + reflexivity.
    + intros [|[|[|[|j]]]] rj Hj H; unfold default_tries in Hj; try lia;
        injection H as <-; reflexivity.
Defined.
(** ** Markup Text Extractor *)

Section TreeFacts.

Lemma node_induction (P : node -> Prop) :
  (forall s, P (NavigableString s)) ->
  (forall s, P (Comment s)) ->
  (forall name attrs contents, Forall P contents -> P (Tag name attrs contents)) ->
  forall n, P n.
Proof.
  intros Hs Hc Ht. fix IH 1. intros [s|s|name attrs contents].
  - apply Hs.
  - apply Hc.
  - apply Ht. induction contents as [|c contents IHc]; constructor.
    + apply IH.
    + exact IHc.
Qed.

(** After [decompose_all p] no tag satisfying [p] is left, at any depth. *)
Lemma decompose_all_clears (p : string -> list (string * string) -> bool) (n : node) :
  forall name attrs,
    In (name, attrs) (flat_map tags_of (decompose_all p n)) ->
    p name attrs = false.
Proof.
  induction n as [s|s|nm at_ contents IH] using node_induction;
    intros name attrs Hin; simpl in Hin; try contradiction.
  destruct (p nm at_) eqn:Hp; simpl in Hin; [contradiction |].
  rewrite List.app_nil_r in Hin.
  destruct Hin as [Heq | Hin].
  - injection Heq as <- <-. exact Hp.
  - apply in_flat_map in Hin. destruct Hin as [c [Hc Hin]].
    apply in_flat_map in Hc. destruct Hc as [c0 [Hc0 Hc]].
    rewrite Forall_forall in IH.
    apply (IH c0 Hc0 name attrs).
    apply in_flat_map. now exists c.
Qed.

Lemma visible_clears (s : soup) (name : string) (attrs : list (string * string)) :
  In (name, attrs) (flat_map tags_of (visible s)) -> hidden name attrs = false.
Proof.
  unfold visible. intros Hin.
  apply in_flat_map in Hin. destruct Hin as [c [Hc Hin]].
  apply in_flat_map in Hc. destruct Hc as [c0 [_ Hc]].
  apply (decompose_all_clears hidden c0).
  apply in_flat_map. now exists c.
Qed.

Lemma visible_app (a b : soup) : visible (a ++ b)%list = (visible a ++ visible b)%list.
Proof. unfold visible. now rewrite !flat_map_app. Qed.

Lemma visible_hidden_tag (name : string) (attrs : list (string * string))
      (contents : list node) :
  hidden name attrs = true -> visible [Tag name attrs contents] = [].
Proof.
  intros H. unfold visible. simpl.
  destruct (script_or_style name attrs); [reflexivity |]. simpl.
  destruct (inline_xbrl name attrs); [reflexivity |]. simpl.
  now rewrite H.
Qed.

Lemma extract_text_drops_hidden (before after : soup) (name : string)
      (attrs : list (string * string)) (contents : list node) :
  hidden name attrs = true ->
  extract_text (before ++ Tag name attrs contents :: after)%list
  = extract_text (before ++ after)%list.
Proof.
  intros H. unfold extract_text.
  change (Tag name attrs contents :: after)
    with ([Tag name attrs contents] ++ after)%list.
  now rewrite !visible_app, (visible_hidden_tag _ _ _ H).
Qed.

(** The style test of line 66 accepts every declaration written with
    any case and any number of spaces around the colon. *)
Lemma hidden_style_declaration (style : string) :
  Spec.display_none_declaration style -> hidden_style (Some style) = true.
Proof.
  intros (before & display & n & m & none & after & -> & Hd & Hn).
  unfold hidden_style. apply andb_true_iff. split.
  - destruct before; [| reflexivity]. destruct display; [discriminate | reflexivity].
  - apply PyStrFacts.contains_iff.
    rewrite PyStrFacts.lower_remove_space.
    rewrite !PyStrFacts.lower_app, Hd, Hn, !PyStrFacts.lower_spaces.
    rewrite !PyStrFacts.remove_char_app, !PyStrFacts.remove_spaces.
    exists (PyStr.remove_char " " (PyStr.lower before)),
           (PyStr.remove_char " " (PyStr.lower after)).
    reflexivity.
Qed.

End TreeFacts.

(** C6, as stated: the element goes whatever whitespace stands between
    "display", ":" and "none".  A tab after the colon is whitespace, yet
    line 66 deletes U+0020 only before it looks for "display:none", so
    the element stays and its text reaches the output. *)
Lemma C6_tab_after_colon_not_removed :
  Spec.display_none_any_whitespace ("display:" ++ String "009" "none")
  /\ extract_text
       [Tag "div" [("style", "display:" ++ String "009" "none")]
            [NavigableString "secret"]]
     = "secret".
Proof.
  split; [| reflexivity].
  exists "", "display", "", (String "009" ""), "none", "".
  repeat split; repeat constructor.
Qed.

(** C6, amended: a style string holding a "display:none" declaration,
    in any letter case and with any number of space characters (U+0020)
    around the colon, passes the test of line 66; no tag carrying
    such a style is left, at any depth, in the tree the text is read from;
    and an element carrying it contributes nothing to the output, which is
    the output of the document without that element.  Other whitespace
    (tab, newline) inside the declaration is not covered. *)
Theorem C6_display_none_elements_removed (style : string) :
  Spec.display_none_declaration style ->
  hidden_style (Some style) = true
  /\ (forall (s : soup) (name : string) (attrs : list (string * string)),
        attr "style" attrs = Some style ->
        ~ In (name, attrs) (flat_map tags_of (visible s)))
  /\ (forall (before after : soup) (name : string)
             (attrs : list (string * string)) (contents : list node),
        attr "style" attrs = Some style ->
        extract_text (before ++ Tag name attrs contents :: after)%list
        = extract_text (before ++ after)%list).
Proof.
  intros H. pose proof (hidden_style_declaration style H) as Hh.
  split; [exact Hh | split].
  - intros s name attrs Ha Hin. apply visible_clears in Hin.
    unfold hidden in Hin. rewrite Ha in Hin. congruence.
  - intros before after name attrs contents Ha.
    apply extract_text_drops_hidden. unfold hidden. now rewrite Ha.
Qed.

Lemma C6_display_none_elements_removed_witness :
  hidden_style (Some "color:red; DISPLAY  :   None;") = true
  /\ extract_text
       ([NavigableString "shown"]
        ++ Tag "div" [("style", "color:red; DISPLAY  :   None;")]
               [Tag "p" [] [NavigableString "secret"]]
        :: [NavigableString "text"])%list
     = extract_text ([NavigableString "shown"] ++ [NavigableString "text"])%list.
Proof.
  assert (H : Spec.display_none_declaration "color:red; DISPLAY  :   None;").
  { exists "color:red; ", "DISPLAY", 2%nat, 3%nat, "None", ";".
    repeat split. }
  split.
  - exact (proj1 (C6_display_none_elements_removed _ H)).
  - apply (proj2 (proj2 (C6_display_none_elements_removed _ H))).
    reflexivity.
Defined.

Section ReparseFacts.
Import PyStr.

(** Character data free of "<" and "&" is fed to the pending buffer
    as it is. *)
Lemma feed_plain (doc : string) :
  forall (buf : string) (cur : list node),
    Spec.no_markup doc = true ->
    feed doc Data buf cur [] = Some (rev (end_data (rev_string buf doc) cur)).
Proof.
  induction doc as [|c doc IH]; intros buf cur H; [reflexivity |].
  unfold Spec.no_markup in H. simpl in H.
  rewrite !negb_orb in H.
  apply andb_true_iff in H. destruct H as [H1 H2].
  apply andb_true_iff in H1. destruct H1 as [Hlt H1].
  apply andb_true_iff in H2. destruct H2 as [Hamp H2].
  apply negb_true_iff in Hlt, Hamp.
  simpl. rewrite Hlt, Hamp. apply IH.
  unfold Spec.no_markup. now rewrite H1, H2.
Qed.

Lemma html_parser_plain (c : ascii) (r : string) :
  Spec.no_markup (String c r) = true ->
  isspace c = false ->
  html_parser (String c r) = Some [NavigableString (String c r)].
Proof.
  intros Hplain Hc. unfold html_parser. rewrite (feed_plain _ "" [] Hplain).
  unfold end_data.
  destruct (rev_string "" (String c r)) as [|c' b] eqn:Hrev.
  - pose proof (NormalFacts.rev_string_involutive (String c r)) as Hinv.
    rewrite Hrev in Hinv. discriminate.
  - rewrite <- Hrev, NormalFacts.rev_string_involutive.
    simpl. destruct (ascii_space c) eqn:Hsp; [| reflexivity].
    apply NormalFacts.ascii_space_isspace in Hsp. congruence.
Qed.

Lemma extract_text_single (out : string) :
  strip out = out -> collapse_ws out = out -> out <> "" ->
  extract_text [NavigableString out] = out.
Proof.
  intros Hs Hc Hne. unfold extract_text, visible, get_text. simpl.
  rewrite Hs.
  destruct (String.eqb out "") eqn:He;
    [apply String.eqb_eq in He; contradiction |].
  simpl. now rewrite Hc, Hs.
Qed.

End ReparseFacts.

(** C8, as stated: extracting from the output of an extraction gives the
    same output.  This fails when the output holds markup characters: the
    escaped text [&lt;b&gt;x&lt;/b&gt;] is extracted as "<b>x</b>", which
    parses as an element and is extracted as "x". *)
Lemma C8_escaped_markup_not_idempotent :
  extractText "&lt;b&gt;x&lt;/b&gt;" = Some "<b>x</b>"
  /\ extractText "<b>x</b>" = Some "x"
  /\ extractText "<b>x</b>" <> Some "<b>x</b>".
Proof. repeat split. discriminate. Qed.

(** C8, amended: whatever tree the text was extracted from, if the output
    holds neither "<" nor "&" then extracting from that output yields it
    unchanged. *)
Theorem C8_extract_text_idempotent_on_plain_output (s : soup) :
  Spec.no_markup (extract_text s) = true ->
  extractText (extract_text s) = Some (extract_text s).
Proof.
  intros Hplain.
  destruct (NormalFacts.normal_form (get_text (visible s))) as [Hs Hc].
  fold (extract_text s) in Hs, Hc.
  destruct (NormalFacts.strip_head (PyStr.collapse_ws (get_text (visible s))))
    as [He | [c [r [He Hsp]]]]; fold (extract_text s) in He.
  - rewrite He. reflexivity.
  - unfold extractText. rewrite He in *.
    rewrite (html_parser_plain c r Hplain Hsp). simpl.
    f_equal. apply extract_text_single; [exact Hs | exact Hc | discriminate].
Qed.

Lemma C8_extract_text_idempotent_on_plain_output_witness :
  extractText
    (extract_text
       [Tag "script" [] [NavigableString "alert(1)"];
        Tag "p" [] [NavigableString "  Hello   world"; Comment "note";
                    Tag "ix:nonfraction" [] [NavigableString "42"]];
        NavigableString (String "010" "body  text ")])
  = Some
      (extract_text
         [Tag "script" [] [NavigableString "alert(1)"];
          Tag "p" [] [NavigableString "  Hello   world"; Comment "note";
                      Tag "ix:nonfraction" [] [NavigableString "42"]];
          NavigableString (String "010" "body  text ")]).
Proof.
  apply (C8_extract_text_idempotent_on_plain_output
           [Tag "script" [] [NavigableString "alert(1)"];
            Tag "p" [] [NavigableString "  Hello   world"; Comment "note";
                        Tag "ix:nonfraction" [] [NavigableString "42"]];
            NavigableString (String "010" "body  text ")]).
  reflexivity.
Defined.
(** ** Filing Processor *)

Section MonadFacts.

Context {A B : Type}.

Lemma bind_io_ok (m : io A) (k : A -> io B) (w w' : world) (a : A) :
  m w = (Ok a, w') -> (x <- m ;; k x) w = k a w'.
Proof. intros H. simpl. now rewrite H. Qed.

Lemma bind_io_raise (m : io A) (k : A -> io B) (w w' : world) (e : exn) :
  m w = (Raise e, w') -> (x <- m ;; k x) w = (Raise e, w').
Proof. intros H. simpl. now rewrite H. Qed.

Lemma bind_io_inv (m : io A) (k : A -> io B) (w w' : world) (r : result B) :
  (x <- m ;; k x) w = (r, w') ->
  (exists e, m w = (Raise e, w') /\ r = Raise e)
  \/ (exists a w1, m w = (Ok a, w1) /\ k a w1 = (r, w')).
Proof.
  simpl. destruct (m w) as [[a|e] w1]; intros H.
  - right. now exists a, w1.
  - left. injection H as <- <-. now exists e.
Qed.

End MonadFacts.

Section RaiseFacts.

Lemma or_empty_raises (v : json) (e : exn) :
  or_empty v = Raise e -> e = AttributeError.
Proof.
  unfold or_empty. destruct (truthy v); [| discriminate].
  destruct v; intros H; try discriminate; now injection H as <-.
Qed.

Lemma dict_get_raises (d : json) (k : string) (dflt : json) (e : exn) :
  dict_get d k dflt = Raise e -> e = AttributeError.
Proof. destruct d; simpl; intros H; try discriminate; now injection H as <-. Qed.

Lemma is_text_file_raises (v : json) (e : exn) :
  is_text_file v = Raise e -> e = AttributeError.
Proof.
  unfold is_text_file. simpl. destruct (or_empty v) eqn:H; [discriminate |].
  intros H'. injection H' as <-. exact (or_empty_raises v e0 H).
Qed.

Lemma normalize_raises (v : json) (e : exn) :
  normalize v = Raise e -> e = AttributeError.
Proof.
  unfold normalize. simpl. destruct (or_empty v) eqn:H; [discriminate |].
  intros H'. injection H' as <-. exact (or_empty_raises v e0 H).
Qed.

Lemma score_item_raises (item : json) (e : exn) :
  score_item item = Raise e -> e = AttributeError.
Proof.
  unfold score_item. simpl.
  destruct (dict_get item "name" (JStr "")) as [vn|e0] eqn:Hn;
    [| intros H; injection H as <-; exact (dict_get_raises _ _ _ _ Hn)].
  destruct (normalize vn) as [name|e0] eqn:Hnn;
    [| intros H; injection H as <-; exact (normalize_raises _ _ Hnn)].
  destruct (dict_get item "type" (JStr "")) as [vt|e0] eqn:Ht;
    [| intros H; injection H as <-; exact (dict_get_raises _ _ _ _ Ht)].
  destruct (normalize vt) as [typ|e0] eqn:Htt;
    [| intros H; injection H as <-; exact (normalize_raises _ _ Htt)].
  destruct (is_text_file vn) as [txt|e0] eqn:Htxt;
    [discriminate | intros H; injection H as <-; exact (is_text_file_raises _ _ Htxt)].
Qed.

Lemma text_candidates_raises (items : list json) (e : exn) :
  text_candidates items = Raise e -> e = AttributeError.
Proof.
  induction items as [|it items IH]; simpl; [discriminate |].
  destruct (dict_get it "name" (JStr "")) as [vn|e0] eqn:Hn;
    [| intros H; injection H as <-; exact (dict_get_raises _ _ _ _ Hn)].
  destruct (is_text_file vn) as [txt|e0] eqn:Htxt;
    [| intros H; injection H as <-; exact (is_text_file_raises _ _ Htxt)].
  destruct (text_candidates items) as [tl|e0]; [discriminate |].
  intros H. injection H as <-. now apply IH.
Qed.

Lemma max_loop_raises (rest : list json) (e : exn) :
  forall m mv, max_loop score_item rest m mv = Raise e -> e = AttributeError.
Proof.
  induction rest as [|c rest IH]; simpl; intros m mv; [discriminate |].
  destruct (score_item c) as [v|e0] eqn:Hc;
    [| intros H; injection H as <-; exact (score_item_raises _ _ Hc)].
  destruct (v >? mv); apply IH.
Qed.

Lemma select_best_raises (items : list json) (e : exn) :
  select_best items = Raise e -> e = AttributeError.
Proof.
  unfold select_best. simpl.
  destruct (text_candidates items) as [cs|e0] eqn:Hcs;
    [| intros H; injection H as <-; exact (text_candidates_raises _ _ Hcs)].
  destruct cs as [|c cs]; [discriminate |].
  unfold py_max. simpl.
  destruct (score_item c) as [v|e0] eqn:Hc;
    [| intros H; injection H as <-; exact (score_item_raises _ _ Hc)].
  destruct (max_loop score_item cs c v) as [best|e0] eqn:Hm;
    [| intros H; injection H as <-; exact (max_loop_raises _ _ _ _ Hm)].
  destruct (score_item best) as [s|e0] eqn:Hb;
    [| intros H; injection H as <-; exact (score_item_raises _ _ Hb)].
  destruct (s <? 20); discriminate.
Qed.

Lemma py_iter_raises (v : json) (e : exn) :
  py_iter v = Raise e -> e = TypeError.
Proof. destruct v; simpl; intros H; try discriminate; now injection H as <-. Qed.

(** The fetch client raises only when the transport does. *)
Lemma retry_loop_raises (url : string) (n : nat) :
  forall i last w e w',
    retry_loop url n i last w = (Raise e, w') -> e = ConnectionError.
Proof.
  induction n as [|n IH]; intros i last w e w'; simpl; [discriminate |].
  destruct (incoming w) as [|[r|] rest]; simpl;
    try (intros H; now injection H as <- _).
  destruct (status_code r =? 429); simpl; [apply IH |].
  destruct (status_code r >=? 500); simpl; [apply IH | discriminate].
Qed.

(** With at least one attempt the fetch client returns a response. *)
Lemma retry_loop_some (url : string) (n : nat) :
  forall i last w r w',
    retry_loop url n i last w = (Ok r, w') ->
    (n = 0%nat /\ r = last) \/ exists r', r = Some r'.
Proof.
  induction n as [|n IH]; intros i last w r w'; simpl.
  - intros H. injection H as <- _. now left.
  - destruct (incoming w) as [|[r0|] rest]; simpl; try discriminate.
    destruct (status_code r0 =? 429); simpl.
    + intros H. destruct (IH _ _ _ _ _ H) as [[_ ->] | ?]; right; eauto.
    + destruct (status_code r0 >=? 500); simpl.
      * intros H. destruct (IH _ _ _ _ _ H) as [[_ ->] | ?]; right; eauto.
      * intros H. injection H as <- _. right. eauto.
Qed.

Lemma get_with_retry_some (url : string) (w w' : world) (r : option response) :
  get_with_retry url default_tries w = (Ok r, w') -> exists r', r = Some r'.
Proof.
  intros H. apply retry_loop_some in H.
  destruct H as [[H _] | H]; [discriminate | exact H].
Qed.

End RaiseFacts.

Section GetJsonFacts.

Variable url : string.

Lemma get_json_transport (w w' : world) (e : exn) :
  get_with_retry url default_tries w = (Raise e, w') ->
  get_json url w = (Raise e, w').
Proof. intros H. unfold get_json. now rewrite (bind_io_raise _ _ _ _ _ H). Qed.

Lemma get_json_http_error (w w' : world) (r : response) :
  get_with_retry url default_tries w = (Ok (Some r), w') ->
  (400 <=? status_code r) && (status_code r <? 600) = true ->
  get_json url w = (Raise (HTTPError (status_code r)), w').
Proof.
  intros H Hs. unfold get_json. rewrite (bind_io_ok _ _ _ _ _ H).
  simpl. unfold raise_for_status. now rewrite Hs.
Qed.

Lemma get_json_decode_error (w w' : world) (r : response) :
  get_with_retry url default_tries w = (Ok (Some r), w') ->
  (400 <=? status_code r) && (status_code r <? 600) = false ->
  json_body r = None ->
  get_json url w = (Raise JSONDecodeError, w').
Proof.
  intros H Hs Hj. unfold get_json. rewrite (bind_io_ok _ _ _ _ _ H).
  simpl. unfold raise_for_status. rewrite Hs. simpl. now rewrite Hj.
Qed.

Lemma get_json_ok (w w' : world) (r : response) (v : json) :
  get_with_retry url default_tries w = (Ok (Some r), w') ->
  (400 <=? status_code r) && (status_code r <? 600) = false ->
  json_body r = Some v ->
  get_json url w = (Ok v, w').
Proof.
  intros H Hs Hj. unfold get_json. rewrite (bind_io_ok _ _ _ _ _ H).
  simpl. unfold raise_for_status. rewrite Hs. simpl. now rewrite Hj.
Qed.

End GetJsonFacts.

Section ProcessorFacts.

Variable str_int : string -> option string.
Variable BeautifulSoup : string -> option soup.
Variable format_other : json -> string.

Local Abbreviation list_files := (list_accession_files str_int).
Local Abbreviation download :=
  (download_best_press_release str_int BeautifulSoup format_other).

Lemma list_files_value_error (cik accession : string) (w : world) :
  str_int cik = None ->
  list_files cik accession w = (Raise ValueError, w).
Proof. intros H. unfold list_accession_files, lift. simpl. now rewrite H. Qed.

(** Whatever goes wrong while the manifest is fetched and decoded, the
    listing is empty and nothing is raised. *)
Lemma list_files_caught (cik accession cik_short : string) (w w1 : world) (e : exn) :
  str_int cik = Some cik_short ->
  get_json (index_url cik_short accession) w = (Raise e, w1) ->
  list_files cik accession w
  = (Ok (JArr [], cik_short, PyStr.remove_char "-" accession), w1).
Proof.
  intros Hc Hj. unfold list_accession_files, lift, try_except.
  cbn [bind Monad_io]. rewrite Hc.
  unfold index_url in Hj. cbn [bind Monad_io]. now rewrite Hj.
Qed.

Lemma list_files_items (cik accession cik_short : string) (w w1 : world)
      (data directory items : json) :
  str_int cik = Some cik_short ->
  get_json (index_url cik_short accession) w = (Ok data, w1) ->
  dict_get data "directory" (JObj []) = Ok directory ->
  dict_get directory "item" (JArr []) = Ok items ->
  list_files cik accession w
  = (Ok (items, cik_short, PyStr.remove_char "-" accession), w1).
Proof.
  intros Hc Hj Hd Hi. unfold list_accession_files, lift, try_except.
  cbn [bind Monad_io]. rewrite Hc.
  unfold index_url in Hj. cbn [bind Monad_io]. rewrite Hj, Hd, Hi.
  reflexivity.
Qed.

Lemma list_files_inv (cik accession : string) (w w' : world)
      (r : result (json * string * string)) :
  list_files cik accession w = (r, w') ->
  (str_int cik = None /\ r = Raise ValueError /\ w' = w)
  \/ exists cik_short items,
       str_int cik = Some cik_short
       /\ r = Ok (items, cik_short, PyStr.remove_char "-" accession).
Proof.
  unfold list_accession_files, lift, try_except. cbn [bind Monad_io].
  destruct (str_int cik) as [cs|].
  - intros H. right. exists cs.
    destruct (get_json _ w) as [[data|e] w1].
    + destruct (dict_get data "directory" (JObj [])) as [directory|e].
      * destruct (dict_get directory "item" (JArr [])) as [items|e].
        -- exists items. cbn [ret] in H. now injection H as <- _.
        -- exists (JArr []). cbn [ret] in H. now injection H as <- _.
      * exists (JArr []). cbn [ret] in H. now injection H as <- _.
    + exists (JArr []). cbn [ret] in H. now injection H as <- _.
  - intros H. left. now injection H as <- <-.
Qed.

Lemma bind_lift_ok {A B : Type} (r : result A) (a : A) (k : A -> io B) (w : world) :
  r = Ok a -> (x <- lift r ;; k x) w = k a w.
Proof. intros ->. reflexivity. Qed.

Lemma bind_lift_raise {A B : Type} (r : result A) (e : exn) (k : A -> io B)
      (w : world) :
  r = Raise e -> (x <- lift r ;; k x) w = (Raise e, w).
Proof. intros ->. reflexivity. Qed.

Lemma select_best_fields (entries : list json) (best : json) :
  select_best entries = Ok (Some best) ->
  exists name filetype,
    dict_get best "name" JNull = Ok (JStr name)
    /\ dict_get best "type" (JStr "") = Ok filetype
    /\ has_textual_extension name.
Proof.
  intros H. destruct (select_best_inv entries best H) as [_ [Hel _]].
  destruct (eligible_extension best Hel) as [name [Hget Hext]].
  destruct best as [| | | | |kv]; try discriminate.
  simpl in Hget. injection Hget as Hget.
  destruct (assoc "name" kv) as [v|] eqn:Ha.
  - subst v. exists name. eexists. simpl. rewrite Ha. now repeat split.
  - injection Hget as <-. exfalso.
    destruct Hext as [stem [ext [Hin Hlow]]]. simpl in Hin.
    destruct Hin as [<- | [<- | [<- | []]]]; destruct stem; discriminate.
Qed.

Section Path.

Variables (cik accession cik_short accession_clean : string).
Variables (w w1 : world) (items : json).
Hypothesis Hlisting :
  list_files cik accession w = (Ok (items, cik_short, accession_clean), w1).

Lemma download_empty_manifest :
  truthy items = false -> download cik accession w = (Ok None, w1).
Proof.
  intros Ht. unfold download_best_press_release.
  rewrite (bind_io_ok _ _ _ _ _ Hlisting). cbv beta iota. now rewrite Ht.
Qed.

Lemma download_not_iterable (e : exn) :
  truthy items = true -> py_iter items = Raise e ->
  download cik accession w = (Raise e, w1).
Proof.
  intros Ht Hi. unfold download_best_press_release.
  rewrite (bind_io_ok _ _ _ _ _ Hlisting). cbv beta iota. rewrite Ht.
  cbn [negb]. now rewrite (bind_lift_raise _ _ _ _ Hi).
Qed.

Variable entries : list json.
Hypothesis Htruthy : truthy items = true.
Hypothesis Hentries : py_iter items = Ok entries.

Lemma download_selection_raises (e : exn) :
  select_best entries = Raise e ->
  download cik accession w = (Raise e, w1).
Proof.
  intros Hs. unfold download_best_press_release.
  rewrite (bind_io_ok _ _ _ _ _ Hlisting). cbv beta iota. rewrite Htruthy.
  cbn [negb]. rewrite (bind_lift_ok _ _ _ _ Hentries).
  now rewrite (bind_lift_raise _ _ _ _ Hs).
Qed.

Lemma download_no_candidate :
  select_best entries = Ok None ->
  download cik accession w = (Ok None, w1).
Proof.
  intros Hs. unfold download_best_press_release.
  rewrite (bind_io_ok _ _ _ _ _ Hlisting). cbv beta iota. rewrite Htruthy.
  cbn [negb]. rewrite (bind_lift_ok _ _ _ _ Hentries).
  now rewrite (bind_lift_ok _ _ _ _ Hs).
Qed.

Variables (best filetype : json) (name : string).
Hypothesis Hbest : select_best entries = Ok (Some best).
Hypothesis Hname : dict_get best "name" JNull = Ok (JStr name).
Hypothesis Htype : dict_get best "type" (JStr "") = Ok filetype.

Let url : string :=
  archives ++ cik_short ++ "/" ++ accession_clean ++ "/" ++ name.

Lemma download_fetch_raises (e : exn) (w2 : world) :
  get_with_retry url default_tries w1 = (Raise e, w2) ->
  download cik accession w = (Raise e, w2).
Proof.
  intros Hf. unfold download_best_press_release.
  rewrite (bind_io_ok _ _ _ _ _ Hlisting). cbv beta iota. rewrite Htruthy.
  cbn [negb]. rewrite (bind_lift_ok _ _ _ _ Hentries).
  rewrite (bind_lift_ok _ _ _ _ Hbest).
  rewrite (bind_lift_ok _ _ _ _ Hname), (bind_lift_ok _ _ _ _ Htype).
  cbv zeta. cbn [format].
  now rewrite (bind_io_raise _ _ _ _ _ Hf).
Qed.

Variables (r : response) (w2 : world).
Hypothesis Hfetch : get_with_retry url default_tries w1 = (Ok (Some r), w2).

Lemma download_after_fetch :
  download cik accession w
  = if negb (status_code r =? 200) then (Ok None, w2)
    else match BeautifulSoup (content r) with
         | None => (Raise ParserRejectedMarkup, w2)
         | Some s =>
             if PyStr.len (extract_text s) <? 1000 then (Ok None, w2)
             else (Ok (Some {| ExhibitFile := JStr name;
                               ExhibitType := filetype;
                               URL := url;
                               Text := extract_text s |}), w2)
         end.
Proof.
  unfold download_best_press_release.
  rewrite (bind_io_ok _ _ _ _ _ Hlisting). cbv beta iota. rewrite Htruthy.
  cbn [negb]. rewrite (bind_lift_ok _ _ _ _ Hentries).
  rewrite (bind_lift_ok _ _ _ _ Hbest).
  rewrite (bind_lift_ok _ _ _ _ Hname), (bind_lift_ok _ _ _ _ Htype).
  cbv zeta. cbn [format].
  rewrite (bind_io_ok _ _ _ _ _ Hfetch).
  cbn [the_response bind Monad_io ret].
  destruct (negb (status_code r =? 200)); [reflexivity |].
  unfold clean_html_to_text, lift.
  destruct (BeautifulSoup (content r)) as [s|]; [| reflexivity].
  destruct (PyStr.len (extract_text s) <? 1000); reflexivity.
Qed.

End Path.

Lemma keys_total (key : json -> result Z) (cs : list json) :
  Forall (fun c => exists v, key c = Ok v) cs ->
  exists vals, Forall2 (fun c v => key c = Ok v) cs vals.
Proof.
  induction 1 as [|c cs [v Hv] _ [vals IH]].
  - now exists [].
  - exists (v :: vals). now constructor.
Qed.

Lemma descriptor_shaped_score (d : json) :
  descriptor_shaped d -> exists v, score_item d = Ok v.
Proof.
  intros [name [typ [Hn Ht]]]. eexists. exact (score_item_table d name typ Hn Ht).
Qed.

Lemma text_candidates_total (items : list json) :
  Forall descriptor_shaped items -> exists cs, text_candidates items = Ok cs.
Proof.
  induction 1 as [|d items [name [typ [Hn _]]] _ [cs IH]]; simpl.
  - now exists [].
  - apply field_text_inv in Hn. destruct Hn as [v [Hget Hv]].
    rewrite Hget, (is_text_file_extension v name Hv), IH. simpl. eauto.
Qed.

(** On a manifest of descriptors the Selector does not raise. *)
Lemma select_best_total (items : list json) :
  Forall descriptor_shaped items -> exists r, select_best items = Ok r.
Proof.
  intros Hall. destruct (text_candidates_total items Hall) as [cs Hcs].
  unfold select_best. rewrite Hcs. simpl.
  destruct cs as [|c cs]; [eauto |].
  assert (Hshaped : Forall descriptor_shaped (c :: cs)).
  { rewrite Forall_forall in *. intros x Hx.
    apply Hall. exact (proj1 (text_candidates_sound _ _ Hcs x Hx)). }
  inversion Hshaped as [|? ? Hc Hcs']; subst.
  destruct (descriptor_shaped_score c Hc) as [v Hv].
  destruct (keys_total score_item cs) as [vals Hvals].
  { eapply Forall_impl; [| exact Hcs']. exact descriptor_shaped_score. }
  destruct (py_max_first_max score_item c cs v vals Hv Hvals)
    as (i & best & top & Hmax & _ & _ & Hkey & _).
  rewrite Hmax, Hkey. destruct (top <? 20); eauto.
Qed.

(** Every way [download_best_press_release] can raise. *)
Lemma download_raises_inv (cik accession : string) (w w' : world) (e : exn) :
  download cik accession w = (Raise e, w') ->
  (str_int cik = None /\ e = ValueError)
  \/ exists items cik_short accession_clean w1,
       list_files cik accession w = (Ok (items, cik_short, accession_clean), w1)
       /\ truthy items = true
       /\ ((py_iter items = Raise e /\ e = TypeError)
           \/ (exists entries, py_iter items = Ok entries
                               /\ select_best entries = Raise e
                               /\ e = AttributeError)
           \/ e = ConnectionError
           \/ e = ParserRejectedMarkup).
Proof.
  intros H.
  destruct (list_files cik accession w) as [rl w1] eqn:Hl.
  destruct (list_files_inv cik accession w w1 rl Hl)
    as [[Hnone [-> ->]] | [cs [items [Hcs ->]]]].
  - left. split; [exact Hnone |].
    unfold download_best_press_release in H.
    rewrite (bind_io_raise _ _ _ _ _ Hl) in H. now injection H as <- _.
  - right. exists items, cs, (PyStr.remove_char "-" accession), w1.
    split; [reflexivity |].
    destruct (truthy items) eqn:Ht.
    2:{ rewrite (download_empty_manifest _ _ _ _ _ _ _ Hl Ht) in H. discriminate. }
    split; [reflexivity |].
    destruct (py_iter items) as [entries|e0] eqn:Hi.
    2:{ rewrite (download_not_iterable _ _ _ _ _ _ _ Hl e0 Ht Hi) in H.
        injection H as <- _. left. split; [reflexivity |].
        exact (py_iter_raises _ _ Hi). }
    destruct (select_best entries) as [[best|]|e0] eqn:Hs.
    3:{ rewrite (download_selection_raises _ _ _ _ _ _ _ Hl entries Ht Hi e0 Hs) in H.
        injection H as <- _. right. left. exists entries.
        repeat split; try assumption. exact (select_best_raises _ _ Hs). }
    2:{ rewrite (download_no_candidate _ _ _ _ _ _ _ Hl entries Ht Hi Hs) in H.
        discriminate. }
    destruct (select_best_fields entries best Hs) as [name [filetype [Hn [Hty _]]]].
    destruct (get_with_retry
                (archives ++ cs ++ "/" ++ PyStr.remove_char "-" accession
                 ++ "/" ++ name) default_tries w1) as [[ro|e0] w2] eqn:Hf.
    + destruct (get_with_retry_some _ _ _ _ Hf) as [r ->].
      rewrite (download_after_fetch _ _ _ _ _ _ _ Hl entries Ht Hi
                 best filetype name Hs Hn Hty r w2 Hf) in H.
      destruct (negb (status_code r =? 200)); [discriminate |].
      destruct (BeautifulSoup (content r)) as [s|].
      * destruct (PyStr.len (extract_text s) <? 1000); discriminate.
      * injection H as <- _. right. right. now right.
    + rewrite (download_fetch_raises _ _ _ _ _ _ _ Hl entries Ht Hi
                 best filetype name Hs Hn Hty e0 w2 Hf) in H.
      injection H as <- _. right. right. left.
      exact (retry_loop_raises _ _ _ _ _ _ _ Hf).
Qed.

End ProcessorFacts.

(** *** Claims on the Filing Processor *)

(** C5: once a candidate with a score of at least 20 has been selected
    and its content fetched with status 200 and parsed, the processor
    answers none when the extracted text has fewer than 1000 characters
    and the record of that candidate, with that text, when it has 1000 or
    more. *)
Theorem C5_validation_boundary
        (str_int : string -> option string)
        (BeautifulSoup : string -> option soup)
        (format_other : json -> string)
        (cik accession cik_short accession_clean : string)
        (w w1 w2 : world) (items : json) (entries : list json)
        (best filetype : json) (name : string) (r : response) (s : soup) :
  list_accession_files str_int cik accession w
  = (Ok (items, cik_short, accession_clean), w1) ->
  truthy items = true ->
  py_iter items = Ok entries ->
  select_best entries = Ok (Some best) ->
  dict_get best "name" JNull = Ok (JStr name) ->
  dict_get best "type" (JStr "") = Ok filetype ->
  get_with_retry (archives ++ cik_short ++ "/" ++ accession_clean ++ "/" ++ name)
                 default_tries w1
  = (Ok (Some r), w2) ->
  status_code r = 200 ->
  BeautifulSoup (content r) = Some s ->
  (exists score, score_item best = Ok score /\ Spec.acceptance_threshold <= score)
  /\ (PyStr.len (extract_text s) < Spec.minimum_text_length ->
      download_best_press_release str_int BeautifulSoup format_other
        cik accession w
      = (Ok None, w2))
  /\ (Spec.minimum_text_length <= PyStr.len (extract_text s) ->
      download_best_press_release str_int BeautifulSoup format_other
        cik accession w
      = (Ok (Some {| ExhibitFile := JStr name;
                     ExhibitType := filetype;
                     URL := archives ++ cik_short ++ "/" ++ accession_clean
                            ++ "/" ++ name;
                     Text := extract_text s |}), w2)).
Proof.
  intros Hl Ht Hi Hs Hn Hty Hf Hst Hp.
  pose proof (download_after_fetch str_int BeautifulSoup format_other
                _ _ _ _ _ _ _ Hl entries Ht Hi best filetype name
                Hs Hn Hty r w2 Hf) as Hd.
  rewrite Hst, Hp in Hd. cbn [Z.eqb Pos.eqb negb] in Hd.
  split; [| split].
  - destruct (select_best_inv entries best Hs) as [_ [_ Hscore]]. exact Hscore.
  - intros Hshort. rewrite Hd.
    unfold Spec.minimum_text_length in Hshort.
    destruct (Z.ltb_spec (PyStr.len (extract_text s)) 1000); [reflexivity | lia].
  - intros Hlong. rewrite Hd.
    unfold Spec.minimum_text_length in Hlong.
    destruct (Z.ltb_spec (PyStr.len (extract_text s)) 1000); [lia | reflexivity].
Qed.

Lemma C5_validation_boundary_witness :
  download_best_press_release str_int_decimal BeautifulSoup_plain no_format
    "0000789019" "0000950170-24-008814" (scenario 999)
  = (Ok None, scenario_fetched)
  /\ download_best_press_release str_int_decimal BeautifulSoup_plain no_format
       "0000789019" "0000950170-24-008814" (scenario 1000)
     = (Ok (Some {| ExhibitFile := JStr "ex991pressrelease.htm";
                    ExhibitType := JStr "EX-99.1";
                    URL := archives ++ "789019" ++ "/" ++ "000095017024008814"
                           ++ "/" ++ "ex991pressrelease.htm";
                    Text := extract_text
                              [Tag "p" [] [NavigableString (replicate 1000 "a")]] |}),
        scenario_fetched).
Proof.
  split.
  - apply (proj1 (proj2 (C5_validation_boundary
             str_int_decimal BeautifulSoup_plain no_format
             "0000789019" "0000950170-24-008814" "789019" "000095017024008814"
             (scenario 999) (scenario_listed 999) scenario_fetched
             (JArr [scenario_release; scenario_cover])
             [scenario_release; scenario_cover]
             scenario_release (JStr "EX-99.1") "ex991pressrelease.htm"
             (scenario_body 999)
             [Tag "p" [] [NavigableString (replicate 999 "a")]]
             ltac:(vm_compute; reflexivity) ltac:(reflexivity)
             ltac:(reflexivity) ltac:(vm_compute; reflexivity)
             ltac:(reflexivity) ltac:(reflexivity)
             ltac:(vm_compute; reflexivity) ltac:(reflexivity)
             ltac:(vm_compute; reflexivity)))).
    vm_compute. reflexivity.
  - apply (proj2 (proj2 (C5_validation_boundary
             str_int_decimal BeautifulSoup_plain no_format
             "0000789019" "0000950170-24-008814" "789019" "000095017024008814"
             (scenario 1000) (scenario_listed 1000) scenario_fetched
             (JArr [scenario_release; scenario_cover])
             [scenario_release; scenario_cover]
             scenario_release (JStr "EX-99.1") "ex991pressrelease.htm"
             (scenario_body 1000)
             [Tag "p" [] [NavigableString (replicate 1000 "a")]]
             ltac:(vm_compute; reflexivity) ltac:(reflexivity)
             ltac:(reflexivity) ltac:(vm_compute; reflexivity)
             ltac:(reflexivity) ltac:(reflexivity)
             ltac:(vm_compute; reflexivity) ltac:(reflexivity)
             ltac:(vm_compute; reflexivity)))).
    vm_compute. discriminate.
Defined.

Lemma download_manifest_fault
      (str_int : string -> option string)
      (BeautifulSoup : string -> option soup)
      (format_other : json -> string)
      (cik accession cik_short : string) (w w1 : world) (e : exn) :
  str_int cik = Some cik_short ->
  get_json (index_url cik_short accession) w = (Raise e, w1) ->
  download_best_press_release str_int BeautifulSoup format_other cik accession w
  = (Ok None, w1).
Proof.
  intros Hc Hj.
  pose proof (list_files_caught str_int cik accession cik_short w w1 e Hc Hj) as Hl.
  exact (download_empty_manifest str_int BeautifulSoup format_other
           _ _ _ _ _ _ _ Hl eq_refl).
Qed.

(** C7: a fault met by [get_json] reaches its caller: a transport fault
    of the fetch is raised again, and a response without a decodable JSON
    body raises an HTTP error or a decode error.  Inside the Filing
    Processor any fault of the manifest fetch ends in the answer none, as
    do an empty manifest, a manifest without acceptable candidate and a
    content response whose status is not 200; what the processor can
    raise is a ValueError for an identifier that is not a number, a
    TypeError or AttributeError for a manifest that is not a list of
    descriptors, the transport fault of the content fetch, or the
    rejection of the markup by the parser, and on a manifest of
    descriptors only the last two. *)
Theorem C7_only_unexpected_faults_propagate
        (str_int : string -> option string)
        (BeautifulSoup : string -> option soup)
        (format_other : json -> string) :
  (forall url w w' e,
     get_with_retry url default_tries w = (Raise e, w') ->
     get_json url w = (Raise e, w'))
  /\ (forall url w w' r,
        get_with_retry url default_tries w = (Ok (Some r), w') ->
        json_body r = None ->
        get_json url w = (Raise (HTTPError (status_code r)), w')
        \/ get_json url w = (Raise JSONDecodeError, w'))
  /\ (forall cik accession cik_short w w1 e,
        str_int cik = Some cik_short ->
        get_json (index_url cik_short accession) w = (Raise e, w1) ->
        download_best_press_release str_int BeautifulSoup format_other
          cik accession w
        = (Ok None, w1))
  /\ (forall cik accession cik_short accession_clean w w1 items,
        list_accession_files str_int cik accession w
        = (Ok (items, cik_short, accession_clean), w1) ->
        (truthy items = false
         \/ exists entries, truthy items = true /\ py_iter items = Ok entries
                            /\ select_best entries = Ok None) ->
        download_best_press_release str_int BeautifulSoup format_other
          cik accession w
        = (Ok None, w1))
  /\ (forall cik accession cik_short accession_clean w w1 w2 items entries
             best filetype name r,
        list_accession_files str_int cik accession w
        = (Ok (items, cik_short, accession_clean), w1) ->
        truthy items = true ->
        py_iter items = Ok entries ->
        select_best entries = Ok (Some best) ->
        dict_get best "name" JNull = Ok (JStr name) ->
        dict_get best "type" (JStr "") = Ok filetype ->
        get_with_retry
          (archives ++ cik_short ++ "/" ++ accession_clean ++ "/" ++ name)
          default_tries w1
        = (Ok (Some r), w2) ->
        status_code r <> 200 ->
        download_best_press_release str_int BeautifulSoup format_other
          cik accession w
        = (Ok None, w2))
  /\ (forall cik accession w w' e,
        download_best_press_release str_int BeautifulSoup format_other
          cik accession w
        = (Raise e, w') ->
        (str_int cik = None /\ e = ValueError)
        \/ e = TypeError \/ e = AttributeError
        \/ e = ConnectionError \/ e = ParserRejectedMarkup)
  /\ (forall cik accession cik_short accession_clean w w1 w' e entries,
        list_accession_files str_int cik accession w
        = (Ok (JArr entries, cik_short, accession_clean), w1) ->
        Forall descriptor_shaped entries ->
        download_best_press_release str_int BeautifulSoup format_other
          cik accession w
        = (Raise e, w') ->
        e = ConnectionError \/ e = ParserRejectedMarkup).
Proof.
  repeat apply conj.
  - intros url w w' e H. exact (get_json_transport url w w' e H).
  - intros url w w' r H Hj.
    destruct ((400 <=? status_code r) && (status_code r <? 600)) eqn:Hs.
    + left. exact (get_json_http_error url w w' r H Hs).
    + right. exact (get_json_decode_error url w w' r H Hs Hj).
  - intros cik accession cik_short w w1 e Hc Hj.
    exact (download_manifest_fault str_int BeautifulSoup format_other
             cik accession cik_short w w1 e Hc Hj).
  - intros cik accession cik_short accession_clean w w1 items Hl
           [Ht | [entries [Ht [Hi Hs]]]].
    + exact (download_empty_manifest str_int BeautifulSoup format_other
               _ _ _ _ _ _ _ Hl Ht).
    + exact (download_no_candidate str_int BeautifulSoup format_other
               _ _ _ _ _ _ _ Hl entries Ht Hi Hs).
  - intros cik accession cik_short accession_clean w w1 w2 items entries
           best filetype name r Hl Ht Hi Hs Hn Hty Hf Hst.
    rewrite (download_after_fetch str_int BeautifulSoup format_other
               _ _ _ _ _ _ _ Hl entries Ht Hi best filetype name
               Hs Hn Hty r w2 Hf).
    destruct (Z.eqb_spec (status_code r) 200); [contradiction | reflexivity].
  - intros cik accession w w' e H.
    destruct (download_raises_inv str_int BeautifulSoup format_other
                cik accession w w' e H)
      as [Hv | (items & cs & ac & w1 & _ & _ & [[_ He] | [[en [_ [_ He]]] | [He | He]]])];
      auto.
  - intros cik accession cik_short accession_clean w w1 w' e entries Hl Hall H.
    destruct (download_raises_inv str_int BeautifulSoup format_other
                cik accession w w' e H)
      as [[Hnone _] | (items & cs & ac & w1' & Hl' & _ & [[Hi _] | [[en [Hi [Hs _]]] | [He | He]]])];
      auto.
    + exfalso.
      rewrite (list_files_value_error str_int cik accession w Hnone) in Hl.
      discriminate.
    + exfalso. rewrite Hl in Hl'. injection Hl' as <- <- <- <-. discriminate.
    + exfalso. rewrite Hl in Hl'. injection Hl' as <- <- <- <-.
      injection Hi as <-.
      destruct (select_best_total entries Hall) as [r Hr]. congruence.
Qed.

Lemma C7_only_unexpected_faults_propagate_witness :
  (get_json scenario_index_url manifest_garbled
   = (Raise (HTTPError 200),
      {| incoming := []; trace := [Slept 250; Requested scenario_index_url] |})
   \/ get_json scenario_index_url manifest_garbled
      = (Raise JSONDecodeError,
         {| incoming := []; trace := [Slept 250; Requested scenario_index_url] |}))
  /\ download_best_press_release str_int_decimal BeautifulSoup_plain no_format
       "0000789019" "0000950170-24-008814" manifest_missing
     = (Ok None,
        {| incoming := []; trace := [Slept 250; Requested scenario_index_url] |})
  /\ (ConnectionError = ConnectionError \/ ConnectionError = ParserRejectedMarkup).
Proof.
  split; [| split].
  - apply (proj1 (proj2 (C7_only_unexpected_faults_propagate
                           str_int_decimal BeautifulSoup_plain no_format))
             scenario_index_url manifest_garbled _ not_json).
    + reflexivity.
    + reflexivity.
  - apply (proj1 (proj2 (proj2 (C7_only_unexpected_faults_propagate
                                  str_int_decimal BeautifulSoup_plain no_format)))
             "0000789019" "0000950170-24-008814" "789019"
             manifest_missing _ (HTTPError 404)).
    + reflexivity.
    + reflexivity.
  - apply (proj2 (proj2 (proj2 (proj2 (proj2 (proj2
             (C7_only_unexpected_faults_propagate
                str_int_decimal BeautifulSoup_plain no_format))))))
             "0000789019" "0000950170-24-008814" "789019" "000095017024008814"
             connection_dropped
             {| incoming := [None];
                trace := [Slept 250; Requested scenario_index_url] |}
             {| incoming := [];
                trace := [Slept 250; Requested scenario_index_url;
                          Slept 250; Requested scenario_file_url] |}
             ConnectionError [scenario_release; scenario_cover]).
    + vm_compute. reflexivity.
    + repeat constructor.
      * exists "ex991pressrelease.htm", "EX-99.1". split; reflexivity.
      * exists "coverpage.htm", "EX-99". split; reflexivity.
    + vm_compute. reflexivity.
Defined.

(** ** Worked examples *)

Example score_press_release :
  score_item (descriptor "ex991pressrelease.htm" "EX-99.1") = Ok 280.
Proof. reflexivity. Qed.

Example score_cover_page :
  score_item (descriptor "coverpage.htm" "EX-99") = Ok 110.
Proof. reflexivity. Qed.

Example score_keywords_accumulate :
  score_item (descriptor "Press  Release - Conference Call.txt" "")
  = Ok 50.
Proof. reflexivity. Qed.

Example score_non_textual :
  score_item (descriptor "ex99-1.pdf" "EX-99.1") = Ok 200.
Proof. reflexivity. Qed.

Example score_truthy_non_string_raises :
  score_item (JObj [("name", JStr "a.htm"); ("type", JNum 5)])
  = Raise AttributeError.
Proof. reflexivity. Qed.

Example select_end_to_end :
  select_best [scenario_release; scenario_cover] = Ok (Some scenario_release).
Proof. reflexivity. Qed.

Example select_tie_keeps_first :
  select_best [descriptor "second.htm" "EX-99"; descriptor "first.htm" "EX-99"]
  = Ok (Some (descriptor "second.htm" "EX-99")).
Proof. reflexivity. Qed.

Example select_weak_candidate :
  select_best [descriptor "coverpage.htm" "8-K"] = Ok None.
Proof. reflexivity. Qed.

Example parse_escaped : html_parser "&lt;b&gt;x&lt;/b&gt;" = Some [NavigableString "<b>x</b>"].
Proof. reflexivity. Qed.

Example parse_element : html_parser "<b>x</b>" = Some [Tag "b" [] [NavigableString "x"]].
Proof. reflexivity. Qed.

Example parse_nested :
  html_parser "a <p>b <i>c</i> d</p>  "
  = Some [NavigableString "a ";
          Tag "p" [] [NavigableString "b "; Tag "i" [] [NavigableString "c"];
                      NavigableString " d"];
          NavigableString " "].
Proof. reflexivity. Qed.

Example extract_nested : extractText "a <p>b <i>c</i> d</p>  " = Some "a b c d".
Proof. reflexivity. Qed.

Example extract_script_removed :
  extract_text [Tag "script" [] [NavigableString "alert(1)"];
                Tag "p" [] [NavigableString "Hello world body text"]]
  = "Hello world body text".
Proof. reflexivity. Qed.

Example extract_hidden_removed :
  extract_text [Tag "div" [("style", "Display : None")] [NavigableString "secret"];
                NavigableString (" shown" ++ String "010" (String "009" "text "))]
  = "shown text".
Proof. reflexivity. Qed.

Example extract_empty : extract_text [] = "".
Proof. reflexivity. Qed.

Example retry_then_success :
  fst (get_with_retry "u" default_tries
         (serving [with_status 429; with_status 429; with_status 200] [] []))
  = Ok (Some (with_status 200)).
Proof. reflexivity. Qed.

Example retry_status_above_599 :
  fst (get_with_retry "u" default_tries
         (serving [with_status 600; with_status 200] [] []))
  = Ok (Some (with_status 200)).
Proof. reflexivity. Qed.

Example transport_fault_raises :
  fst (get_with_retry "u" default_tries
         {| incoming := [None]; trace := [] |})
  = Raise ConnectionError.
Proof. reflexivity. Qed.

Example connection_dropped_raises :
  fst (download_best_press_release str_int_decimal BeautifulSoup_plain no_format
         "0000789019" "0000950170-24-008814" connection_dropped)
  = Raise ConnectionError.
Proof. vm_compute. reflexivity. Qed.

(** * Further properties of the code *)

(** ** Fetch client: [get_with_retry], [get_json] (lines 32-53) *)

Section RetryFacts.

Variable url : string.

Lemma retry_loop_first_final (i : nat) :
  forall (rs : list response) (r : response) (n : nat) (c : Z)
         (last : option response) (rest : list (option response))
         (tr : list event),
    nth_error rs i = Some r ->
    (i < n)%nat ->
    retried_status (status_code r) = false ->
    (forall j rj, (j < i)%nat -> nth_error rs j = Some rj ->
                  retried_status (status_code rj) = true) ->
    retry_loop url n c last (serving rs rest tr)
    = (Ok (Some r),
       {| incoming := (skipn (S i) (map Some rs) ++ rest)%list;
          trace := (tr ++ retried url c i ++ attempted url)%list |}).
Proof.
  induction i as [|i IH]; intros rs r n c last rest tr Hnth Hlt Hr Hbefore;
    destruct rs as [|r0 rs]; try discriminate;
    destruct n as [|n]; try lia.
  - injection Hnth as ->. unfold serving. cbn [map app].
    now rewrite retry_loop_return.
  - unfold serving. cbn [map app].
    rewrite retry_loop_again.
    + fold (serving rs rest
              (tr ++ [Slept SLEEP_SEC; Requested url; Slept (backoff c)])).
      rewrite (IH rs r n (c + 1) (Some r0) rest _ Hnth); try lia;
        try assumption.
      * cbn [retried skipn]. now rewrite <- !List.app_assoc.
      * intros j rj Hj Hnj. apply (Hbefore (S j) rj); [lia | exact Hnj].
    + apply (Hbefore 0%nat r0); [lia | reflexivity].
Qed.

Lemma retry_loop_all_retried (n : nat) :
  forall (rs : list response) (c : Z) (last : option response)
         (rest : list (option response)) (tr : list event),
    length rs = n ->
    Forall (fun r => retried_status (status_code r) = true) rs ->
    retry_loop url n c last (serving rs rest tr)
    = (Ok (match rev rs with [] => last | r :: _ => Some r end),
       {| incoming := rest; trace := (tr ++ retried url c n)%list |}).
Proof.
  induction n as [|n IH]; intros rs c last rest tr Hlen Hall.
  - destruct rs; [| discriminate]. simpl. unfold serving. simpl.
    now rewrite List.app_nil_r.
  - destruct rs as [|r0 rs]; [discriminate |].
    inversion Hall as [|? ? H0 Hall']; subst.
    unfold serving. cbn [map app].
    rewrite (retry_loop_again url n c last r0 _ tr H0).
    fold (serving rs rest
            (tr ++ [Slept SLEEP_SEC; Requested url; Slept (backoff c)])).
    rewrite (IH rs (c + 1) (Some r0) rest _); [| now injection Hlen | exact Hall'].
    cbn [retried rev]. rewrite <- !List.app_assoc. f_equal.
    destruct (rev rs) as [|x l] eqn:Hrev; [| reflexivity].
    apply (f_equal (@rev response)) in Hrev. rewrite rev_involutive in Hrev.
    now subst rs.
Qed.

(** A transport fault after [k] retried responses. *)
Lemma retry_loop_transport_fault (rs : list response) :
  forall (n : nat) (c : Z) (last : option response)
         (rest : list (option response)) (tr : list event),
    (length rs < n)%nat ->
    Forall (fun r => retried_status (status_code r) = true) rs ->
    retry_loop url n c last
      {| incoming := (map Some rs ++ None :: rest)%list; trace := tr |}
    = (Raise ConnectionError,
       {| incoming := rest;
          trace := (tr ++ retried url c (length rs) ++ attempted url)%list |}).
Proof.
  induction rs as [|r0 rs IH]; intros n c last rest tr Hlen Hall;
    destruct n as [|n]; try (simpl in Hlen; lia).
  - simpl. now rewrite <- List.app_assoc.
  - inversion Hall as [|? ? H0 Hall']; subst.
    cbn [map app].
    rewrite (retry_loop_again url n c last r0 _ tr H0).
    rewrite (IH n (c + 1) (Some r0) rest _); [| simpl in Hlen; lia | exact Hall'].
    cbn [retried length]. now rewrite <- !List.app_assoc.
Qed.

End RetryFacts.

Section TraceFacts.

Lemma paced_from_mono (tr : list event) (b : bool) :
  paced_from false tr = true -> paced_from b tr = true.
Proof. destruct tr as [|[ms|u] tr]; simpl; auto. discriminate. Qed.

Lemma paced_from_app (a c : list event) :
  forall b, paced_from b a = true -> paced_from false c = true ->
            paced_from b (a ++ c) = true.
Proof.
  induction a as [|[ms|u] a IH]; intros b Ha Hc; simpl in *.
  - now apply paced_from_mono.
  - now apply IH.
  - apply andb_true_iff in Ha. destruct Ha as [-> Ha]. simpl. now apply IH.
Qed.

Lemma requests_app (a c : list event) :
  requests (a ++ c) = (requests a + requests c)%nat.
Proof. induction a as [|[ms|u] a IH]; simpl; auto. Qed.

Lemma slept_app (a c : list event) : slept (a ++ c) = slept a + slept c.
Proof. induction a as [|[ms|u] a IH]; simpl; lia. Qed.

Lemma worst_delay_closed (n : nat) :
  forall i, worst_delay i n
            = Z.of_nat n * (1250 + 1500 * i)
              + 750 * Z.of_nat n * (Z.of_nat n - 1).
Proof.
  induction n as [|n IH]; intros i; [reflexivity |].
  cbn [worst_delay]. rewrite IH. unfold SLEEP_SEC, backoff. nia.
Qed.

Lemma worst_delay_nonneg (n : nat) (i : Z) : 0 <= i -> 0 <= worst_delay i n.
Proof. intros H. rewrite worst_delay_closed. nia. Qed.

Variable url : string.

(** What one call of the retry loop adds to the trace and takes from the
    service, whatever the service does. *)
Lemma retry_loop_footprint (n : nat) :
  forall (i : Z) (last : option response) (w w' : world)
         (r : result (option response)),
    0 <= i ->
    retry_loop url n i last w = (r, w') ->
    exists added,
      trace w' = (trace w ++ added)%list
      /\ incoming w' = skipn (requests added) (incoming w)
      /\ (requests added <= n)%nat
      /\ paced added = true
      /\ 0 <= slept added <= worst_delay i n.
Proof.
  induction n as [|n IH]; intros i last [inc tr] w' r Hi H.
  - simpl in H. injection H as <- <-. exists []. simpl.
    rewrite List.app_nil_r. repeat split; auto; lia.
  - pose proof (worst_delay_nonneg n (i + 1) ltac:(lia)) as Hw.
    assert (Hb : 0 <= backoff i) by (unfold backoff; lia).
    assert (Hattempt :
              requests (attempted url) = 1%nat
              /\ paced (attempted url) = true
              /\ 0 <= slept (attempted url) <= worst_delay i (S n)).
    { repeat split; try reflexivity.
      - simpl. unfold SLEEP_SEC. lia.
      - cbn [worst_delay attempted slept]. unfold SLEEP_SEC in *. lia. }
    destruct Hattempt as (Hq & Hp1 & Hs1).
    destruct inc as [|[r0|] inc].
    + simpl in H. injection H as <- <-. exists (attempted url).
      cbn [trace incoming]. rewrite Hq.
      repeat split; auto; try lia.
      unfold attempted. now rewrite <- List.app_assoc.
    + destruct (retried_status (status_code r0)) eqn:Hr.
      * rewrite (retry_loop_again url n i last r0 inc tr Hr) in H.
        destruct (IH (i + 1) (Some r0) _ w' r ltac:(lia) H)
          as (added & Htr & Hinc & Hreq & Hp & Hs).
        exists ([Slept SLEEP_SEC; Requested url; Slept (backoff i)] ++ added)%list.
        cbn [trace incoming] in *.
        split. { rewrite Htr. now rewrite <- List.app_assoc. }
        split. { rewrite Hinc. reflexivity. }
        split. { simpl. lia. }
        split. { unfold paced. simpl. apply paced_from_mono. exact Hp. }
        cbn [app slept worst_delay]. unfold SLEEP_SEC in *. lia.
      * rewrite (retry_loop_return url n i last r0 inc tr Hr) in H.
        injection H as <- <-. exists (attempted url).
        cbn [trace incoming]. rewrite Hq.
        repeat split; auto; lia.
    + simpl in H. injection H as <- <-. exists (attempted url).
      cbn [trace incoming]. rewrite Hq.
      repeat split; auto; try lia.
      unfold attempted. now rewrite <- List.app_assoc.
Qed.

End TraceFacts.

(** X1: whatever the number of attempts and whatever integers the
    statuses are, [get_with_retry] returns the first response, among the
    first [tries], whose status is neither 429 nor 500 or more, after one
    paced request and one backoff for each earlier response; a status
    above 599 is retried like a 5xx.  When as many responses as attempts
    are all retried, it returns the last of them. *)
Theorem X1_get_with_retry_any_status
        (url : string) (tries : nat) (rs : list response)
        (rest : list (option response)) (tr : list event) :
  (forall (i : nat) (r : response),
     (i < tries)%nat ->
     nth_error rs i = Some r ->
     retried_status (status_code r) = false ->
     (forall j rj, (j < i)%nat -> nth_error rs j = Some rj ->
                   retried_status (status_code rj) = true) ->
     get_with_retry url tries (serving rs rest tr)
     = (Ok (Some r),
        {| incoming := (skipn (S i) (map Some rs) ++ rest)%list;
           trace := (tr ++ retried url 0 i ++ attempted url)%list |}))
  /\ (length rs = tries ->
      Forall (fun r => retried_status (status_code r) = true) rs ->
      get_with_retry url tries (serving rs rest tr)
      = (Ok (match rev rs with [] => None | r :: _ => Some r end),
         {| incoming := rest; trace := (tr ++ retried url 0 tries)%list |})).
Proof.
  split.
  - intros i r Hi Hnth Hr Hbefore.
    exact (retry_loop_first_final url i rs r tries 0 None rest tr
             Hnth Hi Hr Hbefore).
  - intros Hlen Hall.
    exact (retry_loop_all_retried url tries rs 0 None rest tr Hlen Hall).
Qed.

Lemma X1_get_with_retry_any_status_witness :
  get_with_retry "u" 2 (serving [with_status 600; with_status 302] [] [])
  = (Ok (Some (with_status 302)),
     {| incoming := [];
        trace := [Slept 250; Requested "u"; Slept 1000;
                  Slept 250; Requested "u"] |})
  /\ get_with_retry "u" 2 (serving [with_status 429; with_status 999] [] [])
     = (Ok (Some (with_status 999)),
        {| incoming := [];
           trace := [Slept 250; Requested "u"; Slept 1000;
                     Slept 250; Requested "u"; Slept 2500] |}).
Proof.
  split.
  - apply (proj1 (X1_get_with_retry_any_status "u" 2
                    [with_status 600; with_status 302] [] [])
             1%nat (with_status 302)).
    + lia.
    + reflexivity.
    + reflexivity.
    + intros [|j] rj Hj H; try lia. injection H as <-. reflexivity.
  - apply (proj2 (X1_get_with_retry_any_status "u" 2
                    [with_status 429; with_status 999] [] [])).
    + reflexivity.
    + repeat constructor.
Defined.

(** X2: a transport fault is not retried: when [session.get] raises
    after [k] retried responses, with attempts left, [get_with_retry]
    raises that fault at once, and what the service would have answered
    next is never requested. *)
Theorem X2_transport_fault_not_retried
        (url : string) (tries : nat) (rs : list response)
        (rest : list (option response)) (tr : list event) :
  (length rs < tries)%nat ->
  Forall (fun r => retried_status (status_code r) = true) rs ->
  get_with_retry url tries
    {| incoming := (map Some rs ++ None :: rest)%list; trace := tr |}
  = (Raise ConnectionError,
     {| incoming := rest;
        trace := (tr ++ retried url 0 (length rs) ++ attempted url)%list |}).
Proof.
  intros Hlen Hall.
  exact (retry_loop_transport_fault url rs tries 0 None rest tr Hlen Hall).
Qed.

Lemma X2_transport_fault_not_retried_witness :
  get_with_retry "u" default_tries
    {| incoming := [Some (with_status 503); None; Some (with_status 200)];
       trace := [] |}
  = (Raise ConnectionError,
     {| incoming := [Some (with_status 200)];
        trace := [Slept 250; Requested "u"; Slept 1000;
                  Slept 250; Requested "u"] |}).
Proof.
  apply (X2_transport_fault_not_retried "u" default_tries
           [with_status 503] [Some (with_status 200)] []).
  - unfold default_tries. simpl. lia.
  - repeat constructor.
Defined.

(** X3: whatever the service does, a call of [get_with_retry] only
    appends to the trace, sends at most [tries] requests, consumes one
    outcome of the service per request, and sends each request right after
    the pacing delay of [SLEEP_SEC]. *)
Theorem X3_get_with_retry_paced_requests
        (url : string) (tries : nat) (w w' : world)
        (r : result (option response)) :
  get_with_retry url tries w = (r, w') ->
  exists added,
    trace w' = (trace w ++ added)%list
    /\ incoming w' = skipn (requests added) (incoming w)
    /\ (requests added <= tries)%nat
    /\ paced added = true.
Proof.
  intros H.
  destruct (retry_loop_footprint url tries 0 None w w' r ltac:(lia) H)
    as (added & Htr & Hinc & Hreq & Hp & _).
  exists added. repeat split; assumption.
Qed.

Lemma X3_get_with_retry_paced_requests_witness :
  exists added,
    trace {| incoming := [Some (with_status 200)];
             trace := [Slept 250; Requested "u"; Slept 1000;
                       Slept 250; Requested "u"] |}
    = (trace {| incoming := [Some (with_status 503); None; Some (with_status 200)];
                trace := [] |} ++ added)%list
    /\ incoming {| incoming := [Some (with_status 200)];
                   trace := [Slept 250; Requested "u"; Slept 1000;
                             Slept 250; Requested "u"] |}
       = skipn (requests added)
               (incoming {| incoming := [Some (with_status 503); None;
                                         Some (with_status 200)];
                            trace := [] |})
    /\ (requests added <= default_tries)%nat
    /\ paced added = true.
Proof.
  apply (X3_get_with_retry_paced_requests "u" default_tries
           {| incoming := [Some (with_status 503); None; Some (with_status 200)];
              trace := [] |}
           {| incoming := [Some (with_status 200)];
              trace := [Slept 250; Requested "u"; Slept 1000;
                        Slept 250; Requested "u"] |}
           (Raise ConnectionError)).
  reflexivity.
Defined.

(** X4: the time a call of [get_with_retry] sleeps is bounded by the
    pacing delays and backoffs of [tries] retried attempts,
    [1250 n + 750 n (n - 1)] milliseconds for [n] attempts: 14 seconds
    for the 4 attempts of the default. *)
Theorem X4_get_with_retry_sleep_bound
        (url : string) (tries : nat) (w w' : world)
        (r : result (option response)) :
  get_with_retry url tries w = (r, w') ->
  exists added,
    trace w' = (trace w ++ added)%list
    /\ 0 <= slept added
       <= 1250 * Z.of_nat tries + 750 * Z.of_nat tries * (Z.of_nat tries - 1)
    /\ (tries = default_tries -> slept added <= 14000).
Proof.
  intros H.
  destruct (retry_loop_footprint url tries 0 None w w' r ltac:(lia) H)
    as (added & Htr & _ & _ & _ & Hs).
  exists added. rewrite worst_delay_closed in Hs.
  split; [exact Htr | split].
  - lia.
  - intros ->. unfold default_tries in Hs. lia.
Qed.

Lemma X4_get_with_retry_sleep_bound_witness :
  exists added,
    trace (snd (get_with_retry "u" default_tries
                  (serving [with_status 500; with_status 500; with_status 500;
                            with_status 503] [] [])))
    = (trace (serving [with_status 500; with_status 500; with_status 500;
                       with_status 503] [] []) ++ added)%list
    /\ 0 <= slept added
       <= 1250 * Z.of_nat default_tries
          + 750 * Z.of_nat default_tries * (Z.of_nat default_tries - 1)
    /\ (default_tries = default_tries -> slept added <= 14000).
Proof.
  apply (X4_get_with_retry_sleep_bound "u" default_tries
           (serving [with_status 500; with_status 500; with_status 500;
                     with_status 503] [] [])
           (snd (get_with_retry "u" default_tries
                   (serving [with_status 500; with_status 500; with_status 500;
                             with_status 503] [] [])))
           (fst (get_with_retry "u" default_tries
                   (serving [with_status 500; with_status 500; with_status 500;
                             with_status 503] [] [])))).
  reflexivity.
Defined.

(** X5: [get_json] returns a value only from a response that
    [get_with_retry] returned, whose status is outside 400..599 (so
    neither 429 nor a client or server error) and whose body decodes to
    that value; the world it leaves is the one [get_with_retry] left. *)
Theorem X5_get_json_value_from_decoded_success
        (url : string) (w w' : world) (v : json) :
  get_json url w = (Ok v, w') ->
  exists r,
    get_with_retry url default_tries w = (Ok (Some r), w')
    /\ json_body r = Some v
    /\ (status_code r < 400 \/ 600 <= status_code r)
    /\ status_code r <> 429.
Proof.
  unfold get_json. intros H.
  apply bind_io_inv in H. destruct H as [[e [_ He]] | [ro [w1 [Hf H]]]];
    [discriminate |].
  destruct (get_with_retry_some url w w1 ro Hf) as [r ->].
  exists r. cbn [the_response bind Monad_io ret] in H.
  unfold raise_for_status in H.
  destruct ((400 <=? status_code r) && (status_code r <? 600)) eqn:Hs;
    [discriminate |].
  cbn [ret Monad_io] in H.
  destruct (json_body r) as [v'|]; [| discriminate].
  injection H as <- <-.
  apply andb_false_iff in Hs.
  repeat split; auto.
  - destruct Hs as [Hs | Hs]; [left | right].
    + apply Z.leb_gt in Hs. exact Hs.
    + apply Z.ltb_ge in Hs. exact Hs.
  - destruct Hs as [Hs | Hs]; [apply Z.leb_gt in Hs | apply Z.ltb_ge in Hs]; lia.
Qed.

Lemma X5_get_json_value_from_decoded_success_witness :
  exists r,
    get_with_retry scenario_index_url default_tries (scenario 0)
    = (Ok (Some r), scenario_listed 0)
    /\ json_body r = Some scenario_manifest
    /\ (status_code r < 400 \/ 600 <= status_code r)
    /\ status_code r <> 429.
Proof.
  apply (X5_get_json_value_from_decoded_success
           scenario_index_url (scenario 0) (scenario_listed 0) scenario_manifest).
  reflexivity.
Defined.

(** X6: [get_json] turns an error status into an HTTPError: a client
    error other than 429 raises after a single request, without retry;
    a response that is still 429 or 5xx at the last of the 4 attempts
    raises after all of them. *)
Theorem X6_get_json_raises_http_error
        (url : string) (rest : list (option response)) (tr : list event) :
  (forall r,
     400 <= status_code r < 500 ->
     status_code r <> 429 ->
     get_json url {| incoming := Some r :: rest; trace := tr |}
     = (Raise (HTTPError (status_code r)),
        {| incoming := rest; trace := (tr ++ attempted url)%list |}))
  /\ (forall r1 r2 r3 r4,
        Forall (fun r => retried_status (status_code r) = true)
               [r1; r2; r3; r4] ->
        status_code r4 < 600 ->
        get_json url (serving [r1; r2; r3; r4] rest tr)
        = (Raise (HTTPError (status_code r4)),
           {| incoming := rest;
              trace := (tr ++ retried url 0 4)%list |})).
Proof.
  split.
  - intros r Hs H429.
    assert (Hf : retried_status (status_code r) = false).
    { unfold retried_status. apply orb_false_iff. split.
      - now apply Z.eqb_neq.
      - rewrite Z.geb_leb. apply Z.leb_gt. lia. }
    apply get_json_http_error.
    + unfold get_with_retry, default_tries.
      now rewrite (retry_loop_return url 3 0 None r rest tr Hf).
    + apply andb_true_iff. split; [apply Z.leb_le | apply Z.ltb_lt]; lia.
  - intros r1 r2 r3 r4 Hall Hlt.
    apply get_json_http_error.
    + unfold get_with_retry.
      now rewrite (retry_loop_all_retried url default_tries [r1; r2; r3; r4]
                     0 None rest tr eq_refl Hall).
    + inversion Hall as [|? ? _ H2]; subst.
      inversion H2 as [|? ? _ H3]; subst.
      inversion H3 as [|? ? _ H4]; subst.
      inversion H4 as [|? ? Hr4 _]; subst.
      unfold retried_status in Hr4. rewrite Z.geb_leb in Hr4.
      apply andb_true_iff. split; [apply Z.leb_le | apply Z.ltb_lt]; [| lia].
      apply orb_true_iff in Hr4. destruct Hr4 as [Hr4 | Hr4].
      * apply Z.eqb_eq in Hr4. lia.
      * apply Z.leb_le in Hr4. lia.
Qed.

Lemma X6_get_json_raises_http_error_witness :
  get_json scenario_index_url manifest_missing
  = (Raise (HTTPError 404),
     {| incoming := []; trace := ([] ++ attempted scenario_index_url)%list |})
  /\ get_json "u"
       (serving [with_status 429; with_status 503; with_status 500;
                 with_status 429] [] [])
     = (Raise (HTTPError 429),
        {| incoming := []; trace := ([] ++ retried "u" 0 4)%list |}).
Proof.
  split.
  - apply (proj1 (X6_get_json_raises_http_error scenario_index_url [] [])
             not_found).
    + simpl. lia.
    + discriminate.
  - apply (proj2 (X6_get_json_raises_http_error "u" [] [])
             (with_status 429) (with_status 503) (with_status 500)
             (with_status 429)).
    + repeat constructor.
    + simpl. lia.
Defined.

(** ** Selector: [is_text_file], [normalize], [score_item] and the
       selection of lines 135-143 *)

Module LowerFacts.
Import PyStr.

Lemma isspace_lower_char (c : ascii) : isspace (lower_char c) = isspace c.
Proof. destruct c as [[] [] [] [] [] [] [] []]; reflexivity. Qed.

Lemma lower_char_idem (c : ascii) : lower_char (lower_char c) = lower_char c.
Proof. destruct c as [[] [] [] [] [] [] [] []]; reflexivity. Qed.

Lemma lower_idem (s : string) : lower (lower s) = lower s.
Proof.
  induction s as [|c s IH]; simpl; [reflexivity |].
  now rewrite lower_char_idem, IH.
Qed.

Lemma lower_collapse_from (s : string) :
  forall b, lower (collapse_from b s) = collapse_from b (lower s).
Proof.
  induction s as [|c s IH]; intros b; simpl; [reflexivity |].
  rewrite isspace_lower_char.
  destruct (isspace c); [destruct b |]; simpl; now rewrite IH.
Qed.

Lemma lower_lstrip (s : string) : lower (lstrip s) = lstrip (lower s).
Proof.
  induction s as [|c s IH]; simpl; [reflexivity |].
  rewrite isspace_lower_char. now destruct (isspace c).
Qed.

Lemma lower_rstrip (s : string) : lower (rstrip s) = rstrip (lower s).
Proof.
  induction s as [|c s IH]; simpl; [reflexivity |].
  rewrite isspace_lower_char, <- IH.
  destruct (rstrip s); simpl; [now destruct (isspace c) | reflexivity].
Qed.

Lemma lower_normalized_copy (s : string) :
  lower (Spec.normalized_copy s) = Spec.normalized_copy s.
Proof.
  unfold Spec.normalized_copy, strip, collapse_ws.
  now rewrite lower_rstrip, lower_lstrip, lower_collapse_from, lower_idem.
Qed.

Lemma last_char_app (a p : string) :
  p <> "" -> last_char (a ++ p) = last_char p.
Proof.
  intros Hp. induction a as [|c a IH]; [reflexivity |].
  simpl. rewrite IH.
  destruct (a ++ p) eqn:E; [| reflexivity].
  destruct a; simpl in E; [contradiction | discriminate].
Qed.

Lemma endswith_last_char (s p : string) (d : ascii) :
  endswith s p = true -> last_char p = Some d -> last_char s = Some d.
Proof.
  intros H Hd. apply PyStrFacts.endswith_iff in H. destruct H as [a ->].
  rewrite last_char_app; [exact Hd |]. intros ->. discriminate.
Qed.

End LowerFacts.

(** X7: the result of [normalize] is in lower case, has no leading or
    trailing whitespace and no whitespace other than single spaces, and
    [normalize] leaves it unchanged. *)
Theorem X7_normalize_result_is_normal (v : json) (t : string) :
  normalize v = Ok t ->
  PyStr.lower t = t
  /\ PyStr.strip t = t
  /\ tidy false t = true
  /\ normalize (JStr t) = Ok t.
Proof.
  unfold normalize. simpl.
  destruct (or_empty v) as [s|]; [| discriminate].
  intros H. injection H as <-.
  change (PyStr.strip (PyStr.collapse_ws (PyStr.lower s)))
    with (Spec.normalized_copy s).
  pose proof (LowerFacts.lower_normalized_copy s) as Hlow.
  destruct (NormalFacts.normal_form (PyStr.lower s)) as [Hs Hc].
  fold (Spec.normalized_copy s) in Hs, Hc.
  assert (Ht : tidy false (Spec.normalized_copy s) = true).
  { apply (NormalFacts.tidy_strip _ false). apply NormalFacts.collapse_from_tidy. }
  repeat split; try assumption.
  unfold or_empty, truthy.
  destruct (String.eqb (Spec.normalized_copy s) "") eqn:He; simpl.
  - apply String.eqb_eq in He. now rewrite He.
  - now rewrite Hlow, Hc, Hs.
Qed.

Lemma X7_normalize_result_is_normal_witness :
  PyStr.lower "ex-99.1 press release" = "ex-99.1 press release"
  /\ PyStr.strip "ex-99.1 press release" = "ex-99.1 press release"
  /\ tidy false "ex-99.1 press release" = true
  /\ normalize (JStr "ex-99.1 press release") = Ok "ex-99.1 press release".
Proof.
  apply (X7_normalize_result_is_normal
           (JStr ("  EX-99.1" ++ String "009" (String "010" "Press   RELEASE ")))
           "ex-99.1 press release").
  reflexivity.
Defined.

(** X10: a filename that ends in a whitespace character is not a text
    file, whatever precedes it: the extension test is made on the name as
    given, without trimming. *)
Theorem X10_is_text_file_trailing_whitespace (s : string) (c : ascii) :
  PyStr.isspace c = true ->
  is_text_file (JStr (s ++ String c "")) = Ok false.
Proof.
  intros Hc.
  assert (Hor : or_empty (JStr (s ++ String c "")) = Ok (s ++ String c "")).
  { unfold or_empty, truthy. destruct s; reflexivity. }
  rewrite (is_text_file_extension _ _ Hor). f_equal.
  unfold Spec.textual_extension.
  assert (Hlast : last_char (PyStr.lower (s ++ String c ""))
                  = Some (PyStr.lower_char c)).
  { rewrite PyStrFacts.lower_app. now rewrite LowerFacts.last_char_app. }
  assert (Hno : forall p d, last_char p = Some d -> PyStr.isspace d = false ->
                  PyStr.endswith (PyStr.lower (s ++ String c "")) p = false).
  { intros p d Hp Hd.
    destruct (PyStr.endswith (PyStr.lower (s ++ String c "")) p) eqn:He;
      [| reflexivity].
    pose proof (LowerFacts.endswith_last_char _ _ _ He Hp) as Hl.
    rewrite Hlast in Hl. injection Hl as Hl.
    rewrite <- Hl, LowerFacts.isspace_lower_char in Hd. congruence. }
  simpl.
  rewrite (Hno ".htm" "m"%char eq_refl eq_refl),
          (Hno ".html" "l"%char eq_refl eq_refl),
          (Hno ".txt" "t"%char eq_refl eq_refl).
  reflexivity.
Qed.

Lemma X10_is_text_file_trailing_whitespace_witness :
  is_text_file (JStr ("release.htm" ++ String "010" "")) = Ok false.
Proof.
  apply (X10_is_text_file_trailing_whitespace "release.htm" "010").
  reflexivity.
Defined.

Section ScoreFacts.

Lemma table_sum_bounds (l : list Spec.signal) (name typ : string) :
  Forall (fun sg => 0 <= Spec.points sg) l ->
  0 <= fold_right
         (fun sg acc => (if Spec.fires sg name typ then Spec.points sg else 0) + acc)
         0 l
    <= total_points l.
Proof.
  induction 1 as [|sg l Hsg _ IH]; simpl; [lia |].
  destruct (Spec.fires sg name typ); lia.
Qed.

Lemma table_points_bounds (name typ : string) :
  0 <= Spec.table_points name typ <= 420.
Proof.
  change 420 with (total_points Spec.signal_table).
  apply table_sum_bounds. repeat constructor; simpl; lia.
Qed.

Lemma contains_prefix (p q s : string) :
  PyStr.contains (p ++ q) s = true -> PyStr.contains p s = true.
Proof.
  intros H. apply PyStrFacts.contains_iff in H. destruct H as [a [b ->]].
  apply PyStrFacts.contains_iff. exists a, (q ++ b).
  now rewrite PyStrFacts.app_assoc.
Qed.

(** A type that fires the second row of the table fires the first. *)
Lemma stronger_implies_strong (typ : string) :
  Spec.contains_any ["ex-99.1"; "ex-99.01"] typ = true ->
  Spec.contains_any ["99.1"; "99.01"; "ex-99"] typ = true.
Proof.
  unfold Spec.contains_any. simpl. rewrite !orb_false_r.
  intros H. apply orb_true_iff in H.
  destruct H as [H | H].
  - apply (contains_prefix "ex-99" ".1") in H. rewrite H.
    now rewrite !orb_true_r.
  - apply (contains_prefix "ex-99" ".01") in H. rewrite H.
    now rewrite !orb_true_r.
Qed.

End ScoreFacts.

(** X8: every score lies between -100 and 430; a file with a textual
    extension scores at least 10 and any other at most 320. *)
Theorem X8_score_item_bounds (item : json) (s : Z) :
  score_item item = Ok s ->
  -100 <= s <= 430
  /\ (forall name, field_text item "name" = Ok name ->
                   if Spec.textual_extension name then 10 <= s else s <= 320).
Proof.
  intros H.
  destruct (score_item_fields item s H) as [name [typ [Hn Ht]]].
  rewrite (score_item_table item name typ Hn Ht) in H. injection H as <-.
  unfold Spec.table_score, Spec.extension_points.
  pose proof (table_points_bounds (Spec.normalized_copy name)
                                  (Spec.normalized_copy typ)) as Hb.
  split.
  - destruct (Spec.textual_extension name); lia.
  - intros name' Hn'. rewrite Hn in Hn'. injection Hn' as <-.
    destruct (Spec.textual_extension name); lia.
Qed.

Lemma X8_score_item_bounds_witness :
  -100 <= 430 <= 430
  /\ (forall name,
        field_text
          (descriptor
             "ex-99_1 press release earnings release news release conference call prepared remarks investor presentation.htm"
             "EX-99.1") "name" = Ok name ->
        if Spec.textual_extension name then 10 <= 430 else 430 <= 320).
Proof.
  apply (X8_score_item_bounds
           (descriptor
              "ex-99_1 press release earnings release news release conference call prepared remarks investor presentation.htm"
              "EX-99.1") 430).
  reflexivity.
Defined.

(** X9: the +120 of the second row never comes without the +100 of the
    first, so an entry with a textual extension whose normalized type
    contains "ex-99.1" or "ex-99.01" scores at least 230 and is never
    rejected by the threshold of 20. *)
Theorem X9_exhibit_99_1_scores_at_least_230 (item : json) (name typ : string) :
  field_text item "name" = Ok name ->
  field_text item "type" = Ok typ ->
  Spec.textual_extension name = true ->
  PyStr.contains "ex-99.1" (Spec.normalized_copy typ)
  || PyStr.contains "ex-99.01" (Spec.normalized_copy typ) = true ->
  exists s, score_item item = Ok s /\ 230 <= s.
Proof.
  intros Hn Ht Hext Htyp.
  exists (Spec.table_score name typ).
  split; [exact (score_item_table item name typ Hn Ht) |].
  assert (H2 : Spec.contains_any ["ex-99.1"; "ex-99.01"]
                                 (Spec.normalized_copy typ) = true).
  { unfold Spec.contains_any. simpl. now rewrite orb_false_r. }
  pose proof (stronger_implies_strong _ H2) as H1.
  unfold Spec.table_score, Spec.extension_points. rewrite Hext.
  unfold Spec.table_points, Spec.signal_table.
  cbn [app fold_right Spec.fires Spec.points].
  rewrite H1, H2.
  pose proof (table_sum_bounds
                ({| Spec.fires := fun name _ =>
                      Spec.contains_any ["ex99"; "ex-99"] name;
                    Spec.points := 50 |}
                 :: {| Spec.fires := fun name _ =>
                         Spec.contains_any ["99_1"; "99-1"; "99.1"; "9901"] name;
                       Spec.points := 30 |}
                 :: map Spec.keyword_signal PRESS_KEYWORDS)
                (Spec.normalized_copy name) (Spec.normalized_copy typ)
                ltac:(repeat constructor; simpl; lia)) as Hrest.
  cbn [fold_right Spec.fires Spec.points] in Hrest.
  lia.
Qed.

Lemma X9_exhibit_99_1_scores_at_least_230_witness :
  exists s, score_item (descriptor "d123456dex991.HTM" "  Ex-99.1 ") = Ok s
            /\ 230 <= s.
Proof.
  apply (X9_exhibit_99_1_scores_at_least_230
           (descriptor "d123456dex991.HTM" "  Ex-99.1 ")
           "d123456dex991.HTM" "  Ex-99.1 "); reflexivity.
Defined.

Section ChoiceFacts.

Lemma text_candidates_complete (items cs : list json) :
  text_candidates items = Ok cs ->
  forall d, In d items -> eligible d -> In d cs.
Proof.
  revert cs. induction items as [|it items IH]; simpl; intros cs H d Hin Hel;
    [contradiction |].
  destruct (dict_get it "name" (JStr "")) as [n|] eqn:Hget; [| discriminate].
  destruct (is_text_file n) as [keep|] eqn:Htxt; [| discriminate].
  destruct (text_candidates items) as [tl|]; [| discriminate].
  injection H as <-.
  destruct Hin as [-> | Hin].
  - destruct Hel as [n' [Hget' Htxt']].
    rewrite Hget in Hget'. injection Hget' as <-.
    rewrite Htxt in Htxt'. injection Htxt' as ->. now left.
  - specialize (IH tl eq_refl d Hin Hel). destruct keep; [now right | exact IH].
Qed.

Lemma select_best_candidates (items cs : list json) :
  text_candidates items = Ok cs -> select_best items = select_best cs.
Proof.
  intros H. unfold select_best. rewrite H.
  rewrite text_candidates_eligible; [reflexivity |].
  apply Forall_forall. intros c Hc.
  exact (proj2 (text_candidates_sound items cs H c Hc)).
Qed.

Lemma Forall2_In_nth {A B : Type} (R : A -> B -> Prop) (l : list A) (l' : list B) :
  Forall2 R l l' ->
  forall x, In x l ->
  exists j y, nth_error l j = Some x /\ nth_error l' j = Some y /\ R x y.
Proof.
  induction 1 as [|a b l l' Hab _ IH]; intros x Hin; [contradiction |].
  destruct Hin as [-> | Hin].
  - now exists 0%nat, b.
  - destruct (IH x Hin) as (j & y & H1 & H2 & H3). now exists (S j), y.
Qed.

(** On candidates that all pass the filter and all have a score, the
    selection is decided by the greatest score. *)
Lemma select_best_top (cs : list json) :
  cs <> [] ->
  Forall eligible cs ->
  Forall (fun c => exists v, score_item c = Ok v) cs ->
  exists best top,
    In best cs
    /\ score_item best = Ok top
    /\ (forall c v, In c cs -> score_item c = Ok v -> v <= top)
    /\ select_best cs = Ok (if top <? 20 then None else Some best).
Proof.
  intros Hne Hel Hsc.
  destruct (keys_total score_item cs Hsc) as [vals Hvals].
  destruct Hvals as [|c v cs vals Hc Hcs]; [congruence |].
  destruct (py_max_first_max score_item c cs v vals Hc Hcs)
    as (i & best & top & Hmax & Hb & Ht & Hkey & Hall & _).
  exists best, top. repeat split.
  - exact (nth_error_In _ _ Hb).
  - exact Hkey.
  - intros x vx Hin Hx.
    assert (HF : Forall2 (fun c v => score_item c = Ok v) (c :: cs) (v :: vals))
      by (constructor; assumption).
    destruct (Forall2_In_nth _ _ _ HF x Hin) as (j & y & _ & Hy & Hxy).
    rewrite Hx in Hxy. injection Hxy as ->. exact (Hall j y Hy).
  - unfold select_best. rewrite (text_candidates_eligible _ Hel). simpl.
    rewrite Hmax. simpl. rewrite Hkey. simpl. now destruct (top <? 20).
Qed.

End ChoiceFacts.

(** X11: on a manifest whose entries are all descriptors, as soon as one
    entry with a textual extension scores 20 or more the selection
    answers an entry of the manifest, and the score of that entry is at
    least the score of every such entry. *)
Theorem X11_select_best_finds_acceptable_entry
        (items : list json) (d : json) (s : Z) :
  Forall descriptor_shaped items ->
  In d items ->
  eligible d ->
  score_item d = Ok s ->
  20 <= s ->
  exists best top,
    select_best items = Ok (Some best)
    /\ In best items
    /\ score_item best = Ok top
    /\ s <= top.
Proof.
  intros Hall Hin Hel Hs Hge.
  destruct (text_candidates_total items Hall) as [cs Hcs].
  pose proof (text_candidates_complete items cs Hcs d Hin Hel) as Hd.
  assert (Hne : cs <> []) by (intros ->; contradiction).
  assert (Helig : Forall eligible cs).
  { apply Forall_forall. intros c Hc.
    exact (proj2 (text_candidates_sound items cs Hcs c Hc)). }
  assert (Hsc : Forall (fun c => exists v, score_item c = Ok v) cs).
  { apply Forall_forall. intros c Hc. apply descriptor_shaped_score.
    rewrite Forall_forall in Hall. apply Hall.
    exact (proj1 (text_candidates_sound items cs Hcs c Hc)). }
  destruct (select_best_top cs Hne Helig Hsc)
    as (best & top & Hb & Hkey & Hmax & Hsel).
  pose proof (Hmax d s Hd Hs) as Hle.
  exists best, top. repeat split.
  - rewrite (select_best_candidates items cs Hcs), Hsel.
    destruct (Z.ltb_spec top 20); [lia | reflexivity].
  - exact (proj1 (text_candidates_sound items cs Hcs best Hb)).
  - exact Hkey.
  - exact Hle.
Qed.

Lemma X11_select_best_finds_acceptable_entry_witness :
  exists best top,
    select_best [descriptor "chart.pdf" "EX-99.1"; scenario_cover;
                 JObj [("type", JNull)]; scenario_release]
    = Ok (Some best)
    /\ In best [descriptor "chart.pdf" "EX-99.1"; scenario_cover;
                JObj [("type", JNull)]; scenario_release]
    /\ score_item best = Ok top
    /\ 110 <= top.
Proof.
  apply (X11_select_best_finds_acceptable_entry
           [descriptor "chart.pdf" "EX-99.1"; scenario_cover;
            JObj [("type", JNull)]; scenario_release]
           scenario_cover 110).
  - repeat constructor.
    + exists "chart.pdf", "EX-99.1". split; reflexivity.
    + exists "coverpage.htm", "EX-99". split; reflexivity.
    + exists "", "". split; reflexivity.
    + exists "ex991pressrelease.htm", "EX-99.1". split; reflexivity.
  - right. now left.
  - exists (JStr "coverpage.htm"). split; reflexivity.
  - reflexivity.
  - lia.
Defined.

(** X12: the order of the candidates matters only for ties: when the
    candidates are reordered, a rejection stays a rejection, and a winner
    whose score no other candidate equals stays the winner. *)
Theorem X12_select_best_order_matters_only_for_ties (cs cs' : list json) :
  Forall eligible cs ->
  Forall (fun c => exists v, score_item c = Ok v) cs ->
  Permutation cs cs' ->
  (select_best cs = Ok None -> select_best cs' = Ok None)
  /\ (forall best,
        select_best cs = Ok (Some best) ->
        (forall c, In c cs -> score_item c = score_item best -> c = best) ->
        select_best cs' = Ok (Some best)).
Proof.
  intros Hel Hsc Hperm.
  destruct cs as [|c0 cs0].
  - apply Permutation_nil in Hperm. subst cs'. split; [auto |].
    intros best H. discriminate.
  - assert (Hne : c0 :: cs0 <> []) by discriminate.
    assert (Hne' : cs' <> []).
    { intros ->. apply Permutation_sym, Permutation_nil in Hperm. discriminate. }
    pose proof (Permutation_Forall Hperm Hel) as Hel'.
    pose proof (Permutation_Forall Hperm Hsc) as Hsc'.
    destruct (select_best_top _ Hne Hel Hsc)
      as (b & top & Hb & Hkey & Hmax & Hsel).
    destruct (select_best_top _ Hne' Hel' Hsc')
      as (b' & top' & Hb' & Hkey' & Hmax' & Hsel').
    assert (Htop : top' = top).
    { pose proof (Hmax b' top' (Permutation_in _ (Permutation_sym Hperm) Hb') Hkey').
      pose proof (Hmax' b top (Permutation_in _ Hperm Hb) Hkey).
      lia. }
    subst top'. rewrite Hsel, Hsel'.
    destruct (top <? 20); split; try discriminate; auto.
    intros best H Huniq. injection H as <-.
    f_equal. f_equal. apply Huniq.
    + exact (Permutation_in _ (Permutation_sym Hperm) Hb').
    + now rewrite Hkey, Hkey'.
Qed.

Lemma X12_select_best_order_matters_only_for_ties_witness :
  (select_best [scenario_release; scenario_cover] = Ok None ->
   select_best [scenario_cover; scenario_release] = Ok None)
  /\ (forall best,
        select_best [scenario_release; scenario_cover] = Ok (Some best) ->
        (forall c, In c [scenario_release; scenario_cover] ->
                   score_item c = score_item best -> c = best) ->
        select_best [scenario_cover; scenario_release] = Ok (Some best)).
Proof.
  apply (X12_select_best_order_matters_only_for_ties
           [scenario_release; scenario_cover] [scenario_cover; scenario_release]).
  - repeat constructor; eexists; split; reflexivity.
  - repeat constructor; eexists; reflexivity.
  - apply perm_swap.
Defined.

(** ** Extractor: the tree passes of [clean_html_to_text] (lines 58-71) *)

Section PassFacts.

Lemma decompose_all_keeps (p : string -> list (string * string) -> bool) (n : node) :
  forall name attrs,
    In (name, attrs) (flat_map tags_of (decompose_all p n)) ->
    In (name, attrs) (tags_of n).
Proof.
  induction n as [s|s|nm at_ contents IH] using node_induction;
    intros name attrs Hin; simpl in Hin; try contradiction.
  destruct (p nm at_); simpl in Hin; [contradiction |].
  rewrite List.app_nil_r in Hin.
  destruct Hin as [Heq | Hin]; [now left |].
  right. apply in_flat_map in Hin. destruct Hin as [c [Hc Hin]].
  apply in_flat_map in Hc. destruct Hc as [c0 [Hc0 Hc]].
  rewrite Forall_forall in IH.
  apply in_flat_map. exists c0. split; [exact Hc0 |].
  apply (IH c0 Hc0 name attrs). apply in_flat_map. now exists c.
Qed.

Lemma pass_clears_and_keeps (p : string -> list (string * string) -> bool)
      (f : soup) (name : string) (attrs : list (string * string)) :
  In (name, attrs) (flat_map tags_of (flat_map (decompose_all p) f)) ->
  p name attrs = false /\ In (name, attrs) (flat_map tags_of f).
Proof.
  intros Hin. apply in_flat_map in Hin. destruct Hin as [c [Hc Hin]].
  apply in_flat_map in Hc. destruct Hc as [c0 [Hc0 Hc]].
  assert (H : In (name, attrs) (flat_map tags_of (decompose_all p c0)))
    by (apply in_flat_map; now exists c).
  split.
  - exact (decompose_all_clears p c0 name attrs H).
  - apply in_flat_map. exists c0. split; [exact Hc0 |].
    exact (decompose_all_keeps p c0 name attrs H).
Qed.

Lemma visible_removed_tag (name : string) (attrs : list (string * string))
      (contents : list node) :
  removed name attrs = true -> visible [Tag name attrs contents] = [].
Proof.
  unfold removed, visible. intros H. simpl.
  destruct (script_or_style name attrs); [reflexivity |]. simpl.
  destruct (inline_xbrl name attrs); [reflexivity |]. simpl.
  simpl in H. now rewrite H.
Qed.

Lemma visible_kept_tag (name : string) (attrs : list (string * string))
      (contents : list node) :
  removed name attrs = false ->
  visible [Tag name attrs contents] = [Tag name attrs (visible contents)].
Proof.
  unfold removed, visible. intros H.
  apply orb_false_iff in H. destruct H as [H H3].
  apply orb_false_iff in H. destruct H as [H1 H2].
  simpl. rewrite H1. simpl. rewrite H2. simpl. rewrite H3.
  now rewrite !List.app_nil_r.
Qed.

Lemma texts_app (a b : soup) : texts (a ++ b)%list = (texts a ++ texts b)%list.
Proof. unfold texts. now rewrite flat_map_app, map_app, filter_app. Qed.

Lemma extract_text_texts (s : soup) :
  extract_text s
  = PyStr.strip (PyStr.collapse_ws (PyStr.join " " (texts (visible s)))).
Proof. reflexivity. Qed.

(** Two documents whose visible trees hold the same strings give the
    same text. *)
Lemma extract_text_congruence (before after mid mid' : soup) :
  texts (visible mid) = texts (visible mid') ->
  extract_text (before ++ mid ++ after)%list
  = extract_text (before ++ mid' ++ after)%list.
Proof.
  intros H. rewrite !extract_text_texts, !visible_app, !texts_app.
  now rewrite H.
Qed.

End PassFacts.

(** X13: whatever the tree, the extracted text has no leading or
    trailing whitespace and no whitespace other than single spaces: it is
    left unchanged by the whitespace normalization of line 70. *)
Theorem X13_extract_text_is_normalized (s : soup) :
  PyStr.strip (extract_text s) = extract_text s
  /\ PyStr.collapse_ws (extract_text s) = extract_text s
  /\ tidy false (extract_text s) = true
  /\ (extract_text s = ""
      \/ exists c r, extract_text s = String c r /\ PyStr.isspace c = false).
Proof.
  destruct (NormalFacts.normal_form (get_text (visible s))) as [Hs Hc].
  repeat split.
  - exact Hs.
  - exact Hc.
  - apply (NormalFacts.tidy_strip _ false). apply NormalFacts.collapse_from_tidy.
  - apply NormalFacts.strip_head.
Qed.

(** X14: no element named script or style, no element whose name starts
    with "ix:" in any letter case, and no element hidden by its style is
    left, at any depth, in the tree the text is read from; every tag of
    that tree is a tag of the document; and such an element contributes
    nothing: the text is that of the document without it. *)
Theorem X14_removed_elements_leave_no_text :
  (forall (s : soup) (name : string) (attrs : list (string * string)),
     In (name, attrs) (flat_map tags_of (visible s)) ->
     removed name attrs = false
     /\ In (name, attrs) (flat_map tags_of s))
  /\ (forall (before after : soup) (name : string)
             (attrs : list (string * string)) (contents : list node),
        String.eqb name "script" || String.eqb name "style"
        || PyStr.startswith (PyStr.lower name) "ix:"
        || hidden_style (attr "style" attrs) = true ->
        extract_text (before ++ Tag name attrs contents :: after)%list
        = extract_text (before ++ after)%list).
Proof.
  split.
  - intros s name attrs Hin. unfold visible in Hin.
    apply pass_clears_and_keeps in Hin. destruct Hin as [H3 Hin].
    apply pass_clears_and_keeps in Hin. destruct Hin as [H2 Hin].
    apply pass_clears_and_keeps in Hin. destruct Hin as [H1 Hin].
    split; [| exact Hin]. unfold removed. now rewrite H1, H2, H3.
  - intros before after name attrs contents H.
    assert (Hr : removed name attrs = true).
    { unfold removed, script_or_style, inline_xbrl, hidden.
      destruct (String.eqb name "") eqn:He.
      - apply String.eqb_eq in He. subst name. simpl in *. exact H.
      - simpl. exact H. }
    change (Tag name attrs contents :: after)
      with ([Tag name attrs contents] ++ after)%list.
    change (before ++ after)%list with (before ++ [] ++ after)%list.
    apply extract_text_congruence.
    now rewrite (visible_removed_tag _ _ _ Hr).
Qed.

Lemma X14_removed_elements_leave_no_text_witness :
  extract_text
    ([NavigableString "Revenue"]
     ++ Tag "IX:NonFraction" [("name", "us-gaap:Revenues")]
            [NavigableString "62,020"]
     :: [NavigableString "million"])%list
  = extract_text ([NavigableString "Revenue"] ++ [NavigableString "million"])%list.
Proof.
  apply (proj2 X14_removed_elements_leave_no_text
           [NavigableString "Revenue"] [NavigableString "million"]
           "IX:NonFraction" [("name", "us-gaap:Revenues")]
           [NavigableString "62,020"]).
  reflexivity.
Defined.

(** X15: an element that is not removed contributes exactly the text of
    its contents: the tag itself leaves no mark in the output. *)
Theorem X15_kept_element_is_transparent
        (before after : soup) (name : string)
        (attrs : list (string * string)) (contents : list node) :
  removed name attrs = false ->
  extract_text (before ++ Tag name attrs contents :: after)%list
  = extract_text (before ++ contents ++ after)%list.
Proof.
  intros H.
  change (Tag name attrs contents :: after)
    with ([Tag name attrs contents] ++ after)%list.
  apply extract_text_congruence.
  rewrite (visible_kept_tag _ _ _ H). unfold texts. simpl.
  now rewrite List.app_nil_r.
Qed.

Lemma X15_kept_element_is_transparent_witness :
  extract_text
    ([NavigableString "Net "]
     ++ Tag "b" [("style", "color:red")]
            [NavigableString "income"; Tag "script" [] [NavigableString "x()"]]
     :: [NavigableString " rose"])%list
  = extract_text
      ([NavigableString "Net "]
       ++ [NavigableString "income"; Tag "script" [] [NavigableString "x()"]]
       ++ [NavigableString " rose"])%list.
Proof.
  apply (X15_kept_element_is_transparent
           [NavigableString "Net "] [NavigableString " rose"]
           "b" [("style", "color:red")]
           [NavigableString "income"; Tag "script" [] [NavigableString "x()"]]).
  reflexivity.
Defined.

(** X16: a text node made of whitespace only, and a comment, contribute
    nothing, not even a separator. *)
Theorem X16_blank_strings_and_comments_ignored (before after : soup) :
  (forall ws, PyStr.strip ws = "" ->
     extract_text (before ++ NavigableString ws :: after)%list
     = extract_text (before ++ after)%list)
  /\ (forall c,
        extract_text (before ++ Comment c :: after)%list
        = extract_text (before ++ after)%list).
Proof.
  split.
  - intros ws Hws.
    change (NavigableString ws :: after)
      with ([NavigableString ws] ++ after)%list.
    change (before ++ after)%list with (before ++ [] ++ after)%list.
    apply extract_text_congruence. unfold texts. simpl. now rewrite Hws.
  - intros c.
    change (Comment c :: after) with ([Comment c] ++ after)%list.
    change (before ++ after)%list with (before ++ [] ++ after)%list.
    now apply extract_text_congruence.
Qed.

Lemma X16_blank_strings_and_comments_ignored_witness :
  extract_text
    ([NavigableString "a"]
     ++ NavigableString (String "010" (String "009" "  "))
     :: [NavigableString "b"])%list
  = extract_text ([NavigableString "a"] ++ [NavigableString "b"])%list.
Proof.
  apply (proj1 (X16_blank_strings_and_comments_ignored
                  [NavigableString "a"] [NavigableString "b"])
           (String "010" (String "009" "  "))).
  reflexivity.
Defined.

Module SeparatorFacts.
Import PyStr.

Lemma fixed_tidy (x : string) : collapse_ws x = x -> tidy false x = true.
Proof.
  intros H. rewrite <- H. unfold collapse_ws. apply NormalFacts.collapse_from_tidy.
Qed.

Lemma stripped_head (x : string) :
  strip x = x -> x <> "" -> exists c r, x = String c r /\ isspace c = false.
Proof.
  intros Hs Hne. destruct (NormalFacts.strip_head x) as [H | [c [r [H Hc]]]];
    rewrite Hs in H; [contradiction | now exists c, r].
Qed.

Lemma stripped_rstrip (x : string) : strip x = x -> rstrip x = x.
Proof.
  intros Hs. destruct x as [|c r]; [reflexivity |].
  destruct (stripped_head _ Hs ltac:(discriminate)) as [c' [r' [E Hc]]].
  injection E as <- <-.
  unfold strip in Hs. simpl lstrip in Hs. now rewrite Hc in Hs.
Qed.

Lemma rstrip_inner (c : ascii) (x : string) :
  x <> "" -> rstrip (String c x) = String c x -> rstrip x = x.
Proof.
  intros Hne H. simpl in H.
  destruct (rstrip x) as [|c' r] eqn:Hr.
  - destruct (isspace c); [discriminate |].
    injection H as <-. contradiction.
  - now injection H as <-.
Qed.

Lemma tidy_nonspace_head (c : ascii) (r : string) (b : bool) :
  isspace c = false -> tidy false (String c r) = true ->
  tidy b (String c r) = true.
Proof. simpl. intros ->. exact (fun H => H). Qed.

Lemma tidy_then_space (x : string) :
  forall b z,
    tidy b x = true -> rstrip x = x -> x <> "" -> tidy true z = true ->
    tidy b (x ++ String " " z) = true.
Proof.
  induction x as [|c x IH]; intros b z Ht Hr Hne Hz; [contradiction |].
  destruct x as [|c' x'].
  - simpl in Hr. destruct (isspace c) eqn:Hc; [discriminate |].
    simpl. rewrite Hc. simpl. exact Hz.
  - pose proof (rstrip_inner c (String c' x') ltac:(discriminate) Hr) as Hr'.
    change (tidy b (String c (String c' x' ++ String " " z)) = true).
    simpl in Ht |- *.
    destruct (isspace c).
    + apply andb_true_iff in Ht. destruct Ht as [Hcb Ht].
      rewrite Hcb. simpl. apply (IH true z Ht Hr'); [discriminate | exact Hz].
    + apply (IH false z Ht Hr'); [discriminate | exact Hz].
Qed.

Lemma rstrip_app (a y : string) :
  rstrip y = y -> y <> "" -> rstrip (a ++ y) = a ++ y.
Proof.
  intros Hy Hne. induction a as [|c a IH]; [exact Hy |].
  simpl. rewrite IH.
  destruct (a ++ y) eqn:E; [| reflexivity].
  destruct a; simpl in E; [contradiction | discriminate].
Qed.

(** Two normalized, non-empty strings joined by one space are
    normalized. *)
Lemma joined_normal (x y : string) :
  strip x = x -> collapse_ws x = x -> x <> "" ->
  strip y = y -> collapse_ws y = y -> y <> "" ->
  strip (collapse_ws (x ++ " " ++ y)) = x ++ " " ++ y.
Proof.
  intros Hsx Hcx Hnx Hsy Hcy Hny.
  destruct (stripped_head x Hsx Hnx) as [cx [rx [Ex Hx]]].
  destruct (stripped_head y Hsy Hny) as [cy [ry [Ey Hy]]].
  assert (Ht : tidy false (x ++ String " " y) = true).
  { apply tidy_then_space.
    - now apply fixed_tidy.
    - now apply stripped_rstrip.
    - exact Hnx.
    - rewrite Ey. apply tidy_nonspace_head; [exact Hy |].
      rewrite <- Ey. now apply fixed_tidy. }
  change (x ++ " " ++ y) with (x ++ String " " y).
  unfold collapse_ws. rewrite (NormalFacts.tidy_fixed _ false Ht).
  unfold strip.
  assert (Hl : lstrip (x ++ String " " y) = x ++ String " " y).
  { rewrite Ex. simpl. now rewrite Hx. }
  rewrite Hl.
  change (x ++ String " " y) with (x ++ (String " " "" ++ y)).
  rewrite <- PyStrFacts.app_assoc.
  apply rstrip_app; [now apply stripped_rstrip | exact Hny].
Qed.

End SeparatorFacts.

(** X17: the strings of the tree are joined by one space even where the
    markup has none between them: two adjacent non-empty normalized
    strings [x] and [y] come out as [x], a space, [y]. *)
Theorem X17_adjacent_strings_are_separated (x y : string) :
  PyStr.strip x = x -> PyStr.collapse_ws x = x -> x <> "" ->
  PyStr.strip y = y -> PyStr.collapse_ws y = y -> y <> "" ->
  extract_text [NavigableString x; NavigableString y] = x ++ " " ++ y.
Proof.
  intros Hsx Hcx Hnx Hsy Hcy Hny.
  rewrite extract_text_texts. unfold texts, visible. simpl.
  rewrite Hsx, Hsy.
  destruct (String.eqb x "") eqn:Ex; [apply String.eqb_eq in Ex; contradiction |].
  destruct (String.eqb y "") eqn:Ey; [apply String.eqb_eq in Ey; contradiction |].
  simpl.
  now apply SeparatorFacts.joined_normal.
Qed.

Lemma X17_adjacent_strings_are_separated_witness :
  extract_text [NavigableString "Micro"; NavigableString "soft Corp."]
  = "Micro" ++ " " ++ "soft Corp.".
Proof.
  apply (X17_adjacent_strings_are_separated "Micro" "soft Corp.");
    try reflexivity; discriminate.
Defined.

(** ** Filing Processor: [list_accession_files],
       [download_best_press_release] (lines 115-162) *)

Section ListingFacts.

Variable str_int : string -> option string.

Lemma has_char_remove_char (c : ascii) (s : string) :
  has_char c (PyStr.remove_char c s) = false.
Proof.
  induction s as [|a s IH]; simpl; [reflexivity |].
  destruct (Ascii.eqb a c) eqn:E; [exact IH |].
  simpl. now rewrite E.
Qed.

Lemma get_json_world (url : string) (w w' : world) (r : result json) :
  get_json url w = (r, w') ->
  exists r0, get_with_retry url default_tries w = (r0, w').
Proof.
  unfold get_json. intros H.
  apply bind_io_inv in H. destruct H as [[e [Hf _]] | [ro [w1 [Hf H]]]].
  - now exists (Raise e).
  - exists (Ok ro).
    destruct ro as [resp|]; cbn [the_response bind Monad_io raise ret] in H.
    + unfold raise_for_status in H.
      destruct ((400 <=? status_code resp) && (status_code resp <? 600));
        cbn [raise ret Monad_io] in H.
      * now injection H as _ <-.
      * destruct (json_body resp); cbn [raise ret Monad_io] in H;
          now injection H as _ <-.
    + now injection H as _ <-.
Qed.

Lemma list_files_fetched (cik accession cik_short : string) (w : world) :
  str_int cik = Some cik_short ->
  list_accession_files str_int cik accession w
  = (Ok (manifest_items (fst (get_json (index_url cik_short accession) w)),
         cik_short, PyStr.remove_char "-" accession),
     snd (get_json (index_url cik_short accession) w)).
Proof.
  intros Hc. unfold list_accession_files, lift, try_except, index_url.
  cbn [bind Monad_io]. rewrite Hc.
  destruct (get_json _ w) as [[data|e] w1]; [| reflexivity].
  cbn [fst snd manifest_items bind Monad_io].
  destruct (dict_get data "directory" (JObj [])) as [directory|e]; [| reflexivity].
  destruct (dict_get directory "item" (JArr [])) as [items|e]; reflexivity.
Qed.

End ListingFacts.

(** X18: [list_accession_files] raises only when [int(cik)] does, before
    any request is made; otherwise it asks [get_json] once for the index
    URL and returns, without raising, the items found under
    "directory"/"item", or the empty list if the fetch, the decoding or
    the lookups failed, together with the identifier and the accession
    number without any hyphen. *)
Theorem X18_list_accession_files_outcomes
        (str_int : string -> option string)
        (cik accession : string) (w w' : world)
        (r : result (json * string * string)) :
  list_accession_files str_int cik accession w = (r, w') ->
  (str_int cik = None /\ r = Raise ValueError /\ w' = w)
  \/ exists cik_short fetched,
       str_int cik = Some cik_short
       /\ get_json (index_url cik_short accession) w = (fetched, w')
       /\ r = Ok (manifest_items fetched, cik_short,
                  PyStr.remove_char "-" accession)
       /\ has_char "-" (PyStr.remove_char "-" accession) = false
       /\ (forall e, fetched = Raise e -> manifest_items fetched = JArr []).
Proof.
  intros H. destruct (str_int cik) as [cs|] eqn:Hc.
  - right. rewrite (list_files_fetched str_int cik accession cs w Hc) in H.
    injection H as <- <-.
    exists cs, (fst (get_json (index_url cs accession) w)).
    repeat split.
    + now destruct (get_json (index_url cs accession) w).
    + apply has_char_remove_char.
    + now intros e ->.
  - left. rewrite (list_files_value_error str_int cik accession w Hc) in H.
    now injection H as <- <-.
Qed.

Lemma X18_list_accession_files_outcomes_witness :
  (str_int_decimal "0000789019" = None
   /\ Ok (JArr [], "789019", "000095017024008814") = Raise ValueError
   /\ {| incoming := []; trace := [Slept 250; Requested scenario_index_url] |}
      = manifest_garbled)
  \/ exists cik_short fetched,
       str_int_decimal "0000789019" = Some cik_short
       /\ get_json (index_url cik_short "0000950170-24-008814") manifest_garbled
          = (fetched,
             {| incoming := [];
                trace := [Slept 250; Requested scenario_index_url] |})
       /\ Ok (JArr [], "789019", "000095017024008814")
          = Ok (manifest_items fetched, cik_short,
                PyStr.remove_char "-" "0000950170-24-008814")
       /\ has_char "-" (PyStr.remove_char "-" "0000950170-24-008814") = false
       /\ (forall e, fetched = Raise e -> manifest_items fetched = JArr []).
Proof.
  apply (X18_list_accession_files_outcomes str_int_decimal
           "0000789019" "0000950170-24-008814" manifest_garbled
           {| incoming := []; trace := [Slept 250; Requested scenario_index_url] |}
           (Ok (JArr [], "789019", "000095017024008814"))).
  reflexivity.
Defined.

Section DownloadFacts.

Variable str_int : string -> option string.
Variable BeautifulSoup : string -> option soup.
Variable format_other : json -> string.

Local Abbreviation download :=
  (download_best_press_release str_int BeautifulSoup format_other).

(** Every way a run of [download_best_press_release] can go. *)
Lemma download_cases (cik accession : string) (w w' : world)
      (r : result (option press_release)) :
  download cik accession w = (r, w') ->
  (str_int cik = None /\ r = Raise ValueError /\ w' = w)
  \/ exists cik_short items w1,
       str_int cik = Some cik_short
       /\ list_accession_files str_int cik accession w
          = (Ok (items, cik_short, PyStr.remove_char "-" accession), w1)
       /\ ((w' = w1 /\ forall pr, r <> Ok (Some pr))
           \/ exists entries best name filetype rf,
                py_iter items = Ok entries
                /\ select_best entries = Ok (Some best)
                /\ dict_get best "name" JNull = Ok (JStr name)
                /\ has_textual_extension name
                /\ dict_get best "type" (JStr "") = Ok filetype
                /\ get_with_retry (file_url cik_short accession name)
                                  default_tries w1
                   = (rf, w')
                /\ match rf with
                   | Raise e => r = Raise e
                   | Ok None => False
                   | Ok (Some resp) =>
                       r = if negb (status_code resp =? 200) then Ok None
                           else match BeautifulSoup (content resp) with
                                | None => Raise ParserRejectedMarkup
                                | Some s =>
                                    if PyStr.len (extract_text s) <? 1000
                                    then Ok None
                                    else Ok (Some
                                      {| ExhibitFile := JStr name;
                                         ExhibitType := filetype;
                                         URL := file_url cik_short accession name;
                                         Text := extract_text s |})
                                end
                   end).
Proof.
  intros H.
  destruct (list_accession_files str_int cik accession w) as [rl w1] eqn:Hl.
  destruct (list_files_inv str_int cik accession w w1 rl Hl)
    as [[Hnone [-> ->]] | [cs [items [Hcs ->]]]].
  - left. unfold download_best_press_release in H.
    rewrite (bind_io_raise _ _ _ _ _ Hl) in H. now injection H as <- <-.
  - right. exists cs, items, w1. split; [exact Hcs | split; [reflexivity |]].
    destruct (truthy items) eqn:Ht.
    2:{ rewrite (download_empty_manifest _ _ _ _ _ _ _ _ _ _ Hl Ht) in H.
        injection H as <- <-. left. split; [reflexivity | discriminate]. }
    destruct (py_iter items) as [entries|e0] eqn:Hi.
    2:{ rewrite (download_not_iterable _ _ _ _ _ _ _ _ _ _ Hl e0 Ht Hi) in H.
        injection H as <- <-. left. split; [reflexivity | discriminate]. }
    destruct (select_best entries) as [[best|]|e0] eqn:Hs.
    3:{ rewrite (download_selection_raises _ _ _ _ _ _ _ _ _ _ Hl entries Ht Hi e0 Hs) in H.
        injection H as <- <-. left. split; [reflexivity | discriminate]. }
    2:{ rewrite (download_no_candidate _ _ _ _ _ _ _ _ _ _ Hl entries Ht Hi Hs) in H.
        injection H as <- <-. left. split; [reflexivity | discriminate]. }
    destruct (select_best_fields entries best Hs) as [name [filetype [Hn [Hty Hext]]]].
    right. exists entries, best, name, filetype.
    destruct (get_with_retry (file_url cs accession name) default_tries w1)
      as [[ro|e0] w2] eqn:Hf.
    + destruct (get_with_retry_some _ _ _ _ Hf) as [resp ->].
      rewrite (download_after_fetch str_int BeautifulSoup format_other
                 _ _ _ _ _ _ _ Hl entries Ht Hi
                 best filetype name Hs Hn Hty resp w2 Hf) in H.
      exists (Ok (Some resp)).
      destruct (negb (status_code resp =? 200)).
      * injection H as <- <-. now repeat split.
      * destruct (BeautifulSoup (content resp)) as [s|].
        -- destruct (PyStr.len (extract_text s) <? 1000);
             injection H as <- <-; now repeat split.
        -- injection H as <- <-. now repeat split.
    + rewrite (download_fetch_raises str_int BeautifulSoup format_other
                 _ _ _ _ _ _ _ Hl entries Ht Hi
                 best filetype name Hs Hn Hty e0 w2 Hf) in H.
      injection H as <- <-. exists (Raise e0). now repeat split.
Qed.

End DownloadFacts.



Section FootprintFacts.

Lemma get_with_retry_footprint (url : string) (w w' : world)
      (r : result (option response)) :
  get_with_retry url default_tries w = (r, w') ->
  exists added,
    trace w' = (trace w ++ added)%list
    /\ incoming w' = skipn (requests added) (incoming w)
    /\ (requests added <= 4)%nat
    /\ paced added = true
    /\ 0 <= slept added <= 14000.
Proof.
  intros H.
  destruct (retry_loop_footprint url default_tries 0 None w w' r ltac:(lia) H)
    as (added & Htr & Hinc & Hreq & Hp & Hs).
  exists added. rewrite worst_delay_closed in Hs. unfold default_tries in *.
  repeat split; try assumption; lia.
Qed.

Lemma footprint_compose (w w1 w' : world) (a1 a2 : list event)
      (n1 n2 : nat) (t1 t2 : Z) :
  trace w1 = (trace w ++ a1)%list ->
  incoming w1 = skipn (requests a1) (incoming w) ->
  (requests a1 <= n1)%nat -> paced a1 = true -> 0 <= slept a1 <= t1 ->
  trace w' = (trace w1 ++ a2)%list ->
  incoming w' = skipn (requests a2) (incoming w1) ->
  (requests a2 <= n2)%nat -> paced a2 = true -> 0 <= slept a2 <= t2 ->
  trace w' = (trace w ++ (a1 ++ a2))%list
  /\ incoming w' = skipn (requests (a1 ++ a2)) (incoming w)
  /\ (requests (a1 ++ a2) <= n1 + n2)%nat
  /\ paced (a1 ++ a2) = true
  /\ 0 <= slept (a1 ++ a2) <= t1 + t2.
Proof.
  intros Ht1 Hi1 Hr1 Hp1 Hs1 Ht2 Hi2 Hr2 Hp2 Hs2.
  rewrite requests_app, slept_app.
  repeat split; try lia.
  - now rewrite Ht2, Ht1, List.app_assoc.
  - rewrite Hi2, Hi1, skipn_skipn. f_equal. lia.
  - unfold paced in *. now apply paced_from_app.
Qed.

End FootprintFacts.

(** X20: whatever the service does and however the run ends, one call of
    [download_best_press_release] only appends to the trace, sends at
    most 8 requests, each right after the pacing delay, consumes one
    outcome of the service per request, and sleeps 28 seconds at most. *)
Theorem X20_download_request_budget
        (str_int : string -> option string)
        (BeautifulSoup : string -> option soup)
        (format_other : json -> string)
        (cik accession : string) (w w' : world)
        (r : result (option press_release)) :
  download_best_press_release str_int BeautifulSoup format_other
    cik accession w
  = (r, w') ->
  exists added,
    trace w' = (trace w ++ added)%list
    /\ incoming w' = skipn (requests added) (incoming w)
    /\ (requests added <= 8)%nat
    /\ paced added = true
    /\ 0 <= slept added <= 28000.
Proof.
  intros H.
  destruct (download_cases str_int BeautifulSoup format_other
              cik accession w w' r H)
    as [[_ [_ ->]] | (cs & items & w1 & Hcs & Hl & Hrest)].
  - exists []. rewrite List.app_nil_r. repeat split; auto; simpl; lia.
  - rewrite (list_files_fetched str_int cik accession cs w Hcs) in Hl.
    injection Hl as _ Hw1.
    destruct (get_json (index_url cs accession) w) as [rj wj] eqn:Hj.
    cbn [snd] in Hw1. subst wj.
    destruct (get_json_world _ _ _ _ Hj) as [r0 Hg].
    destruct (get_with_retry_footprint _ _ _ _ Hg)
      as (a1 & Ht1 & Hi1 & Hr1 & Hp1 & Hs1).
    destruct Hrest as [[-> _] | (entries & best & name & filetype & rf
                                 & _ & _ & _ & _ & _ & Hf & _)].
    + exists a1. repeat split; try assumption; lia.
    + destruct (get_with_retry_footprint _ _ _ _ Hf)
        as (a2 & Ht2 & Hi2 & Hr2 & Hp2 & Hs2).
      exists (a1 ++ a2)%list.
      exact (footprint_compose w w1 w' a1 a2 4 4 14000 14000
               Ht1 Hi1 Hr1 Hp1 Hs1 Ht2 Hi2 Hr2 Hp2 Hs2).
Qed.

Lemma X20_download_request_budget_witness :
  exists added,
    trace scenario_fetched = (trace (scenario 1000) ++ added)%list
    /\ incoming scenario_fetched
       = skipn (requests added) (incoming (scenario 1000))
    /\ (requests added <= 8)%nat
    /\ paced added = true
    /\ 0 <= slept added <= 28000.
Proof.
  apply (X20_download_request_budget
           str_int_decimal BeautifulSoup_plain no_format
           "0000789019" "0000950170-24-008814" (scenario 1000) scenario_fetched
           (Ok (Some {| ExhibitFile := JStr "ex991pressrelease.htm";
                        ExhibitType := JStr "EX-99.1";
                        URL := scenario_file_url;
                        Text := replicate 1000 "a" |}))).
  vm_compute. reflexivity.
Defined.
